(** * AIMCR reviews: risk aggregation and report layout

    Shallow embedding of the two programs of the repository,
    [json_to_pdf_longtable.py] (report generator) and [streamlit_app.py]
    (interactive form), and the properties of the specification checked
    against them.

    Both programs work on values produced by [json.load]: the embedding
    therefore starts with a small model of dynamically typed Python values,
    of the exceptions the builtins raise and of the few builtins the two
    programs call. *)

From Stdlib Require Import ZArith NArith List Bool Lia String Ascii DecimalString.
From Stdlib Require QArith.
Import ListNotations.
Local Open Scope Z_scope.
Set Warnings "-register-all".

(* ================================================================== *)
(** ** Python values *)
(* ================================================================== *)

(** A Python [str] is a sequence of Unicode code points; [len] counts code
    points, not bytes. *)
Definition pystr := list N.

(** ASCII literals of the source are written as Rocq strings. *)
Definition lit (s : string) : pystr := map N_of_ascii (list_ascii_of_string s).

(** The three non-ASCII characters that occur in literals of the source. *)
Definition EM_DASH : pystr := [8212%N].          (* U+2014 *)
Definition DOWN_ARROW : pystr := [8595%N].       (* U+2193 *)
Definition RIGHT_POINTER : pystr := [9658%N].    (* U+25BA *)

Fixpoint str_eqb (s t : pystr) : bool :=
  match s, t with
  | [], [] => true
  | c :: s', d :: t' => N.eqb c d && str_eqb s' t'
  | _, _ => false
  end.

(** A Python [float]: not-a-number, an infinity, or the finite value
    [m * 2 ^ e].  Every IEEE double is of this form. *)
Inductive pyfloat :=
| FNan
| FInf (negative : bool)
| FFin (m e : Z).

(** The values [json.load] can return. A [dict] keeps its insertion order and
    has string keys. *)
Inductive pyval :=
| PNone
| PBool (b : bool)
| PInt (z : Z)
| PFloat (f : pyfloat)
| PStr (s : pystr)
| PList (l : list pyval)
| PDict (d : list (pystr * pyval)).

(** The exceptions raised by the modelled builtins. *)
Inductive exc :=
| KeyError
| AttributeError
| TypeError
| ValueError
| OverflowError
| IndexError
| FileNotFoundError
| NotADirectoryError
| IsADirectoryError
| StreamlitAPIException.

Inductive result (A : Type) :=
| Ok (a : A)
| Raise (e : exc).
Arguments Ok {A} a.
Arguments Raise {A} e.

Definition bind {A B} (r : result A) (k : A -> result B) : result B :=
  match r with
  | Ok a => k a
  | Raise e => Raise e
  end.

Notation "x <- r ;; k" := (bind r (fun x => k))
  (at level 61, r at next level, right associativity).

Definition is_ok {A} (r : result A) : bool :=
  match r with Ok _ => true | Raise _ => false end.

(* ------------------------------------------------------------------ *)
(** *** dict *)

Fixpoint dict_lookup (d : list (pystr * pyval)) (k : pystr) : option pyval :=
  match d with
  | [] => None
  | (k', v) :: d' => if str_eqb k' k then Some v else dict_lookup d' k
  end.

(** [d[k] = v]: an existing key keeps its position, a new key is appended. *)
Fixpoint dict_set (d : list (pystr * pyval)) (k : pystr) (v : pyval)
  : list (pystr * pyval) :=
  match d with
  | [] => [(k, v)]
  | (k', v') :: d' =>
      if str_eqb k' k then (k', v) :: d' else (k', v') :: dict_set d' k v
  end.

Definition dict_keys (d : list (pystr * pyval)) : list pystr := map fst d.

(** [x.get(k, default)]: only a dict has the method. *)
Definition py_get (x : pyval) (k : pystr) (default : pyval) : result pyval :=
  match x with
  | PDict d =>
      match dict_lookup d k with
      | Some v => Ok v
      | None => Ok default
      end
  | _ => Raise AttributeError
  end.

(** [x[k]] for a string [k]: [KeyError] on a dict without the key; a list or a
    str wants an integer index, anything else is not subscriptable. *)
Definition py_getitem (x : pyval) (k : pystr) : result pyval :=
  match x with
  | PDict d =>
      match dict_lookup d k with
      | Some v => Ok v
      | None => Raise KeyError
      end
  | _ => Raise TypeError
  end.

(** [x[k] = v] for a string [k]. *)
Definition py_setitem (x : pyval) (k : pystr) (v : pyval) : result pyval :=
  match x with
  | PDict d => Ok (PDict (dict_set d k v))
  | _ => Raise TypeError
  end.

(* ------------------------------------------------------------------ *)
(** *** truth value, iteration *)

Definition truthy (v : pyval) : bool :=
  match v with
  | PNone => false
  | PBool b => b
  | PInt z => negb (z =? 0)
  | PFloat FNan => true
  | PFloat (FInf _) => true
  | PFloat (FFin m _) => negb (m =? 0)
  | PStr s => match s with [] => false | _ => true end
  | PList l => match l with [] => false | _ => true end
  | PDict d => match d with [] => false | _ => true end
  end.

(** [a or b] *)
Definition py_or (a b : pyval) : pyval := if truthy a then a else b.

(** The items a [for] loop sees: the elements of a list, the keys of a dict,
    the characters of a str. *)
Definition py_iter (v : pyval) : result (list pyval) :=
  match v with
  | PList l => Ok l
  | PDict d => Ok (map (fun kv => PStr (fst kv)) d)
  | PStr s => Ok (map (fun c => PStr [c]) s)
  | _ => Raise TypeError
  end.

(* ------------------------------------------------------------------ *)
(** *** str methods *)

(** [str.isspace] on one code point (the characters [str.strip()] removes). *)
Definition py_isspace (c : N) : bool :=
  ((9 <=? c) && (c <=? 13) || (28 <=? c) && (c <=? 32)
   || (c =? 133) || (c =? 160) || (c =? 5760)
   || (8192 <=? c) && (c <=? 8202)
   || (c =? 8232) || (c =? 8233) || (c =? 8239) || (c =? 8287)
   || (c =? 12288))%N.

Fixpoint lstrip (s : pystr) : pystr :=
  match s with
  | [] => []
  | c :: s' => if py_isspace c then lstrip s' else s
  end.

Definition rstrip (s : pystr) : pystr := rev (lstrip (rev s)).

Definition strip (s : pystr) : pystr := rstrip (lstrip s).

(** [x.strip()] *)
Definition py_strip (x : pyval) : result pystr :=
  match x with
  | PStr s => Ok (strip s)
  | _ => Raise AttributeError
  end.

Definition NEWLINE : N := 10%N.

(** [s.replace('\n', '<br/>')] *)
Definition replace_newlines (s : pystr) : pystr :=
  flat_map (fun c => if N.eqb c NEWLINE then lit "<br/>" else [c]) s.

Definition len (s : pystr) : Z := Z.of_nat (List.length s).

(* ------------------------------------------------------------------ *)
(** *** numbers *)

(** [int(f)] of a finite float truncates toward zero. *)
Definition float_trunc (m e : Z) : Z :=
  if 0 <=? e then m * 2 ^ e else Z.quot m (2 ^ (- e)).

(** [isinstance(v, (int, float))]: [bool] is a subclass of [int]. *)
Definition isinstance_int_float (v : pyval) : bool :=
  match v with
  | PBool _ | PInt _ | PFloat _ => true
  | _ => false
  end.

(** [int(v)] where [isinstance(v, (int, float))] holds. *)
Definition py_int (v : pyval) : result Z :=
  match v with
  | PBool b => Ok (if b then 1 else 0)
  | PInt z => Ok z
  | PFloat FNan => Raise ValueError
  | PFloat (FInf _) => Raise OverflowError
  | PFloat (FFin m e) => Ok (float_trunc m e)
  | _ => Raise TypeError
  end.

(** [str(z)] of an int. *)
Definition str_of_Z (z : Z) : pystr := lit (NilZero.string_of_int (Z.to_int z)).

(** [v != s] for a str [s]: only an equal str compares equal. *)
Definition py_ne_str (v : pyval) (s : pystr) : bool :=
  match v with
  | PStr t => negb (str_eqb t s)
  | _ => true
  end.

(* ================================================================== *)
(** ** The document model of the report generator *)
(* ================================================================== *)

(** The paragraph styles registered by [create_styles] (and the footer style
    built in [json_to_pdf]); their font and colour settings do not take part
    in any rule below. *)
Inductive style :=
| DocTitle | SectionHeader | ItemHeader | TableText
| NotesExpanded | NotesLabel | TotalRisk | Footer.

(** [Paragraph(text, style)]. The layout engine is a sink: a paragraph is the
    pair of its arguments. *)
Inductive para :=
| Paragraph (text : pyval) (st : style).

(** A table cell is a plain string (the header row) or a paragraph. *)
Inductive cell :=
| CellStr (s : pystr)
| CellPara (p : para).

(** The flowables appended to the story. Column widths, table styles and rule
    thickness are layout constants and are left out. *)
Inductive flowable :=
| FPara (p : para)
| Spacer (w h : Z)
| Table (data : list (list cell))
| HRFlowable
| PageBreak.

Section Embedding.

(** What is left to the Python runtime: [str(v)] of a float, a list or a dict
    (their [repr]); the addition of two floats as [sum] performs it, with its
    rounding, and the conversion of an int to a float (which overflows on
    large ints); the lexicographic order of two lists. *)
Variable repr_other : pyval -> pystr.
Variable float_add : pyfloat -> pyfloat -> pyfloat.
Variable float_of_int : Z -> result pyfloat.
Variable list_gt : list pyval -> list pyval -> result bool.

(** The JSON codec of the runtime, with the text encoding of the file:
    [json.dump(data, f, indent=4, ensure_ascii=False)] into a file opened with
    [encoding="utf-8"], and [json.load(f)] from such a file. *)
Variable json_dump : pyval -> result (list N).
Variable json_load : list N -> result pyval.

(** [str(v)], also what an f-string field [{v}] expands to. *)
Definition py_str (v : pyval) : pystr :=
  match v with
  | PNone => lit "None"
  | PBool true => lit "True"
  | PBool false => lit "False"
  | PInt z => str_of_Z z
  | PStr s => s
  | _ => repr_other v
  end.

(* ================================================================== *)
(** ** json_to_pdf_longtable.py *)
(* ================================================================== *)

Definition MAX_NOTES_IN_TABLE : Z := 800.

(** [calculate_total_risk]: the loop, with [total] as accumulator. *)
Fixpoint total_risk_loop (checks : list pyval) (total : Z) : result Z :=
  match checks with
  | [] => Ok total
  | check :: rest =>
      score <- py_get check (lit "score") PNone ;;
      if isinstance_int_float score then
        n <- py_int score ;;
        total_risk_loop rest (total + n)
      else total_risk_loop rest total
  end.

Definition calculate_total_risk (checks : pyval) : result Z :=
  items <- py_iter checks ;;
  total_risk_loop items 0.

(** The cell text shown instead of long notes. *)
Definition SEE_DETAILS : pystr :=
  lit "<i>See details below " ++ DOWN_ARROW ++ lit "</i>".

(** [create_check_elements]: the body of the loop over [checks]. It yields the
    table row of the check and, for long notes, the entry appended to
    [expanded_notes]. *)
Definition check_row (check : pyval)
  : result (list cell * option (pyval * pystr)) :=
  name <- py_get check (lit "name") (PStr EM_DASH) ;;
  score <- py_get check (lit "score") (PStr EM_DASH) ;;
  notes <- py_get check (lit "notes") PNone ;;
  notes_raw <- py_strip (py_or notes (PStr [])) ;;
  let notes_html := replace_newlines notes_raw in
  let score_display :=
    if py_ne_str score EM_DASH
    then lit "<b>" ++ py_str score ++ lit "</b>"
    else EM_DASH in
  if len notes_raw >? MAX_NOTES_IN_TABLE then
    Ok ([CellPara (Paragraph name TableText);
         CellPara (Paragraph (PStr score_display) TableText);
         CellPara (Paragraph (PStr SEE_DETAILS) TableText)],
        Some (name, notes_html))
  else
    Ok ([CellPara (Paragraph name TableText);
         CellPara (Paragraph (PStr score_display) TableText);
         CellPara (Paragraph
                     (PStr (if truthy (PStr notes_html) then notes_html else EM_DASH))
                     TableText)],
        None).

Fixpoint check_rows (checks : list pyval) (table_data : list (list cell))
  (expanded_notes : list (pyval * pystr))
  : result (list (list cell) * list (pyval * pystr)) :=
  match checks with
  | [] => Ok (table_data, expanded_notes)
  | check :: rest =>
      r <- check_row check ;;
      check_rows rest (table_data ++ [fst r])
        (match snd r with
         | Some e => expanded_notes ++ [e]
         | None => expanded_notes
         end)
  end.

(** The label and the block of one expanded note. *)
Definition expanded_block (e : pyval * pystr) : list flowable :=
  [FPara (Paragraph (PStr (RIGHT_POINTER ++ lit " " ++ py_str (fst e) ++ lit ":"))
            NotesLabel);
   FPara (Paragraph (PStr (snd e)) NotesExpanded)].

Definition TABLE_HEADER : list cell :=
  [CellStr (lit "Check"); CellStr (lit "Risk Score"); CellStr (lit "Notes")].

Definition create_check_elements (checks : pyval) : result (list flowable) :=
  items <- py_iter checks ;;
  r <- check_rows items [TABLE_HEADER] [] ;;
  let table_data := fst r in
  let expanded_notes := snd r in
  Ok ([Table table_data] ++
      match expanded_notes with
      | [] => []
      | _ => Spacer 1 10 :: flat_map expanded_block expanded_notes
      end).

(** The seven metadata fields, key and label, in the order of the source. *)
Definition fields : list (pystr * pystr) :=
  [(lit "proposal_title", lit "Proposal Title");
   (lit "principal_investigator", lit "Principal Investigator");
   (lit "proposal_date", lit "Proposal Date");
   (lit "reviewer_name", lit "Reviewer Name");
   (lit "reviewer_id", lit "Reviewer ID");
   (lit "aimcr_date", lit "AIMCR Date");
   (lit "project_id", lit "Project ID")].

Definition N_A : pystr := lit "N/A".

Definition metadata_row (metadata : pyval) (kl : pystr * pystr)
  : result (list cell) :=
  value <- py_get metadata (fst kl) (PStr N_A) ;;
  Ok [CellPara (Paragraph (PStr (lit "<b>" ++ snd kl ++ lit ":</b>")) TableText);
      CellPara (Paragraph (PStr (py_str value)) TableText)].

Fixpoint metadata_rows (metadata : pyval) (fs : list (pystr * pystr))
  (data : list (list cell)) : result (list (list cell)) :=
  match fs with
  | [] => Ok data
  | kl :: rest =>
      row <- metadata_row metadata kl ;;
      metadata_rows metadata rest (data ++ [row])
  end.

Definition create_metadata_table (metadata : pyval) : result flowable :=
  data <- metadata_rows metadata fields [] ;;
  Ok (Table data).

Definition UNNAMED : pystr := lit "(Unnamed component)".

(** [x.strip() or fallback] *)
Definition strip_or (x : pyval) (fallback : pystr) : result pystr :=
  s <- py_strip x ;;
  Ok (if truthy (PStr s) then s else fallback).

(** [add_component_section], lines 227 to 236: what the loop body appends for
    the checks of one item. *)
Definition item_checks (item : pyval) : result (list flowable) :=
  checks <- py_get item (lit "checks") (PList []) ;;
  if truthy checks then
    check_elements <- create_check_elements checks ;;
    total <- calculate_total_risk checks ;;
    Ok (check_elements ++
        [FPara (Paragraph (PStr (lit "Total Risk Score: " ++ str_of_Z total))
                  TotalRisk)])
  else
    Ok [FPara (Paragraph (PStr (lit "No checks recorded.")) TableText)].

(** The item header, [f"{idx}. {name}"]. *)
Definition item_header (idx : Z) (name : pystr) : flowable :=
  FPara (Paragraph (PStr (str_of_Z idx ++ lit ". " ++ name)) ItemHeader).

(** [add_component_section]: the loop over [enumerate(items, 1)]. The story is
    only appended to, and it is dropped when an exception leaves the loop. *)
Fixpoint component_items (story : list flowable) (idx : Z) (items : list pyval)
  : result (list flowable) :=
  match items with
  | [] => Ok story
  | item :: rest =>
      n <- py_get item (lit "name") (PStr []) ;;
      name <- strip_or n UNNAMED ;;
      body <- item_checks item ;;
      component_items (story ++ [item_header idx name] ++ body ++ [Spacer 1 25])
        (idx + 1) rest
  end.

Definition add_component_section (story : list flowable) (title : pystr)
  (items : pyval) : result (list flowable) :=
  let story := story ++ [FPara (Paragraph (PStr title) SectionHeader)] in
  if negb (truthy items) then
    Ok (story ++
        [FPara (Paragraph (PStr (lit "No items in this category.")) TableText);
         Spacer 1 20])
  else
    l <- py_iter items ;;
    component_items story 1 l.

(** [json_to_pdf], from the loaded [data] to the story handed to
    [doc.build]. [now] is the formatted time of the run. *)
Definition json_to_pdf (now : pystr) (data : pyval) : result (list flowable) :=
  let story :=
    [FPara (Paragraph (PStr (lit "KSL AI Model Control Review")) DocTitle);
     HRFlowable;
     FPara (Paragraph (PStr (lit "Review Information")) SectionHeader)] in
  metadata <- py_get data (lit "metadata") (PDict []) ;;
  table <- create_metadata_table metadata ;;
  let story := story ++ [table; Spacer 1 30] in
  items <- py_get data (lit "third_party_software") (PList []) ;;
  story <- add_component_section story (lit "Third-Party Software") items ;;
  let story := story ++ [PageBreak] in
  items <- py_get data (lit "source_code") (PList []) ;;
  story <- add_component_section story (lit "Source Code") items ;;
  let story := story ++ [PageBreak] in
  items <- py_get data (lit "datasets_user_files") (PList []) ;;
  story <- add_component_section story (lit "Datasets / User Files") items ;;
  let story := story ++ [PageBreak] in
  items <- py_get data (lit "models") (PList []) ;;
  story <- add_component_section story (lit "AI Models") items ;;
  let story :=
    story ++ [FPara (Paragraph (PStr (lit "General Observations")) SectionHeader)] in
  o <- py_get data (lit "observations") (PStr []) ;;
  observations <- strip_or o (lit "None recorded.") ;;
  let story :=
    story ++ [FPara (Paragraph (PStr observations) TableText); Spacer 1 20;
              FPara (Paragraph (PStr (lit "Final Recommendation")) SectionHeader)] in
  r <- py_get data (lit "recommendation") (PStr []) ;;
  recommendation <- strip_or r (lit "Not provided.") ;;
  Ok (story ++
      [FPara (Paragraph (PStr recommendation) TableText); Spacer 1 40; HRFlowable;
       FPara (Paragraph (PStr (lit "Report generated on " ++ now)) Footer)]).

Definition FULL_STOP : N := 46%N.

(** What precedes the last full stop of a string, if it has one. *)
Fixpoint before_last_dot (s : pystr) : option pystr :=
  match s with
  | [] => None
  | c :: s' =>
      match before_last_dot s' with
      | Some p => Some (c :: p)
      | None => if N.eqb c FULL_STOP then Some [] else None
      end
  end.

(** [s.rsplit('.', 1)[0]] *)
Definition rsplit_dot_head (s : pystr) : pystr :=
  match before_last_dot s with
  | Some p => p
  | None => s
  end.

(** Line 243, [output_filepath or json_filepath.rsplit('.', 1)[0] + ".pdf"]:
    an output path that is absent or empty gives way to the default. *)
Definition output_path (json_filepath : pystr) (output_filepath : option pystr)
  : pystr :=
  match output_filepath with
  | Some (c :: o) => c :: o
  | _ => rsplit_dot_head json_filepath ++ lit ".pdf"
  end.

(** [json_to_pdf(json_filepath, output_filepath)] as a whole. Reading the
    input and laying out the pages are the runtime's and the layout engine's:
    [load_json] gives the value read from a path, [doc_build] the outcome of
    [doc.build(story)] for the document of a path. *)
Definition json_to_pdf_file (load_json : pystr -> result pyval)
  (doc_build : pystr -> list flowable -> result unit)
  (now json_filepath : pystr) (output_filepath : option pystr) : result pystr :=
  data <- load_json json_filepath ;;
  let output_filepath := output_path json_filepath output_filepath in
  story <- json_to_pdf now data ;;
  _ <- doc_build output_filepath story ;;
  Ok output_filepath.

(** What [main] prints: the usage line, the path of the document, or the
    error. *)
Inductive printed :=
| Usage
| Created (output : pystr)
| Failed (e : exc).

(** [main()] on [sys.argv]: what it prints and the exit status of the
    program. *)
Definition main (load_json : pystr -> result pyval)
  (doc_build : pystr -> list flowable -> result unit)
  (now : pystr) (argv : list pystr) : printed * Z :=
  match argv with
  | _ :: input_file :: rest =>
      let output_file := match rest with o :: _ => Some o | [] => None end in
      match json_to_pdf_file load_json doc_build now input_file output_file with
      | Ok output => (Created output, 0)
      | Raise e => (Failed e, 1)
      end
  | _ => (Usage, 1)
  end.

(* ================================================================== *)
(** ** Ordering and arithmetic used by the form's aggregation *)
(* ================================================================== *)

(** [m1 * 2 ^ e1 > m2 * 2 ^ e2], exactly. *)
Definition fin_gt (m1 e1 m2 e2 : Z) : bool :=
  let e := Z.min e1 e2 in
  m1 * 2 ^ (e1 - e) >? m2 * 2 ^ (e2 - e).

Definition float_gt (f g : pyfloat) : bool :=
  match f, g with
  | FNan, _ | _, FNan => false
  | FInf true, _ => false
  | FInf false, FInf false => false
  | FInf false, _ => true
  | FFin _ _, FInf negative => negative
  | FFin m1 e1, FFin m2 e2 => fin_gt m1 e1 m2 e2
  end.

(** The numbers: an int (a bool counts as 0 or 1) or a float. Comparisons of
    an int with a float are exact in Python, so the int is taken as
    [z * 2 ^ 0]. *)
Definition as_int (v : pyval) : option Z :=
  match v with
  | PBool b => Some (if b then 1 else 0)
  | PInt z => Some z
  | _ => None
  end.

Definition as_float (v : pyval) : option pyfloat :=
  match v with
  | PBool b => Some (FFin (if b then 1 else 0) 0)
  | PInt z => Some (FFin z 0)
  | PFloat f => Some f
  | _ => None
  end.

Fixpoint str_gt (s t : pystr) : bool :=
  match s, t with
  | [], _ => false
  | _ :: _, [] => true
  | c :: s', d :: t' => if N.eqb c d then str_gt s' t' else N.ltb d c
  end.

(** [a > b] *)
Definition py_gt (a b : pyval) : result bool :=
  match as_int a, as_int b with
  | Some x, Some y => Ok (x >? y)
  | _, _ =>
      match as_float a, as_float b with
      | Some f, Some g => Ok (float_gt f g)
      | _, _ =>
          match a, b with
          | PStr s, PStr t => Ok (str_gt s t)
          | PList l, PList l' => list_gt l l'
          | _, _ => Raise TypeError
          end
      end
  end.

(** [a >= z] for a number [a] and an int [z] *)
Definition py_ge_int (a : pyval) (z : Z) : result bool :=
  match as_int a with
  | Some x => Ok (x >=? z)
  | None =>
      match a with
      | PFloat FNan => Ok false
      | PFloat (FInf negative) => Ok (negb negative)
      | PFloat (FFin m e) => Ok (negb (fin_gt z 0 m e))
      | _ => Raise TypeError
      end
  end.

(** [a == z] for an int [z] *)
Definition py_eq_int (a : pyval) (z : Z) : bool :=
  match a with
  | PBool _ | PInt _ =>
      match as_int a with Some x => x =? z | None => false end
  | PFloat (FFin m e) => negb (fin_gt m e z 0) && negb (fin_gt z 0 m e)
  | _ => false
  end.

(** [acc + x] where [acc] is a number: the step of [sum], whose accumulator
    starts at the int 0. *)
Definition py_add (acc x : pyval) : result pyval :=
  match as_int acc, as_int x with
  | Some a, Some b => Ok (PInt (a + b))
  | _, _ =>
      match acc, x with
      | PFloat f, PFloat g => Ok (PFloat (float_add f g))
      | PFloat f, _ =>
          match as_int x with
          | Some b => g <- float_of_int b ;; Ok (PFloat (float_add f g))
          | None => Raise TypeError
          end
      | _, PFloat g =>
          match as_int acc with
          | Some a => f <- float_of_int a ;; Ok (PFloat (float_add f g))
          | None => Raise TypeError
          end
      | _, _ => Raise TypeError
      end
  end.

(** [sum(xs)] *)
Fixpoint sum_loop (xs : list pyval) (acc : pyval) : result pyval :=
  match xs with
  | [] => Ok acc
  | x :: rest => acc' <- py_add acc x ;; sum_loop rest acc'
  end.

Definition py_sum (xs : list pyval) : result pyval := sum_loop xs (PInt 0).

(** [max(gen)] over a generator: the items are produced one at a time, and
    producing an item may raise. *)
Fixpoint max_loop (gen : list (result pyval)) (max_item : pyval) : result pyval :=
  match gen with
  | [] => Ok max_item
  | r :: rest =>
      item <- r ;;
      b <- py_gt item max_item ;;
      max_loop rest (if b then item else max_item)
  end.

Definition py_max (gen : list (result pyval)) : result pyval :=
  match gen with
  | [] => Raise ValueError
  | r :: rest => first <- r ;; max_loop rest first
  end.

(** [z in xs] for an int [z] *)
Definition py_in_int (z : Z) (xs : list pyval) : bool :=
  existsb (fun x => py_eq_int x z) xs.

(* ================================================================== *)
(** ** streamlit_app.py *)
(* ================================================================== *)

(** The fixed check names of the four categories. *)
Definition checks : list (pystr * list pystr) :=
  [(lit "third_party_software",
    [lit "Open-source license compliance";
     lit "Known vulnerabilities (CVE)";
     lit "Supply chain risks (typosquatting, protestware)";
     lit "Binary/source origin verification";
     lit "Malicious code insertion risk";
     lit "Dependency pinning & reproducibility"]);
   (lit "source_code",
    [lit "Static code analysis (bandit, semgrep)";
     lit "Secrets scanning";
     lit "Malicious code patterns";
     lit "Code provenance & signing";
     lit "Backdoors/trojans";
     lit "Obfuscated code"]);
   (lit "datasets_user_files",
    [lit "Data poisoning risk";
     lit "PII / sensitive data leakage";
     lit "Copyright / licensing issues";
     lit "Adversarial examples";
     lit "Dataset provenance";
     lit "Jailbreak prompts in dataset"]);
   (lit "models",
    [lit "Model weights integrity (hash verification)";
     lit "Known unsafe/refusal-bypassed models";
     lit "Backdoor/trojan in weights";
     lit "Model card completeness";
     lit "Unsafe fine-tuning detected";
     lit "Export-controlled model"])].

(** [checks[key]] *)
Fixpoint checks_of (table : list (pystr * list pystr)) (key : pystr)
  : result (list pystr) :=
  match table with
  | [] => Raise KeyError
  | (k, cs) :: rest => if str_eqb k key then Ok cs else checks_of rest key
  end.

(** The five options of the score selector, [[1,2,3,4,5]]: the widget returns
    one of them. *)
Inductive score_option := Opt1 | Opt2 | Opt3 | Opt4 | Opt5.

Definition option_value (o : score_option) : Z :=
  match o with Opt1 => 1 | Opt2 => 2 | Opt3 => 3 | Opt4 => 4 | Opt5 => 5 end.

(** What the widgets of one run of the script return, by widget key: the two
    buttons of a section, the name field of an artifact, the score selector and
    the notes area of a check. *)
Record ui := {
  button_add : pystr -> bool;
  text_input_name : pystr -> Z -> pystr;
  selectbox_score : pystr -> Z -> pystr -> score_option;
  text_area_notes : pystr -> Z -> pystr -> pystr;
  button_remove : pystr -> Z -> bool
}.

(** [{"score": score, "notes": notes}] *)
Definition check_result (score : Z) (notes : pystr) : pyval :=
  PDict [(lit "score", PInt score); (lit "notes", PStr notes)].

(** [{c: {"score": 1, "notes": ""} for c in cs}] *)
Definition default_checks (cs : list pystr) : pyval :=
  PDict (fold_left (fun d c => dict_set d c (check_result 1 [])) cs []).

(** The artifact appended by the add button, [n] being [len(data[key])]. *)
Definition new_artifact (n : Z) (cs : list pystr) : pyval :=
  PDict [(lit "name", PStr (lit "Artifact " ++ str_of_Z (n + 1)));
         (lit "checks", default_checks cs)].

(** [data[key].append(...)] of the add button. *)
Definition add_artifact (key : pystr) (data : pyval) : result pyval :=
  arts <- py_getitem data key ;;
  match arts with
  | PList l =>
      cs <- checks_of checks key ;;
      py_setitem data key (PList (l ++ [new_artifact (Z.of_nat (List.length l)) cs]))
  | _ => Raise AttributeError
  end.

(** The [index] argument of the selector, [current["score"] - 1], must be an
    int within the options. *)
Definition selectbox_index (score : pyval) : result unit :=
  match as_int score with
  | Some z =>
      if (0 <=? z - 1) && (z - 1 <? 5) then Ok tt else Raise StreamlitAPIException
  | None =>
      match score with
      | PFloat _ => Raise StreamlitAPIException
      | _ => Raise TypeError
      end
  end.

(** One pass of the loop over [checks[key]] for one artifact: read the current
    entry, show the two widgets, store what they return. *)
Definition edit_check (u : ui) (key : pystr) (idx : Z) (check : pystr)
  (artifact : pyval) : result pyval :=
  cks <- py_getitem artifact (lit "checks") ;;
  current <- py_getitem cks check ;;
  s <- py_getitem current (lit "score") ;;
  _ <- selectbox_index s ;;
  let score := option_value (selectbox_score u key idx check) in
  _ <- py_getitem current (lit "notes") ;;
  let notes := text_area_notes u key idx check in
  cks' <- py_setitem cks check (check_result score notes) ;;
  py_setitem artifact (lit "checks") cks'.

(** The loop over [checks[key]]; the artifact is an object of the record, so
    what was stored before an exception stays stored. *)
Fixpoint edit_checks (u : ui) (key : pystr) (idx : Z) (cs : list pystr)
  (artifact : pyval) : result unit * pyval :=
  match cs with
  | [] => (Ok tt, artifact)
  | check :: rest =>
      match edit_check u key idx check artifact with
      | Ok artifact' => edit_checks u key idx rest artifact'
      | Raise e => (Raise e, artifact)
      end
  end.

(** The body of the loop over the artifacts, up to the remove button. *)
Definition edit_artifact (u : ui) (key : pystr) (idx : Z) (artifact : pyval)
  : result unit * pyval :=
  match py_getitem artifact (lit "name") with
  | Raise e => (Raise e, artifact)
  | Ok _ =>
      match py_setitem artifact (lit "name") (PStr (text_input_name u key idx)) with
      | Raise e => (Raise e, artifact)
      | Ok artifact' =>
          match checks_of checks key with
          | Raise e => (Raise e, artifact')
          | Ok cs => edit_checks u key idx cs artifact'
          end
      end
  end.

(** How a run of a part of the script ends: it falls through, it asks for a
    rerun ([st.rerun()] after a removal), or it raises. *)
Inductive status :=
| Finished
| Rerun
| Raised (e : exc).

(** [remove_at i l]: [l.pop(i)] for a valid index. *)
Fixpoint remove_at {A} (i : nat) (l : list A) : list A :=
  match i, l with
  | _, [] => []
  | O, _ :: l' => l'
  | S i', x :: l' => x :: remove_at i' l'
  end.

(** The loop [for idx, artifact in enumerate(data[key])]: [before] are the
    artifacts already visited, [todo] the ones still to come. The result is the
    list [data[key]] as the loop leaves it. *)
Fixpoint artifacts_loop (u : ui) (key : pystr) (before todo : list pyval)
  : status * list pyval :=
  match todo with
  | [] => (Finished, before)
  | artifact :: rest =>
      let idx := Z.of_nat (List.length before) in
      match edit_artifact u key idx artifact with
      | (Raise e, artifact') => (Raised e, before ++ artifact' :: rest)
      | (Ok _, artifact') =>
          if button_remove u key idx
          then (Rerun, remove_at (List.length before) (before ++ artifact' :: rest))
          else artifacts_loop u key (before ++ [artifact']) rest
      end
  end.

(** The score of check [c] of artifact [a]: [a["checks"][c]["score"]]. *)
Definition score_of (c : pystr) (a : pyval) : result pyval :=
  cks <- py_getitem a (lit "checks") ;;
  current <- py_getitem cks c ;;
  py_getitem current (lit "score").

(** [[max(a["checks"][c]["score"] for a in data[key]) for c in checks[key]]],
    the comprehension of lines 233 and 252; [arts] is [data[key]]. *)
Fixpoint max_scores (cs : list pystr) (arts : pyval) : result (list pyval) :=
  match cs with
  | [] => Ok []
  | c :: rest =>
      l <- py_iter arts ;;
      m <- py_max (map (score_of c) l) ;;
      ms <- max_scores rest arts ;;
      Ok (m :: ms)
  end.

(** What the section shows below its artifacts. *)
Record risk_display := {
  rd_total : pyval;
  rd_color : pystr;
  rd_level : pystr
}.

(** [critical or total >= n] *)
Definition critical_or_ge (critical : bool) (total : pyval) (n : Z) : result bool :=
  if critical then Ok true else py_ge_int total n.

(** Lines 232 to 239 of [render_section]: the section risk score, shown when
    [data[key]] is not empty. *)
Definition section_risk (key : pystr) (data : pyval)
  : result (option risk_display) :=
  arts <- py_getitem data key ;;
  if truthy arts then
    cs <- checks_of checks key ;;
    scores <- max_scores cs arts ;;
    total <- py_sum scores ;;
    let critical := py_in_int 5 scores in
    c21 <- critical_or_ge critical total 21 ;;
    color <-
      (if c21 then Ok (lit "red")
       else
         c15 <- py_ge_int total 15 ;;
         Ok (if c15 then lit "orange" else lit "green")) ;;
    c21 <- critical_or_ge critical total 21 ;;
    level <-
      (if c21 then Ok (lit "CRITICAL")
       else
         c15 <- py_ge_int total 15 ;;
         if c15 then Ok (lit "HIGH")
         else
           c10 <- py_ge_int total 10 ;;
           Ok (if c10 then lit "MEDIUM" else lit "LOW")) ;;
    Ok (Some {| rd_total := total; rd_color := color; rd_level := level |})
  else Ok None.

(** [render_section(title, key)] on the record [data]: the record as the call
    leaves it, how the call ends and, when it falls through, what it shows. *)
Definition render_section (u : ui) (key : pystr) (data : pyval)
  : status * pyval * option risk_display :=
  match (if button_add u key then add_artifact key data else Ok data) with
  | Raise e => (Raised e, data, None)
  | Ok data1 =>
      match py_getitem data1 key with
      | Raise e => (Raised e, data1, None)
      | Ok (PList l) =>
          let (st, l') := artifacts_loop u key [] l in
          match py_setitem data1 key (PList l') with
          | Raise e => (Raised e, data1, None)
          | Ok data2 =>
              match st with
              | Finished =>
                  match section_risk key data2 with
                  | Ok d => (Finished, data2, d)
                  | Raise e => (Raised e, data2, None)
                  end
              | _ => (st, data2, None)
              end
          end
      | Ok other =>
          (* a dict or a str is iterated over str items, and
             [artifact['name']] fails on the first of them *)
          match py_iter other with
          | Raise e => (Raised e, data1, None)
          | Ok [] =>
              match section_risk key data1 with
              | Ok d => (Finished, data1, d)
              | Raise e => (Raised e, data1, None)
              end
          | Ok (_ :: _) => (Raised TypeError, data1, None)
          end
      end
  end.

(** The four keys in the order of [for key in checks]. *)
Definition category_keys : list pystr := map fst checks.

(** The final summary, lines 248 to 255: the loop over the categories, with
    [totals] and [has_crit] as accumulators. *)
Fixpoint summary_loop (table : list (pystr * list pystr)) (data : pyval)
  (totals : list pyval) (has_crit : bool) : result (list pyval * bool) :=
  match table with
  | [] => Ok (totals, has_crit)
  | (key, cs) :: rest =>
      arts <- py_getitem data key ;;
      if truthy arts then
        maxes <- max_scores cs arts ;;
        t <- py_sum maxes ;;
        summary_loop rest data (totals ++ [t])
          (if py_in_int 5 maxes then true else has_crit)
      else summary_loop rest data totals has_crit
  end.

(** Lines 257 and 258: [final_risk] and whether the review is reported as
    critical. *)
Definition final_summary (data : pyval) : result (pyval * bool) :=
  r <- summary_loop checks data [] false ;;
  final_risk <- py_sum (fst r) ;;
  ge <- py_ge_int final_risk 21 ;;
  Ok (final_risk, if ge then true else snd r).

(** The record of a new session, lines 117 to 129; [today] is the formatted
    date of the run. *)
Definition init_data (today : pystr) : pyval :=
  PDict [(lit "project_id", PStr (lit "PROJ001"));
         (lit "proposal_title", PStr []);
         (lit "principal_investigator", PStr []);
         (lit "proposal_date", PStr []);
         (lit "reviewer_name", PStr []);
         (lit "reviewer_id", PStr []);
         (lit "crr_date", PStr today);
         (lit "third_party_software", PList []);
         (lit "source_code", PList []);
         (lit "datasets_user_files", PList []);
         (lit "models", PList [])].

(** The keys of the four calls of lines 242 to 245, in their order. *)
Definition SECTION_KEYS : list pystr :=
  [lit "third_party_software"; lit "source_code"; lit "datasets_user_files";
   lit "models"].

(** The calls of [render_section] one after the other: a rerun or an
    exception in one section ends the run of the script, so the sections after
    it are not run. *)
Fixpoint render_sections (u : ui) (keys : list pystr) (data : pyval)
  : status * pyval :=
  match keys with
  | [] => (Finished, data)
  | key :: rest =>
      match render_section u key data with
      | (Finished, data', _) => render_sections u rest data'
      | (st, data', _) => (st, data')
      end
  end.

(** Lines 242 to 258: the four sections, then the final summary of the record
    as they leave it. *)
Definition sections_and_summary (u : ui) (data : pyval)
  : status * pyval * option (pyval * bool) :=
  match render_sections u SECTION_KEYS data with
  | (Finished, data') =>
      match final_summary data' with
      | Ok r => (Finished, data', Some r)
      | Raise e => (Raised e, data', None)
      end
  | (st, data') => (st, data', None)
  end.

(* ================================================================== *)
(** ** Drafts on disk *)
(* ================================================================== *)

(** An absolute path, as its components from the root. *)
Definition path := list pystr.

Definition SLASH : N := 47%N.
Definition DOT : pystr := lit ".".
Definition DOTDOT : pystr := lit "..".

(** [s.split("/")] *)
Fixpoint split_slash (s : pystr) : list pystr :=
  match s with
  | [] => [[]]
  | c :: s' =>
      if N.eqb c SLASH then [] :: split_slash s'
      else
        match split_slash s' with
        | w :: ws => (c :: w) :: ws
        | [] => [[c]]
        end
  end.

(** The components [pathlib] keeps of a string: empty ones and ["."] are
    dropped, [".."] stays. *)
Definition path_parts (s : pystr) : list pystr :=
  filter (fun w => negb (str_eqb w []) && negb (str_eqb w DOT)) (split_slash s).

(** [base / s]: an absolute [s] replaces the base. *)
Definition path_join (base : path) (s : pystr) : path :=
  match s with
  | c :: _ => if N.eqb c SLASH then path_parts s else base ++ path_parts s
  | [] => base
  end.

(** [p.name], the final component. *)
Definition path_name (p : path) : pystr := last p [].

(** The file system: the directories that exist (the root always does) and
    the regular files with their contents, both by resolved path. *)
Record filesystem := {
  dirs : list path;
  files : list (path * list N)
}.

Fixpoint path_eqb (p q : path) : bool :=
  match p, q with
  | [], [] => true
  | a :: p', b :: q' => str_eqb a b && path_eqb p' q'
  | _, _ => false
  end.

Definition is_dir (fs : filesystem) (p : path) : bool :=
  match p with
  | [] => true
  | _ => existsb (path_eqb p) (dirs fs)
  end.

Fixpoint file_lookup (l : list (path * list N)) (p : path) : option (list N) :=
  match l with
  | [] => None
  | (q, content) :: l' => if path_eqb q p then Some content else file_lookup l' p
  end.

Fixpoint file_set (l : list (path * list N)) (p : path) (content : list N)
  : list (path * list N) :=
  match l with
  | [] => [(p, content)]
  | (q, c) :: l' =>
      if path_eqb q p then (q, content) :: l' else (q, c) :: file_set l' p content
  end.

(** The directory the components lead to from [cur], as the system resolves
    them: [".."] goes up, a name must be an existing directory. *)
Fixpoint walk (fs : filesystem) (cur : path) (parts : list pystr) : result path :=
  match parts with
  | [] => Ok cur
  | p :: rest =>
      if str_eqb p DOTDOT then walk fs (removelast cur) rest
      else
        let next := cur ++ [p] in
        if is_dir fs next then walk fs next rest
        else
          match file_lookup (files fs) next with
          | Some _ => Raise NotADirectoryError
          | None => Raise FileNotFoundError
          end
  end.

(** The resolved location of the file a path names. *)
Definition locate (fs : filesystem) (p : path) : result path :=
  parent <- walk fs [] (removelast p) ;;
  let name := path_name p in
  if str_eqb name DOTDOT || is_dir fs (parent ++ [name]) || str_eqb name []
  then Raise IsADirectoryError
  else Ok (parent ++ [name]).

(** [open(p, "w")]: the file is created, or emptied if it exists. *)
Definition open_write (fs : filesystem) (p : path) : result (path * filesystem) :=
  target <- locate fs p ;;
  Ok (target, {| dirs := dirs fs; files := file_set (files fs) target [] |}).

(** The content of an open file once it is written and closed. *)
Definition write_all (fs : filesystem) (target : path) (content : list N)
  : filesystem :=
  {| dirs := dirs fs; files := file_set (files fs) target content |}.

(** [open(p, "r")] followed by reading the whole file. *)
Definition read_file (fs : filesystem) (p : path) : result (list N) :=
  target <- locate fs p ;;
  match file_lookup (files fs) target with
  | Some content => Ok content
  | None => Raise FileNotFoundError
  end.

(** The directory of the script, resolved, and its [drafts] directory. *)
Variable REPO_PATH : path.

Definition DRAFTS_DIR : path := path_join REPO_PATH (lit "drafts").

Definition UNKNOWN : pystr := lit "UNKNOWN".

(** [save_draft(data)]; [ts] is the formatted time of the call. The commit and
    the push of line 49 (whose failures are swallowed) leave the work tree as
    it is: they work in the bookkeeping of git, the paths with a component
    [.git], and on the remote, which the file system of the model does not
    follow. The result is the name of the file and the file system after the
    call, as far as it lies outside that bookkeeping; the state left by a call
    that raises is not followed. *)
Definition save_draft (fs : filesystem) (ts : pystr) (data : pyval)
  : result (pystr * filesystem) :=
  p <- py_get data (lit "project_id") PNone ;;
  pid <- strip_or (py_or p (PStr UNKNOWN)) UNKNOWN ;;
  let file := path_join DRAFTS_DIR (pid ++ lit "_" ++ ts ++ lit ".json") in
  f <- open_write fs file ;;
  content <- json_dump data ;;
  Ok (path_name file, write_all (snd f) (fst f) content).

(** [load_draft(name)]: any exception gives [None]. *)
Definition load_draft (fs : filesystem) (name : pystr) : pyval :=
  match (content <- read_file fs (path_join DRAFTS_DIR name) ;; json_load content) with
  | Ok data => data
  | Raise _ => PNone
  end.

(** [s.endswith(suffix)] *)
Definition ends_with (suffix s : pystr) : bool :=
  (List.length suffix <=? List.length s)%nat
  && str_eqb (skipn (List.length s - List.length suffix) s) suffix.

(** The entries of a directory: the files and the directories right below
    it. *)
Definition dir_entries (fs : filesystem) (dir : path) : list path :=
  filter (fun p => match p with [] => false | _ => path_eqb (removelast p) dir end)
    (map fst (files fs) ++ dirs fs).

(** [dir.glob("*.json")]: the entries whose name ends with [.json], hidden
    ones and directories included; nothing when [dir] is not a directory. *)
Definition glob_json (fs : filesystem) (dir : path) : list path :=
  if is_dir fs dir
  then filter (fun p => ends_with (lit ".json") (path_name p)) (dir_entries fs dir)
  else [].

(** [sorted(l, key=mtime, reverse=True)]: a stable sort, greatest key first;
    among equal keys the order of [l] is kept. *)
Fixpoint insert_newest (mtime : path -> Z) (p : path) (l : list path) : list path :=
  match l with
  | [] => [p]
  | q :: l' =>
      if mtime q <=? mtime p then p :: q :: l' else q :: insert_newest mtime p l'
  end.

Definition sorted_newest_first (mtime : path -> Z) (l : list path) : list path :=
  fold_right (insert_newest mtime) [] l.

(** [list_drafts()]; [mtime] gives the modification time of an entry, as
    [p.stat().st_mtime] orders them. *)
Definition list_drafts (mtime : path -> Z) (fs : filesystem) : list path :=
  sorted_newest_first mtime (glob_json fs DRAFTS_DIR).

(** The choices of the draft selector, line 73: [[""] + [d.name for d in drafts]]. *)
Definition draft_choices (mtime : path -> Z) (fs : filesystem) : list pystr :=
  [] :: map path_name (list_drafts mtime fs).

(* ================================================================== *)
(** ** What the specification says, in terms of the record *)
(* ================================================================== *)

(** The [score] entry of a check, if the check is a dict that has one. *)
Definition entry_score (check : pyval) : option pyval :=
  match check with
  | PDict d => dict_lookup d (lit "score")
  | _ => None
  end.

Definition is_dict (v : pyval) : bool :=
  match v with PDict _ => true | _ => false end.

(** A float score that is not a number or is infinite. *)
Definition non_finite_score (check : pyval) : bool :=
  match entry_score check with
  | Some (PFloat FNan) | Some (PFloat (FInf _)) => true
  | _ => false
  end.

(** What one score adds to the artifact total: an int as it is, a bool as 0 or
    1, a finite float truncated toward zero, anything else and a missing score
    nothing. *)
Definition int_value (score : option pyval) : Z :=
  match score with
  | Some (PBool b) => if b then 1 else 0
  | Some (PInt z) => z
  | Some (PFloat (FFin m e)) => float_trunc m e
  | _ => 0
  end.

Definition sumZ (l : list Z) : Z := fold_right Z.add 0 l.

(** The notes of a check as the table sees them: trimmed, and empty when the
    entry has no notes or notes that count as false. *)
Definition entry_notes (check : pyval) : pystr :=
  match check with
  | PDict d =>
      match dict_lookup d (lit "notes") with
      | Some (PStr s) => strip s
      | _ => []
      end
  | _ => []
  end.

(** The notes of a check entry are text, or absent, or a value that counts as
    false. *)
Definition notes_ok (check : pyval) : bool :=
  match check with
  | PDict d =>
      match dict_lookup d (lit "notes") with
      | None | Some (PStr _) => true
      | Some v => negb (truthy v)
      end
  | _ => false
  end.

(** The name a check is shown under: its [name] entry, or a dash (U+2014)
    when it has none. *)
Definition entry_name (check : pyval) : pyval :=
  match check with
  | PDict d =>
      match dict_lookup d (lit "name") with
      | Some v => v
      | None => PStr [8212%N]
      end
  | _ => PStr [8212%N]
  end.

(** The text with each line break written as a break tag, character by
    character. *)
Fixpoint break_lines (s : pystr) : pystr :=
  match s with
  | [] => []
  | c :: s' =>
      if (c =? 10)%N then lit "<br/>" ++ break_lines s' else c :: break_lines s'
  end.

(** The overflow rule: trimmed notes of more than 800 characters. *)
Definition long_notes (check : pyval) : bool :=
  len (entry_notes check) >? 800.

(** The text of the notes cell under the overflow rule: the placeholder
    "See details below" with its arrow (U+2193), in italics, for long notes;
    a dash (U+2014) for empty notes; otherwise the trimmed notes with their
    line breaks. *)
Definition notes_cell (check : pyval) : pystr :=
  if long_notes check
  then lit "<i>See details below " ++ [8595%N] ++ lit "</i>"
  else
    match entry_notes check with
    | [] => [8212%N]
    | text => break_lines text
    end.

(** The expanded block of a check: a label with the name of the check after
    a pointer (U+25BA), then the full trimmed notes with their line breaks. *)
Definition labelled_block (check : pyval) : list flowable :=
  [FPara (Paragraph
            (PStr ([9658%N] ++ lit " " ++ py_str (entry_name check) ++ lit ":"))
            NotesLabel);
   FPara (Paragraph (PStr (break_lines (entry_notes check))) NotesExpanded)].

(** The expanded blocks that follow the table: after a spacer, for each check
    with long notes in the order of the table, a label with the name of the
    check and the full trimmed notes. *)
Definition expanded_blocks (long : list pyval) : list flowable :=
  match long with
  | [] => []
  | _ => Spacer 1 10 :: flat_map labelled_block long
  end.

(** The third cell of a table row. *)
Definition third_cell (row : list cell) : option cell := nth_error row 2.

(** The artifact has an int score for the check, and which. *)
Definition has_int_score (c : pystr) (a : pyval) : bool :=
  match score_of c a with
  | Ok (PInt _) => true
  | _ => false
  end.

Definition int_score (c : pystr) (a : pyval) : Z :=
  match score_of c a with
  | Ok (PInt z) => z
  | _ => 0
  end.

(** Every artifact of the list has an int score for every check of [cs]. *)
Definition int_scores (cs : list pystr) (arts : list pyval) : bool :=
  forallb (fun a => forallb (fun c => has_int_score c a) cs) arts.

(** The maximum of the scores of check [c] across the artifacts of a
    category that is not empty. *)
Definition check_maximum (c : pystr) (arts : list pyval) : Z :=
  match arts with
  | [] => 0
  | a :: rest => fold_left Z.max (map (int_score c) rest) (int_score c a)
  end.

(** The per-check maxima of a category, and their sum, the category total. *)
Definition category_maxima (cs : list pystr) (arts : list pyval) : list Z :=
  map (fun c => check_maximum c arts) cs.

Definition category_total (cs : list pystr) (arts : list pyval) : Z :=
  sumZ (category_maxima cs arts).

(** The severity of a category, by the rule of the specification: CRITICAL if
    any per-check maximum equals 5 or the total is at least 21; else HIGH if
    the total is at least 15; else MEDIUM if it is at least 10; else LOW. *)
Definition severity (maxima : list Z) : pystr :=
  let total := sumZ maxima in
  if existsb (Z.eqb 5) maxima || (21 <=? total) then lit "CRITICAL"
  else if 15 <=? total then lit "HIGH"
  else if 10 <=? total then lit "MEDIUM"
  else lit "LOW".

(** The artifacts of a category of the record. *)
Definition category_arts (d : list (pystr * pyval)) (key : pystr) : list pyval :=
  match dict_lookup d key with
  | Some (PList l) => l
  | _ => []
  end.

(** Each of the four categories of the record is a list of artifacts with int
    scores for the checks of the category. *)
Definition scored_record (d : list (pystr * pyval)) : bool :=
  forallb
    (fun kc =>
       match dict_lookup d (fst kc) with
       | Some (PList l) => int_scores (snd kc) l
       | _ => false
       end)
    checks.

(** The categories that contribute to the review: those with at least one
    artifact. *)
Definition contributing (d : list (pystr * pyval))
  (table : list (pystr * list pystr)) : list (pystr * list pystr) :=
  filter (fun kc => match category_arts d (fst kc) with [] => false | _ => true end)
    table.

Definition review_total (d : list (pystr * pyval)) : Z :=
  sumZ (map (fun kc => category_total (snd kc) (category_arts d (fst kc)))
          (contributing d checks)).

(** Some contributing category has a per-check maximum of 5, or the review
    total is at least 21. *)
Definition review_critical (d : list (pystr * pyval)) : bool :=
  existsb
    (fun kc => existsb (Z.eqb 5) (category_maxima (snd kc) (category_arts d (fst kc))))
    (contributing d checks)
  || (21 <=? review_total d).

(** The checks of the artifact are a mapping without the name [c]. *)
Definition lacks_check (c : pystr) (a : pyval) : bool :=
  match a with
  | PDict d =>
      match dict_lookup d (lit "checks") with
      | Some (PDict cks) =>
          match dict_lookup cks c with
          | None => true
          | Some _ => false
          end
      | _ => false
      end
  | _ => false
  end.

(** Not a number: neither an int, a bool nor a float. *)
Definition non_numeric (v : pyval) : bool :=
  negb (isinstance_int_float v).

(** A check result: a mapping with an int [score] from 1 to 5 and with
    [notes]. *)
Definition valid_check (v : pyval) : bool :=
  match v with
  | PDict r =>
      match dict_lookup r (lit "score"), dict_lookup r (lit "notes") with
      | Some (PInt z), Some _ => (1 <=? z) && (z <=? 5)
      | _, _ => false
      end
  | _ => false
  end.

Definition mem (k : pystr) (l : list pystr) : bool := existsb (str_eqb k) l.

Fixpoint distinct (l : list pystr) : bool :=
  match l with
  | [] => true
  | k :: l' => negb (mem k l') && distinct l'
  end.

(** The keys of a mapping are the names [cs], none missing, none extra, none
    twice. *)
Definition exactly (cs keys : list pystr) : bool :=
  forallb (fun c => mem c keys) cs && forallb (fun k => mem k cs) keys
  && distinct keys.

(** The invariant of an artifact of a category with check names [cs]: it has
    a name, and a check result for exactly the names [cs]. *)
Definition valid_checks (cs : list pystr) (cks : list (pystr * pyval)) : bool :=
  exactly cs (dict_keys cks) && forallb (fun kv => valid_check (snd kv)) cks.

Definition valid_artifact (cs : list pystr) (a : pyval) : bool :=
  match a with
  | PDict d =>
      match dict_lookup d (lit "name"), dict_lookup d (lit "checks") with
      | Some _, Some (PDict cks) => valid_checks cs cks
      | _, _ => false
      end
  | _ => false
  end.

(** The invariant of the record: each category is a list of valid
    artifacts. *)
Definition valid_record (d : list (pystr * pyval)) : bool :=
  forallb
    (fun kc =>
       match dict_lookup d (fst kc) with
       | Some (PList l) => forallb (valid_artifact (snd kc)) l
       | _ => false
       end)
    checks.

(** The row the loop body appends to the table. *)
Definition table_row (check : pyval) : list cell :=
  match check_row check with
  | Ok r => fst r
  | Raise _ => []
  end.

(** The seven fields of the information table, key and label, as the report
    shows them. *)
Definition REPORT_FIELDS : list (pystr * pystr) :=
  map (fun kl => (lit (fst kl), lit (snd kl)))
    [("proposal_title", "Proposal Title");
     ("principal_investigator", "Principal Investigator");
     ("proposal_date", "Proposal Date");
     ("reviewer_name", "Reviewer Name");
     ("reviewer_id", "Reviewer ID");
     ("aimcr_date", "AIMCR Date");
     ("project_id", "Project ID")]%string.

(** The value shown for a metadata field: the text of its entry, or "N/A". *)
Definition metadata_value (d : list (pystr * pyval)) (key : pystr) : pystr :=
  match dict_lookup d key with
  | Some v => py_str v
  | None => lit "N/A"
  end.

Definition metadata_cells (d : list (pystr * pyval)) (kl : pystr * pystr)
  : list cell :=
  [CellPara (Paragraph (PStr (lit "<b>" ++ snd kl ++ lit ":</b>")) TableText);
   CellPara (Paragraph (PStr (metadata_value d (fst kl))) TableText)].

(** The name of an item is absent, or blank after trimming. *)
Definition unnamed (d : list (pystr * pyval)) : Prop :=
  dict_lookup d (lit "name") = None
  \/ exists s, dict_lookup d (lit "name") = Some (PStr s) /\ strip s = [].

(** The computation ends with an exception. *)
Definition raises {A} (r : result A) : Prop := exists e, r = Raise e.

(** The items of a category hold an artifact whose checks are a non-empty
    mapping. *)
Definition mapping_checks (item : pyval) : bool :=
  match item with
  | PDict a =>
      match dict_lookup a (lit "checks") with
      | Some (PDict (_ :: _)) => true
      | _ => false
      end
  | _ => false
  end.

(** The value of a score as a number, exactly: what "the sum of the numeric
    score values" adds up. *)
Definition score_value (score : option pyval) : QArith_base.Q :=
  match score with
  | Some (PBool b) => QArith_base.inject_Z (if b then 1 else 0)
  | Some (PInt z) => QArith_base.inject_Z z
  | Some (PFloat (FFin m e)) =>
      if 0 <=? e then QArith_base.inject_Z (m * 2 ^ e)
      else QArith_base.Qmake m (Z.to_pos (2 ^ (- e)))
  | _ => QArith_base.inject_Z 0
  end.

Definition value_sum (entries : list pyval) : QArith_base.Q :=
  fold_right QArith_base.Qplus (QArith_base.inject_Z 0)
    (map (fun c => score_value (entry_score c)) entries).

(** The total with the scores outside 1..5 left out, as the specification has it. *)
Definition in_range_value (score : option pyval) : Z :=
  match score with
  | Some (PInt z) => if (1 <=? z) && (z <=? 5) then z else 0
  | _ => 0
  end.

(* ================================================================== *)
(** ** The records the generator accepts, and the layout of its story *)
(* ================================================================== *)

(** The entry of a mapping, or the default of [get]. *)
Definition entry_or (d : list (pystr * pyval)) (k : pystr) (default : pyval)
  : pyval :=
  match dict_lookup d k with
  | Some v => v
  | None => default
  end.

(** The entry is a str, or absent: [get(k, "").strip()] has a value. *)
Definition text_ok (d : list (pystr * pyval)) (k : pystr) : bool :=
  match dict_lookup d k with
  | None | Some (PStr _) => true
  | Some _ => false
  end.

(** A check entry that can be laid out and added up: a mapping with proper
    notes whose score is not a NaN or infinite float. *)
Definition check_ok (check : pyval) : bool :=
  notes_ok check && negb (non_finite_score check).

(** [v] counts as false, or is a list whose elements all pass [ok]. *)
Definition empty_or_all (ok : pyval -> bool) (v : pyval) : bool :=
  match v with
  | PList l => forallb ok l
  | _ => negb (truthy v)
  end.

Definition item_ok (item : pyval) : bool :=
  match item with
  | PDict d =>
      text_ok d (lit "name")
      && empty_or_all check_ok (entry_or d (lit "checks") (PList []))
  | _ => false
  end.

Definition record_ok (d : list (pystr * pyval)) : bool :=
  is_dict (entry_or d (lit "metadata") (PDict []))
  && forallb (fun key => empty_or_all item_ok (entry_or d key (PList [])))
       category_keys
  && text_ok d (lit "observations")
  && text_ok d (lit "recommendation").

Definition style_eqb (a b : style) : bool :=
  match a, b with
  | DocTitle, DocTitle | SectionHeader, SectionHeader | ItemHeader, ItemHeader
  | TableText, TableText | NotesExpanded, NotesExpanded | NotesLabel, NotesLabel
  | TotalRisk, TotalRisk | Footer, Footer => true
  | _, _ => false
  end.

(** The texts of the paragraphs of one style, in the order of the story. *)
Definition styled (st : style) (story : list flowable) : list pyval :=
  flat_map
    (fun f =>
       match f with
       | FPara (Paragraph text st') => if style_eqb st' st then [text] else []
       | _ => []
       end)
    story.

Definition page_breaks (story : list flowable) : nat :=
  List.length
    (filter (fun f => match f with PageBreak => true | _ => false end) story).

(** The styles that mark the structure of a report: its title, the headers
    of its sections and of their items, and its footer. *)
Definition structural (st : style) : bool :=
  match st with
  | DocTitle | SectionHeader | ItemHeader | Footer => true
  | _ => false
  end.

(** What the body of an item is made of: tables, spacers, and paragraphs
    that are not structural. *)
Definition in_body (f : flowable) : bool :=
  match f with
  | FPara (Paragraph _ st) => negb (structural st)
  | Spacer _ _ | Table _ => true
  | HRFlowable | PageBreak => false
  end.

(** The name an item is shown under: its trimmed name, or the placeholder. *)
Definition item_name (item : pyval) : pystr :=
  match item with
  | PDict d =>
      match dict_lookup d (lit "name") with
      | Some (PStr s) =>
          match strip s with [] => lit "(Unnamed component)" | n => n end
      | _ => lit "(Unnamed component)"
      end
  | _ => lit "(Unnamed component)"
  end.

(** The header of an item without a name, numbered [idx]. *)
Definition unnamed_header (idx : Z) : flowable :=
  FPara (Paragraph (PStr (str_of_Z idx ++ lit ". (Unnamed component)")) ItemHeader).

(** The headers ["idx. name"] of consecutive items, counted from [idx]. *)
Fixpoint numbered (idx : Z) (names : list pystr) : list pyval :=
  match names with
  | [] => []
  | n :: rest => PStr (str_of_Z idx ++ lit ". " ++ n) :: numbered (idx + 1) rest
  end.

(** The titles of the sections of a report, in their order. *)
Definition SECTION_TITLES : list pyval :=
  map (fun s => PStr (lit s))
    ["Review Information"; "Third-Party Software"; "Source Code";
     "Datasets / User Files"; "AI Models"; "General Observations";
     "Final Recommendation"]%string.

(* ================================================================== *)
(** ** What a run of a section does to its artifacts *)
(* ================================================================== *)

(** The first of the [n] artifacts from index [idx] on whose remove button is
    clicked. *)
Fixpoint first_remove (u : ui) (key : pystr) (idx n : nat) : option nat :=
  match n with
  | O => None
  | S n' =>
      if button_remove u key (Z.of_nat idx) then Some idx
      else first_remove u key (S idx) n'
  end.

(** [a["checks"][c]] *)
Definition check_of (c : pystr) (a : pyval) : result pyval :=
  cks <- py_getitem a (lit "checks") ;;
  py_getitem cks c.

(** Lines 212 to 217: what the loop over the checks reads of the stored entry
    of a check before its two widgets are shown. *)
Definition read_current (check : pystr) (artifact : pyval) : result unit :=
  current <- check_of check artifact ;;
  s <- py_getitem current (lit "score") ;;
  selectbox_index s.

(** The exception that a stored score ends the score selector of line 217
    with: an int that is not one of 1 to 5 gives no index of the five options
    ([False] counts as 0, [True] as 1), a float gives an index that is not an
    int, and a value that is not a number has no [- 1]. *)
Definition score_error (s : pyval) : option exc :=
  match s with
  | PInt z =>
      if (1 <=? z) && (z <=? 5) then None else Some StreamlitAPIException
  | PBool true => None
  | PBool false | PFloat _ => Some StreamlitAPIException
  | _ => Some TypeError
  end.

(** Some component of the path is [.git]: the path lies inside the
    bookkeeping of a repository. *)
Definition in_git (p : path) : bool := existsb (str_eqb (lit ".git")) p.

(** What the widgets of check [c] of the artifact of index [idx] return, as
    the entry that is stored. *)
Definition widget_result (u : ui) (key : pystr) (idx : Z) (c : pystr) : pyval :=
  check_result (option_value (selectbox_score u key idx c))
    (text_area_notes u key idx c).

(** The artifact holds what the widgets of index [idx] returned: the name of
    the name field and, for each check, the score of the selector and the text
    of the notes area. *)
Definition shows (u : ui) (key : pystr) (cs : list pystr) (idx : Z) (a : pyval)
  : Prop :=
  py_getitem a (lit "name") = Ok (PStr (text_input_name u key idx))
  /\ forall c, In c cs -> check_of c a = Ok (widget_result u key idx c).

(** The artifacts a run of the section starts from: those of the record and,
    when the add button is clicked, the new one. *)
Definition with_added (u : ui) (key : pystr) (cs : list pystr) (l : list pyval)
  : list pyval :=
  if button_add u key
  then l ++ [new_artifact (Z.of_nat (List.length l)) cs]
  else l.

(* ================================================================== *)
(** ** The drafts and their listing *)
(* ================================================================== *)

(** The record has no project id to name its draft by: none, a value that
    counts as false, or a blank text. *)
Definition blank_project_id (d : list (pystr * pyval)) : bool :=
  match dict_lookup d (lit "project_id") with
  | None => true
  | Some (PStr s) => match strip s with [] => true | _ => false end
  | Some v => negb (truthy v)
  end.

(** The list is in the order of the modification times, the latest first. *)
Fixpoint newest_first (mtime : path -> Z) (l : list path) : bool :=
  match l with
  | [] => true
  | p :: l' =>
      match l' with
      | [] => true
      | q :: _ => (mtime q <=? mtime p) && newest_first mtime l'
      end
  end.

(** The file system once [content] is written to the file [target]. *)
Definition written (fs : filesystem) (target : path) (content : list N)
  : filesystem :=
  write_all {| dirs := dirs fs; files := file_set (files fs) target [] |}
    target content.

(* ================================================================== *)
(** ** Sample records *)
(* ================================================================== *)

(** A runtime to run the samples with: floats added exactly, every int
    convertible, lists never greater, and the serialized form of a record
    reduced to its project id. None of the samples below depends on these
    choices beyond their being functions. *)
Definition sample_repr (v : pyval) : pystr := lit "<value>".

Definition sample_float_add (f g : pyfloat) : pyfloat :=
  match f, g with
  | FNan, _ | _, FNan => FNan
  | FInf a, FInf b => if Bool.eqb a b then FInf a else FNan
  | FInf a, _ => FInf a
  | _, FInf b => FInf b
  | FFin m1 e1, FFin m2 e2 =>
      let e := Z.min e1 e2 in
      FFin (m1 * 2 ^ (e1 - e) + m2 * 2 ^ (e2 - e)) e
  end.

Definition sample_float_of_int (z : Z) : result pyfloat := Ok (FFin z 0).

Definition sample_list_gt (l l' : list pyval) : result bool := Ok false.

Definition sample_json_dump (v : pyval) : result (list N) :=
  p <- py_get v (lit "project_id") PNone ;;
  Ok (match p with PStr s => s | _ => [] end).

Definition sample_json_load (content : list N) : result pyval :=
  Ok (PDict [(lit "project_id", PStr content)]).

(** An artifact of a category with check names [cs], with the given scores
    and empty notes. *)
Definition scored_artifact (name : pystr) (cs : list pystr) (scores : list Z)
  : pyval :=
  PDict [(lit "name", PStr name);
         (lit "checks",
          PDict (combine cs (map (fun z => check_result z []) scores)))].

(** [checks["models"]] *)
Definition models_checks : list pystr :=
  match checks_of checks (lit "models") with
  | Ok cs => cs
  | Raise _ => []
  end.

(** The record of a new session, as the form creates it (the date of the
    session apart). *)
Definition empty_record : list (pystr * pyval) :=
  [(lit "project_id", PStr (lit "PROJ001"));
   (lit "proposal_title", PStr []);
   (lit "principal_investigator", PStr []);
   (lit "proposal_date", PStr []);
   (lit "reviewer_name", PStr []);
   (lit "reviewer_id", PStr []);
   (lit "crr_date", PStr (lit "01-12-2025"));
   (lit "third_party_software", PList []);
   (lit "source_code", PList []);
   (lit "datasets_user_files", PList []);
   (lit "models", PList [])].

(** The record with the given artifacts as its models. *)
Definition with_models (arts : list pyval) : list (pystr * pyval) :=
  dict_set empty_record (lit "models") (PList arts).

(** One model with scores 5, 1, 1, 1, 1, 1. *)
Definition one_critical_model : list (pystr * pyval) :=
  with_models [scored_artifact (lit "Artifact 1") models_checks [5; 1; 1; 1; 1; 1]].

(** A check entry with the given score. *)
Definition scored_entry (score : pyval) : pyval :=
  PDict [(lit "name", PStr (lit "Secrets scanning"));
         (lit "score", score);
         (lit "notes", PStr [])].

(** The float 2.5. *)
Definition two_and_a_half : pyfloat := FFin 5 (-1).

Definition LETTER_A : N := 97%N.
Definition SPACE : N := 32%N.

(** A check entry with the given notes. *)
Definition noted_entry (notes : pystr) : pyval :=
  PDict [(lit "name", PStr (lit "Dataset provenance"));
         (lit "score", PInt 2);
         (lit "notes", PStr notes)].

(** A model whose checks stop after the fifth name: "Export-controlled model"
    is missing. *)
Definition five_checks_model : list (pystr * pyval) :=
  with_models [scored_artifact (lit "Artifact 1") models_checks [2; 1; 1; 1; 1]].

(** One model with scores 7, 1, 1, 1, 1, 1. *)
Definition out_of_range_model : list (pystr * pyval) :=
  with_models [scored_artifact (lit "Artifact 1") models_checks [7; 1; 1; 1; 1; 1]].

(** One model whose first score is the text "high". *)
Definition text_score_model : list (pystr * pyval) :=
  with_models
    [PDict [(lit "name", PStr (lit "Artifact 1"));
            (lit "checks",
             PDict (combine models_checks
                      (PDict [(lit "score", PStr (lit "high")); (lit "notes", PStr [])]
                       :: repeat (check_result 1 []) 5)))]].

(** The record of a new session after one click on the add button of the
    models section. *)
Definition draft_with_one_model : list (pystr * pyval) :=
  match add_artifact (lit "models") (PDict empty_record) with
  | Ok (PDict d) => d
  | _ => []
  end.

Definition RUN_TIME : pystr := lit "2025-12-01 09:30:00".

(** The user clicks the add button of the section, names every artifact
    "Llama", scores every check 4 with the note "see report", and removes the
    second artifact. *)
Definition sample_ui : ui :=
  {| button_add := fun _ => true;
     text_input_name := fun _ _ => lit "Llama";
     selectbox_score := fun _ _ _ => Opt4;
     text_area_notes := fun _ _ _ => lit "see report";
     button_remove := fun _ idx => idx =? 1 |}.

Definition SAMPLE_REPO : path := [lit "srv"; lit "aimcr-reviews"].

(** The repository with its empty [drafts] directory. *)
Definition fresh_repo : filesystem :=
  {| dirs := [[lit "srv"];
              [lit "srv"; lit "aimcr-reviews"];
              [lit "srv"; lit "aimcr-reviews"; lit "drafts"]];
     files := [] |}.

Definition traversal_record : list (pystr * pyval) :=
  dict_set empty_record (lit "project_id") (PStr (lit "../x")).

Definition SAVE_TIME : pystr := lit "20251201_093000".

(** A record as the generator expects it: metadata, two models, the first
    with two checks in a list, the second without name and checks, no
    datasets, a null for the source code, and observations. *)
Definition sample_report : list (pystr * pyval) :=
  [(lit "metadata",
    PDict [(lit "project_id", PStr (lit "P-17"));
           (lit "reviewer_name", PStr (lit "R. Daneel"))]);
   (lit "models",
    PList [PDict [(lit "name", PStr (lit "  Llama 3 "));
                  (lit "checks",
                   PList [scored_entry (PInt 3); noted_entry (lit "see report")])];
           PDict []]);
   (lit "source_code", PNone);
   (lit "observations", PStr (lit "Weights verified."))].

(** One artifact in each of the four categories, every check scored 1. *)
Definition all_ones_record : list (pystr * pyval) :=
  map (fun kc =>
         (fst kc, PList [scored_artifact (lit "Artifact 1") (snd kc) (repeat 1 6)]))
    checks.

(** The user of [sample_ui], but who removes nothing. *)
Definition quiet_ui : ui :=
  {| button_add := fun _ => true;
     text_input_name := fun _ _ => lit "Llama";
     selectbox_score := fun _ _ _ => Opt4;
     text_area_notes := fun _ _ _ => lit "see report";
     button_remove := fun _ _ => false |}.

(** The user who has just loaded a draft with the model of
    [five_checks_model] and touches nothing: no button is clicked, and each
    widget returns the value it was shown with. *)
Definition idle_ui : ui :=
  {| button_add := fun _ => false;
     text_input_name := fun _ _ => lit "Artifact 1";
     selectbox_score :=
       fun _ _ c =>
         if str_eqb c (lit "Model weights integrity (hash verification)")
         then Opt2 else Opt1;
     text_area_notes := fun _ _ _ => [];
     button_remove := fun _ _ => false |}.


(** The record of a new session with its project id blanked out. *)
Definition blank_id_record : list (pystr * pyval) :=
  dict_set empty_record (lit "project_id") (PStr (lit "   ")).

(** The repository with two drafts, a directory named like a draft, and a
    note that is no draft. *)
Definition repo_with_drafts : filesystem :=
  {| dirs := [[lit "srv"];
              [lit "srv"; lit "aimcr-reviews"];
              [lit "srv"; lit "aimcr-reviews"; lit "drafts"];
              [lit "srv"; lit "aimcr-reviews"; lit "drafts"; lit "old.json"]];
     files := [([lit "srv"; lit "aimcr-reviews"; lit "drafts"; lit "A_1.json"],
                lit "A");
               ([lit "srv"; lit "aimcr-reviews"; lit "drafts"; lit "notes.txt"],
                lit "todo");
               ([lit "srv"; lit "aimcr-reviews"; lit "drafts"; lit "BB_2.json"],
                lit "B");
               ([lit "srv"; lit "aimcr-reviews"; lit "x.json"], lit "C")] |}.

(** Modification times for the samples: the longer the name, the later. *)
Definition sample_mtime (p : path) : Z := len (path_name p).

(** A runtime for [main]: every path reads as [sample_report], except
    ["draft.json"], which reads as the draft of the form with one model; the
    layout engine builds every document. *)
Definition sample_load_json (filepath : pystr) : result pyval :=
  if str_eqb filepath (lit "draft.json") then Ok (PDict draft_with_one_model)
  else Ok (PDict sample_report).

Definition sample_doc_build (output : pystr) (story : list flowable)
  : result unit :=
  Ok tt.

(* ================================================================== *)
(** ** Basic facts *)
(* ================================================================== *)

Lemma str_eqb_eq (s t : pystr) : str_eqb s t = true <-> s = t.
Proof.
  revert t; induction s as [|c s IH]; intros [|d t]; simpl; split;
    try congruence; intro H.
  - apply andb_true_iff in H as [Hc Hs].
    apply N.eqb_eq in Hc. apply IH in Hs. congruence.
  - injection H as -> ->. rewrite N.eqb_refl. simpl. now apply IH.
Qed.

Lemma str_eqb_refl (s : pystr) : str_eqb s s = true.
Proof. now apply str_eqb_eq. Qed.

Lemma str_eqb_neq (s t : pystr) : str_eqb s t = false <-> s <> t.
Proof.
  rewrite <- str_eqb_eq. destruct (str_eqb s t); split; congruence.
Qed.

(** Two different literals are different keys. *)
Ltac distinct_literals :=
  let E := fresh "E" in intro E; vm_compute in E; discriminate E.

Lemma sumZ_app (l l' : list Z) : sumZ (l ++ l') = sumZ l + sumZ l'.
Proof. induction l as [|x l IH]; simpl; [reflexivity | rewrite IH; lia]. Qed.

(* ------------------------------------------------------------------ *)
(** *** The artifact total *)

Lemma total_risk_loop_sum (entries : list pyval) (total : Z) :
  forallb is_dict entries = true ->
  existsb non_finite_score entries = false ->
  total_risk_loop entries total
  = Ok (total + sumZ (map (fun c => int_value (entry_score c)) entries)).
Proof.
  revert total; induction entries as [|c entries IH]; intros total Hd Hf; simpl.
  - f_equal; lia.
  - simpl in Hd, Hf.
    apply andb_true_iff in Hd as [Hc Hd].
    apply orb_false_iff in Hf as [Hn Hf].
    destruct c as [| | | | | |d]; try discriminate.
    unfold non_finite_score in Hn. simpl in *.
    destruct (dict_lookup d (lit "score")) as [[| b | z | [| neg | m e] | s | l | d']|];
      simpl; try discriminate; rewrite IH by assumption; f_equal; lia.
Qed.

(** A float score that is NaN or infinite has no [int]: the computation
    raises. *)
Lemma total_risk_loop_non_finite (entries : list pyval) (total : Z) :
  forallb is_dict entries = true ->
  existsb non_finite_score entries = true ->
  exists e, total_risk_loop entries total = Raise e.
Proof.
  revert total; induction entries as [|c entries IH]; intros total Hd Hf;
    [discriminate|].
  simpl in Hd, Hf. apply andb_true_iff in Hd as [Hc Hd].
  destruct c as [| | | | | |d]; try discriminate.
  cbn [total_risk_loop py_get].
  unfold non_finite_score in Hf. cbn [entry_score] in Hf.
  destruct (dict_lookup d (lit "score")) as [[| b | z | [| neg | m e] | s | l | d']|];
    cbn [bind isinstance_int_float py_int]; cbn [orb] in Hf;
    try (now apply IH);
    eexists; reflexivity.
Qed.

(** C2, as amended. The artifact total is the sum of [int(score)] over the
    entries whose score is an int (a bool included) or a finite float, a float
    being truncated toward zero; an entry whose score is of another type, or
    that has no score, adds nothing and does not make the computation fail.
    The total of the empty sequence is 0. *)
Theorem calculate_total_risk_sum (entries : list pyval) :
  forallb is_dict entries = true ->
  existsb non_finite_score entries = false ->
  calculate_total_risk (PList entries)
  = Ok (sumZ (map (fun c => int_value (entry_score c)) entries))
  /\ calculate_total_risk (PList []) = Ok 0.
Proof.
  intros Hd Hf. split; [|reflexivity].
  unfold calculate_total_risk. simpl.
  now rewrite total_risk_loop_sum.
Qed.

(* ------------------------------------------------------------------ *)
(** *** The check table and the overflow rule *)

Lemma replace_newlines_nil (s : pystr) : replace_newlines s = [] -> s = [].
Proof.
  destruct s as [|c s]; [reflexivity|].
  unfold replace_newlines; simpl.
  destruct (N.eqb c NEWLINE); discriminate.
Qed.

(** Line breaks are kept, each as a break tag: the text between two line
    breaks is unchanged. *)
Lemma replace_newlines_app (s t : pystr) :
  replace_newlines (s ++ t) = replace_newlines s ++ replace_newlines t.
Proof. apply flat_map_app. Qed.

Lemma replace_newlines_line (s : pystr) :
  existsb (N.eqb NEWLINE) s = false -> replace_newlines s = s.
Proof.
  induction s as [|c s IH]; [reflexivity|].
  cbn [existsb]. intro H. apply orb_false_iff in H as [Hc Hs].
  rewrite N.eqb_sym in Hc.
  change (replace_newlines (c :: s))
    with ((if N.eqb c NEWLINE then lit "<br/>" else [c]) ++ replace_newlines s).
  now rewrite Hc, (IH Hs).
Qed.

Lemma replace_newlines_break (s t : pystr) :
  replace_newlines (s ++ NEWLINE :: t)
  = replace_newlines s ++ lit "<br/>" ++ replace_newlines t.
Proof. now rewrite replace_newlines_app. Qed.

Lemma py_get_dict (d : list (pystr * pyval)) (k : pystr) (default : pyval) :
  py_get (PDict d) k default
  = Ok (match dict_lookup d k with Some v => v | None => default end).
Proof. unfold py_get. now destruct (dict_lookup d k). Qed.

(** The trimmed notes of an entry with proper notes. *)
Lemma stripped_notes (d : list (pystr * pyval)) :
  notes_ok (PDict d) = true ->
  py_strip
    (py_or (match dict_lookup d (lit "notes") with Some v => v | None => PNone end)
       (PStr []))
  = Ok (entry_notes (PDict d)).
Proof.
  unfold notes_ok, entry_notes, py_or.
  destruct (dict_lookup d (lit "notes")) as [[| b | z | [| neg | m e] | s | l | dd]|];
    cbn [truthy]; intro H; try discriminate H; try reflexivity.
  - apply negb_true_iff in H. now rewrite H.
  - apply negb_true_iff in H. now rewrite H.
  - apply negb_true_iff in H. now rewrite H.
  - now destruct s.
  - now destruct l.
  - now destruct dd.
Qed.

(** The replacement of line 136 writes each line break as a break tag and
    leaves every other character as it is. *)
Lemma replace_newlines_break_lines (s : pystr) :
  replace_newlines s = break_lines s.
Proof.
  induction s as [|c s IH]; [reflexivity|].
  change (replace_newlines (c :: s))
    with ((if N.eqb c NEWLINE then lit "<br/>" else [c]) ++ replace_newlines s).
  cbn [break_lines]. change NEWLINE with 10%N.
  rewrite IH. now destruct (c =? 10)%N.
Qed.

(** What the loop body makes of a check entry with proper notes. *)
Lemma check_row_notes (check : pyval) :
  notes_ok check = true ->
  exists name_cell score_cell,
    check_row check
    = Ok ([name_cell; score_cell;
           CellPara (Paragraph (PStr (notes_cell check)) TableText)],
          if long_notes check
          then Some (entry_name check, break_lines (entry_notes check))
          else None)
    /\ name_cell = CellPara (Paragraph (entry_name check) TableText).
Proof.
  intro Hok.
  destruct check as [| | | | | |d]; try discriminate.
  unfold check_row. rewrite !py_get_dict. cbn [bind].
  rewrite (stripped_notes d Hok). cbn [bind].
  rewrite replace_newlines_break_lines.
  unfold notes_cell, long_notes, MAX_NOTES_IN_TABLE.
  destruct (len (entry_notes (PDict d)) >? 800).
  - eexists. eexists. split; reflexivity.
  - destruct (entry_notes (PDict d)) as [|c raw].
    + eexists. eexists. split; reflexivity.
    + assert (Htext : truthy (PStr (break_lines (c :: raw))) = true).
      { cbn [break_lines]. now destruct (c =? 10)%N. }
      rewrite Htext. eexists. eexists. split; reflexivity.
Qed.

Lemma check_rows_notes (entries : list pyval) :
  forallb notes_ok entries = true ->
  forall table_data expanded_notes,
    check_rows entries table_data expanded_notes
    = Ok (table_data ++ map table_row entries,
          expanded_notes ++
          map (fun c => (entry_name c, break_lines (entry_notes c)))
            (filter long_notes entries)).
Proof.
  induction entries as [|c entries IH]; intros Hok table_data expanded_notes; simpl.
  - now rewrite !app_nil_r.
  - simpl in Hok. apply andb_true_iff in Hok as [Hc Hok].
    unfold table_row at 1.
    destruct (check_row_notes c Hc) as (name_cell & score_cell & Hrow & _).
    rewrite Hrow. simpl. rewrite (IH Hok).
    rewrite <- app_assoc. simpl.
    destruct (long_notes c); simpl; [rewrite <- app_assoc|]; reflexivity.
Qed.

(** The blocks that the loop of lines 177 to 179 appends for the queued
    notes are the labelled blocks of their checks. *)
Lemma expanded_notes_blocks (long : list pyval) :
  flat_map expanded_block
    (map (fun c => (entry_name c, break_lines (entry_notes c))) long)
  = flat_map labelled_block long.
Proof.
  now rewrite flat_map_concat_map, map_map, <- flat_map_concat_map.
Qed.

(** C4, as amended. The threshold of 800 characters applies to the notes
    after trimming. For every list of check entries with proper notes, the
    table has one row per check after its header; the notes cell of a check
    shows the placeholder "See details below" with its arrow when its trimmed
    notes exceed 800 characters, a dash when they are empty, and otherwise the
    trimmed notes with each line break written as a break; and the table is
    followed, after a spacer, by the expanded blocks of exactly the checks
    with long notes, in the order of the table, each made of a label with the
    name of its check and of the full trimmed notes with their line breaks. *)
Theorem create_check_elements_overflow (entries : list pyval) :
  forallb notes_ok entries = true ->
  create_check_elements (PList entries)
  = Ok (Table (TABLE_HEADER :: map table_row entries)
        :: expanded_blocks (filter long_notes entries))
  /\ Forall (fun c =>
       third_cell (table_row c)
       = Some (CellPara (Paragraph (PStr (notes_cell c)) TableText)))
       entries.
Proof.
  intro Hok. split.
  - unfold create_check_elements. cbn [py_iter bind].
    rewrite (check_rows_notes entries Hok). cbn [bind fst snd app].
    do 2 f_equal. unfold expanded_blocks. rewrite <- expanded_notes_blocks.
    now destruct (filter long_notes entries).
  - apply Forall_forall. intros c Hin.
    assert (Hc : notes_ok c = true)
      by (rewrite forallb_forall in Hok; now apply Hok).
    destruct (check_row_notes c Hc) as (name_cell & score_cell & Hrow & _).
    unfold table_row. now rewrite Hrow.
Qed.

(* ------------------------------------------------------------------ *)
(** *** Placeholders for missing fields *)

Lemma metadata_rows_dict (d : list (pystr * pyval)) (fs : list (pystr * pystr)) :
  forall data,
    metadata_rows (PDict d) fs data = Ok (data ++ map (metadata_cells d) fs).
Proof.
  induction fs as [|kl fs IH]; intro data; simpl.
  - now rewrite app_nil_r.
  - unfold metadata_row, metadata_cells at 1, metadata_value. simpl.
    destruct (dict_lookup d (fst kl)); simpl; rewrite IH, <- app_assoc;
      reflexivity.
Qed.

Lemma unnamed_strip_or (d : list (pystr * pyval)) :
  unnamed d ->
  (n <- py_get (PDict d) (lit "name") (PStr []) ;; strip_or n UNNAMED) = Ok UNNAMED.
Proof.
  intros [H | (s & H & Hs)]; simpl; rewrite H; simpl.
  - reflexivity.
  - unfold strip_or; simpl. now rewrite Hs.
Qed.

(** C8. Missing optional fields are shown by their placeholders and cause no
    failure. Whatever keys the metadata has, the metadata table is built, with
    the seven fields in their order, and the row of each field that is absent
    shows "N/A" next to its label; an item whose name is absent or blank after
    trimming is laid out under the header "(Unnamed component)" after its
    number, the rest of the section being processed as for any other item; a
    check entry without notes gets a dash (U+2014) in its notes cell. *)
Theorem missing_fields_placeholders
  (metadata item check : list (pystr * pyval))
  (story : list flowable) (idx : Z) (rest : list pyval) :
  unnamed item ->
  dict_lookup check (lit "notes") = None ->
  (create_metadata_table (PDict metadata)
   = Ok (Table (map (metadata_cells metadata) REPORT_FIELDS))
   /\ forall i k label,
        nth_error REPORT_FIELDS i = Some (k, label) ->
        dict_lookup metadata k = None ->
        exists data,
          create_metadata_table (PDict metadata) = Ok (Table data)
          /\ nth_error data i
             = Some [CellPara
                       (Paragraph (PStr (lit "<b>" ++ label ++ lit ":</b>"))
                          TableText);
                     CellPara (Paragraph (PStr (lit "N/A")) TableText)])
  /\ component_items story idx (PDict item :: rest)
     = (body <- item_checks (PDict item) ;;
        component_items
          (story ++ [unnamed_header idx] ++ body ++ [Spacer 1 25])
          (idx + 1) rest)
  /\ third_cell (table_row (PDict check))
     = Some (CellPara (Paragraph (PStr [8212%N]) TableText))
  /\ is_ok (check_row (PDict check)) = true.
Proof.
  intros Hname Hnotes.
  assert (Htable : create_metadata_table (PDict metadata)
                   = Ok (Table (map (metadata_cells metadata) REPORT_FIELDS))).
  { unfold create_metadata_table. rewrite metadata_rows_dict. reflexivity. }
  repeat split.
  - exact Htable.
  - intros i k label Hi Hk. eexists. split; [exact Htable|].
    rewrite (map_nth_error (metadata_cells metadata) i REPORT_FIELDS Hi).
    unfold metadata_cells, metadata_value. cbn [fst snd]. now rewrite Hk.
  - pose proof (unnamed_strip_or item Hname) as H.
    cbn [component_items].
    destruct (py_get (PDict item) (lit "name") (PStr [])) as [n|e];
      simpl in H; [|discriminate].
    simpl. rewrite H. reflexivity.
  - unfold table_row, check_row. simpl. rewrite Hnotes.
    destruct (dict_lookup check (lit "name")); destruct (dict_lookup check (lit "score"));
      reflexivity.
  - unfold check_row. simpl. rewrite Hnotes.
    destruct (dict_lookup check (lit "name")); destruct (dict_lookup check (lit "score"));
      reflexivity.
Qed.

(* ------------------------------------------------------------------ *)
(** *** A mapping where the generator expects a list *)

Lemma raises_bind {A B} (r : result A) (k : A -> result B) :
  (forall a, raises (k a)) -> raises (r <- r ;; k r).
Proof.
  intro H. destruct r as [a|e]; simpl; [apply H | now exists e].
Qed.

Lemma raises_bind_l {A B} (r : result A) (k : A -> result B) :
  raises r -> raises (r <- r ;; k r).
Proof. intros [e ->]. now exists e. Qed.

(** Whatever the computation in front returns, what follows raises. *)
Ltac skip_bind := apply raises_bind; intro.

Lemma raises_not_ok {A} (r : result A) : raises r -> is_ok r = false.
Proof. now intros [e ->]. Qed.

(** Iterating a mapping yields its keys, and a key has no [get]. *)
Lemma create_check_elements_mapping (k : pystr) (v : pyval)
  (cks : list (pystr * pyval)) :
  create_check_elements (PDict ((k, v) :: cks)) = Raise AttributeError.
Proof. reflexivity. Qed.

Lemma item_checks_mapping (item : pyval) :
  mapping_checks item = true -> item_checks item = Raise AttributeError.
Proof.
  destruct item as [| | | | | |a]; try discriminate.
  unfold mapping_checks, item_checks. simpl.
  destruct (dict_lookup a (lit "checks")) as [[| | | | | |[|[k v] cks]]|];
    try discriminate.
  reflexivity.
Qed.

Lemma component_items_mapping (items : list pyval) :
  existsb mapping_checks items = true ->
  forall story idx, raises (component_items story idx items).
Proof.
  induction items as [|item items IH]; intros H story idx; [discriminate|].
  simpl in H. cbn [component_items].
  apply raises_bind; intro n. apply raises_bind; intro name.
  destruct (mapping_checks item) eqn:Hm.
  - rewrite (item_checks_mapping item Hm). now exists AttributeError.
  - apply raises_bind; intro body. now apply IH.
Qed.

Lemma add_component_section_mapping (story : list flowable) (title : pystr)
  (items : list pyval) :
  existsb mapping_checks items = true ->
  raises (add_component_section story title (PList items)).
Proof.
  intro H. unfold add_component_section.
  destruct items as [|item items]; [discriminate|].
  cbn [truthy negb py_iter bind].
  now apply component_items_mapping.
Qed.

Lemma category_keys_inv (key : pystr) :
  In key category_keys ->
  key = lit "third_party_software" \/ key = lit "source_code"
  \/ key = lit "datasets_user_files" \/ key = lit "models".
Proof.
  intros [H | [H | [H | [H | []]]]]; symmetry in H;
    [left | right; left | right; right; left | right; right; right]; exact H.
Qed.

(** C7. When an artifact of the input record has its checks as a non-empty
    mapping from check names to results, the shape the form stores, building
    the check table of that artifact raises [AttributeError], and no document
    is generated from the record. *)
Theorem json_to_pdf_mapping_checks (now : pystr) (d : list (pystr * pyval))
  (key : pystr) (items : list pyval) (k : pystr) (v : pyval)
  (cks : list (pystr * pyval)) :
  In key category_keys ->
  dict_lookup d key = Some (PList items) ->
  existsb mapping_checks items = true ->
  create_check_elements (PDict ((k, v) :: cks)) = Raise AttributeError
  /\ raises (json_to_pdf now (PDict d)).
Proof.
  intros Hkey Hd Hitems. split; [reflexivity|].
  unfold json_to_pdf. do 2 skip_bind. cbv zeta.
  assert (Hsec : forall story title,
             raises (add_component_section story title (PList items)))
    by (intros; now apply add_component_section_mapping).
  destruct (category_keys_inv key Hkey) as [-> | [-> | [-> | ->]]];
    [ | do 2 skip_bind | do 4 skip_bind | do 6 skip_bind ];
    simpl py_get at 1; rewrite Hd; simpl bind at 1;
    apply raises_bind_l, Hsec.
Qed.

(* ------------------------------------------------------------------ *)
(** *** Aggregation over int scores *)

Lemma max_loop_ints (zs : list Z) (m : Z) :
  max_loop (map (fun z => Ok (PInt z)) zs) (PInt m)
  = Ok (PInt (fold_left Z.max zs m)).
Proof.
  revert m; induction zs as [|z zs IH]; intro m; simpl; [reflexivity|].
  destruct (z >? m) eqn:Hgt; rewrite IH; do 2 f_equal.
  - f_equal. lia.
  - f_equal. lia.
Qed.

Lemma score_of_int (c : pystr) (a : pyval) :
  has_int_score c a = true -> score_of c a = Ok (PInt (int_score c a)).
Proof.
  unfold has_int_score, int_score.
  destruct (score_of c a) as [[| | z | | | |]|]; try discriminate. reflexivity.
Qed.

Lemma py_max_ints (c : pystr) (a : pyval) (arts : list pyval) :
  forallb (has_int_score c) (a :: arts) = true ->
  py_max (map (score_of c) (a :: arts)) = Ok (PInt (check_maximum c (a :: arts))).
Proof.
  intro H. simpl in H. apply andb_true_iff in H as [Ha Harts].
  cbn [map py_max]. rewrite (score_of_int c a Ha). cbn [bind].
  replace (map (score_of c) arts)
    with (map (fun z => Ok (PInt z)) (map (int_score c) arts)).
  - apply max_loop_ints.
  - rewrite map_map. apply map_ext_in. intros b Hb.
    rewrite forallb_forall in Harts. symmetry. now apply score_of_int, Harts.
Qed.

Lemma int_scores_check (cs : list pystr) (arts : list pyval) (c : pystr) :
  int_scores cs arts = true -> In c cs -> forallb (has_int_score c) arts = true.
Proof.
  unfold int_scores. rewrite !forallb_forall. intros H Hc a Ha.
  specialize (H a Ha). rewrite forallb_forall in H. now apply H.
Qed.

Lemma max_scores_ints (cs : list pystr) (a : pyval) (arts : list pyval) :
  int_scores cs (a :: arts) = true ->
  max_scores cs (PList (a :: arts))
  = Ok (map PInt (category_maxima cs (a :: arts))).
Proof.
  intro H.
  assert (Hc : forall c, In c cs -> forallb (has_int_score c) (a :: arts) = true)
    by (intros c Hin; now apply (int_scores_check cs)).
  clear H. induction cs as [|c cs IH]; [reflexivity|].
  cbn [max_scores py_iter bind].
  rewrite (py_max_ints c a arts) by (apply Hc; now left).
  cbn [bind]. rewrite IH by (intros c' Hin; apply Hc; now right).
  reflexivity.
Qed.

Lemma sum_loop_ints (zs : list Z) (acc : Z) :
  sum_loop (map PInt zs) (PInt acc) = Ok (PInt (acc + sumZ zs)).
Proof.
  revert acc; induction zs as [|z zs IH]; intro acc; simpl.
  - f_equal. f_equal. lia.
  - rewrite IH. do 2 f_equal. lia.
Qed.

Lemma py_sum_ints (zs : list Z) : py_sum (map PInt zs) = Ok (PInt (sumZ zs)).
Proof. unfold py_sum. now rewrite sum_loop_ints. Qed.

Lemma py_in_int_ints (z : Z) (zs : list Z) :
  py_in_int z (map PInt zs) = existsb (Z.eqb z) zs.
Proof.
  unfold py_in_int. induction zs as [|x zs IH]; simpl; [reflexivity|].
  now rewrite IH, (Z.eqb_sym x z).
Qed.

Lemma py_ge_int_int (t n : Z) : py_ge_int (PInt t) n = Ok (n <=? t).
Proof.
  unfold py_ge_int. simpl. f_equal.
  destruct (Z.geb_spec t n), (Z.leb_spec n t); try reflexivity; lia.
Qed.

(** The section of a category with int scores shows the sum of the per-check
    maxima and the severity of the rule. *)
Lemma section_risk_ints (key : pystr) (cs : list pystr)
  (d : list (pystr * pyval)) (a : pyval) (arts : list pyval) :
  checks_of checks key = Ok cs ->
  dict_lookup d key = Some (PList (a :: arts)) ->
  int_scores cs (a :: arts) = true ->
  exists color,
    section_risk key (PDict d)
    = Ok (Some {| rd_total := PInt (category_total cs (a :: arts));
                  rd_color := color;
                  rd_level := severity (category_maxima cs (a :: arts)) |}).
Proof.
  intros Hcs Hd Hint. unfold category_total.
  set (maxima := category_maxima cs (a :: arts)).
  unfold section_risk. cbn [py_getitem]. rewrite Hd. cbn [bind truthy].
  rewrite Hcs. cbn [bind].
  rewrite (max_scores_ints cs a arts Hint). cbn [bind]. fold maxima.
  rewrite py_sum_ints. cbn [bind].
  rewrite py_in_int_ints. unfold critical_or_ge, severity.
  rewrite !py_ge_int_int.
  destruct (existsb (Z.eqb 5) maxima); cbn [bind orb].
  - eexists. reflexivity.
  - destruct (21 <=? sumZ maxima); cbn [bind].
    + eexists. reflexivity.
    + destruct (15 <=? sumZ maxima); cbn [bind]; eexists; reflexivity.
Qed.

Lemma existsb_five (maxima : list Z) :
  In 5 maxima <-> existsb (Z.eqb 5) maxima = true.
Proof.
  rewrite existsb_exists. split.
  - intro H. exists 5. split; [assumption | apply Z.eqb_refl].
  - intros (x & Hx & Heq). apply Z.eqb_eq in Heq. now subst x.
Qed.

(** C1. For a category that is not empty and whose artifacts have int scores
    for its checks, the section shows the sum of the per-check maxima across
    the artifacts and the severity of the rule: CRITICAL if a per-check
    maximum equals 5 or the total is at least 21, else HIGH from 15, else
    MEDIUM from 10, else LOW; a maximum of 5 gives CRITICAL whatever the
    total. *)
Theorem section_risk_severity (key : pystr) (cs : list pystr)
  (d : list (pystr * pyval)) (a : pyval) (arts : list pyval) :
  checks_of checks key = Ok cs ->
  dict_lookup d key = Some (PList (a :: arts)) ->
  int_scores cs (a :: arts) = true ->
  let maxima := category_maxima cs (a :: arts) in
  (exists color,
     section_risk key (PDict d)
     = Ok (Some {| rd_total := PInt (sumZ maxima);
                   rd_color := color;
                   rd_level := severity maxima |}))
  /\ (In 5 maxima -> severity maxima = lit "CRITICAL")
  /\ (~ In 5 maxima ->
      severity maxima
      = if 21 <=? sumZ maxima then lit "CRITICAL"
        else if 15 <=? sumZ maxima then lit "HIGH"
        else if 10 <=? sumZ maxima then lit "MEDIUM"
        else lit "LOW").
Proof.
  intros Hcs Hd Hint maxima.
  split; [|split].
  - exact (section_risk_ints key cs d a arts Hcs Hd Hint).
  - intro H5. unfold severity. apply existsb_five in H5. now rewrite H5.
  - intro H5. unfold severity.
    destruct (existsb (Z.eqb 5) maxima) eqn:E; [|reflexivity].
    exfalso. now apply H5, existsb_five.
Qed.

(* ------------------------------------------------------------------ *)
(** *** The final summary *)

Lemma scored_record_category (d : list (pystr * pyval)) (kc : pystr * list pystr) :
  scored_record d = true -> In kc checks ->
  dict_lookup d (fst kc) = Some (PList (category_arts d (fst kc)))
  /\ int_scores (snd kc) (category_arts d (fst kc)) = true.
Proof.
  unfold scored_record. rewrite forallb_forall. intros H Hin.
  specialize (H kc Hin). unfold category_arts.
  destruct (dict_lookup d (fst kc)) as [[| | | | |l|]|]; try discriminate.
  now split.
Qed.

Lemma summary_loop_scored (d : list (pystr * pyval))
  (table : list (pystr * list pystr)) :
  (forall kc, In kc table ->
     dict_lookup d (fst kc) = Some (PList (category_arts d (fst kc)))
     /\ int_scores (snd kc) (category_arts d (fst kc)) = true) ->
  forall totals has_crit,
    summary_loop table (PDict d) totals has_crit
    = Ok (totals ++
          map (fun kc => PInt (category_total (snd kc) (category_arts d (fst kc))))
            (contributing d table),
          existsb
            (fun kc =>
               existsb (Z.eqb 5)
                 (category_maxima (snd kc) (category_arts d (fst kc))))
            (contributing d table)
          || has_crit).
Proof.
  induction table as [|[key cs] table IH]; intros Hwf totals has_crit.
  - simpl. now rewrite app_nil_r.
  - destruct (Hwf (key, cs) (or_introl eq_refl)) as [Hd Hint]. simpl in Hd, Hint.
    assert (Hwf' : forall kc, In kc table ->
               dict_lookup d (fst kc) = Some (PList (category_arts d (fst kc)))
               /\ int_scores (snd kc) (category_arts d (fst kc)) = true)
      by (intros kc Hin; apply Hwf; now right).
    cbn [summary_loop py_getitem]. rewrite Hd. cbn [bind].
    unfold contributing. cbn [filter fst snd].
    destruct (category_arts d key) as [|a arts] eqn:Harts; cbn [truthy].
    + rewrite (IH Hwf'). reflexivity.
    + rewrite (max_scores_ints cs a arts Hint). cbn [bind].
      rewrite py_sum_ints. cbn [bind]. rewrite py_in_int_ints.
      rewrite (IH Hwf'). cbn [map existsb fst snd]. rewrite Harts.
      unfold category_total. rewrite <- app_assoc. cbn [app].
      f_equal. f_equal.
      destruct (existsb (Z.eqb 5) (category_maxima cs (a :: arts))); cbn [orb].
      * now rewrite orb_true_r.
      * reflexivity.
Qed.

(** C3. For a record whose categories hold artifacts with int scores, the
    final risk score is the sum of the category totals over the categories
    that hold at least one artifact, and the review is reported as critical
    exactly when one of these categories has a per-check maximum of 5 or the
    final score is at least 21. When only [models] holds artifacts, the final
    score is the total of that category. *)
Theorem final_summary_review (d : list (pystr * pyval)) :
  scored_record d = true ->
  final_summary (PDict d) = Ok (PInt (review_total d), review_critical d)
  /\ (category_arts d (lit "third_party_software") = [] ->
      category_arts d (lit "source_code") = [] ->
      category_arts d (lit "datasets_user_files") = [] ->
      category_arts d (lit "models") <> [] ->
      forall cs, checks_of checks (lit "models") = Ok cs ->
        review_total d = category_total cs (category_arts d (lit "models"))).
Proof.
  intro Hwf. split.
  - unfold final_summary.
    rewrite (summary_loop_scored d checks)
      by (intros kc Hin; now apply scored_record_category).
    cbn [bind fst snd app].
    rewrite <- (map_map
                  (fun kc => category_total (snd kc) (category_arts d (fst kc)))
                  PInt).
    rewrite py_sum_ints. cbn [bind]. rewrite py_ge_int_int. cbn [bind].
    unfold review_critical, review_total.
    rewrite orb_false_r.
    destruct (21 <=? _); [now rewrite orb_true_r | now rewrite orb_false_r].
  - intros H1 H2 H3 H4 cs Hcs.
    unfold review_total, contributing, checks. cbn [filter fst snd].
    rewrite H1, H2, H3.
    destruct (category_arts d (lit "models")) as [|a arts] eqn:H; [congruence|].
    cbn [map sumZ fold_right fst snd]. rewrite H.
    assert (Hm : cs = snd (nth 3 checks ([], [])))
      by (cbn in Hcs; now injection Hcs as <-).
    rewrite Z.add_0_r, Hm. reflexivity.
Qed.

(* ------------------------------------------------------------------ *)
(** *** The table of the check names *)

Lemma checks_of_In (table : list (pystr * list pystr)) (key : pystr)
  (cs : list pystr) :
  checks_of table key = Ok cs -> In (key, cs) table.
Proof.
  induction table as [|[k cs'] table IH]; simpl; [discriminate|].
  destruct (str_eqb k key) eqn:E.
  - intro H. injection H as ->. apply str_eqb_eq in E. subst k. now left.
  - intro H. right. now apply IH.
Qed.

(* ------------------------------------------------------------------ *)
(** *** The form keeps the record valid *)

Lemma dict_lookup_set_same (d : list (pystr * pyval)) (k : pystr) (v : pyval) :
  dict_lookup (dict_set d k v) k = Some v.
Proof.
  induction d as [|[k' v'] d IH]; simpl.
  - now rewrite str_eqb_refl.
  - destruct (str_eqb k' k) eqn:E; simpl; rewrite E; [reflexivity | apply IH].
Qed.

Lemma dict_lookup_set_other (d : list (pystr * pyval)) (k k' : pystr) (v : pyval) :
  k <> k' -> dict_lookup (dict_set d k v) k' = dict_lookup d k'.
Proof.
  intro Hne. induction d as [|[k0 v0] d IH]; simpl.
  - apply str_eqb_neq in Hne. now rewrite Hne.
  - destruct (str_eqb k0 k) eqn:E; simpl.
    + apply str_eqb_eq in E. subst k0.
      apply str_eqb_neq in Hne. now rewrite Hne.
    + now rewrite IH.
Qed.

Lemma dict_keys_set_present (d : list (pystr * pyval)) (k : pystr) (v w : pyval) :
  dict_lookup d k = Some w -> dict_keys (dict_set d k v) = dict_keys d.
Proof.
  induction d as [|[k0 v0] d IH]; simpl; [discriminate|].
  destruct (str_eqb k0 k) eqn:E; simpl; [reflexivity|].
  intro H. f_equal. now apply IH.
Qed.

Lemma dict_set_values (d : list (pystr * pyval)) (k : pystr) (v : pyval)
  (P : pyval -> bool) :
  forallb (fun kv => P (snd kv)) d = true -> P v = true ->
  forallb (fun kv => P (snd kv)) (dict_set d k v) = true.
Proof.
  intros Hd Hv. induction d as [|[k0 v0] d IH]; simpl.
  - now rewrite Hv.
  - simpl in Hd. apply andb_true_iff in Hd as [H0 Hd].
    destruct (str_eqb k0 k); simpl.
    + now rewrite Hv, Hd.
    + now rewrite H0, IH.
Qed.

Lemma dict_lookup_values (d : list (pystr * pyval)) (k : pystr) (v : pyval)
  (P : pyval -> bool) :
  forallb (fun kv => P (snd kv)) d = true -> dict_lookup d k = Some v ->
  P v = true.
Proof.
  induction d as [|[k0 v0] d IH]; simpl; [discriminate|].
  intros Hd. apply andb_true_iff in Hd as [H0 Hd].
  destruct (str_eqb k0 k); [intro H; now injection H as <- | now apply IH].
Qed.

Lemma mem_lookup (d : list (pystr * pyval)) (k : pystr) :
  mem k (dict_keys d) = true -> exists v, dict_lookup d k = Some v.
Proof.
  induction d as [|[k0 v0] d IH]; simpl; [discriminate|].
  rewrite orb_true_iff. intros [H | H].
  - apply str_eqb_eq in H. subst k0. rewrite str_eqb_refl. now exists v0.
  - destruct (str_eqb k0 k); [now exists v0 | now apply IH].
Qed.

Lemma mem_In (k : pystr) (l : list pystr) : In k l -> mem k l = true.
Proof.
  intro H. unfold mem. rewrite existsb_exists. exists k.
  split; [assumption | apply str_eqb_refl].
Qed.

Lemma option_value_range (o : score_option) :
  (1 <=? option_value o) && (option_value o <=? 5) = true.
Proof. now destruct o. Qed.

(** Editing one check of a valid artifact raises nothing and leaves a valid
    artifact. *)
Lemma edit_check_valid (u : ui) (key : pystr) (idx : Z) (cs : list pystr)
  (check : pystr) (a : pyval) :
  valid_artifact cs a = true -> In check cs ->
  exists a', edit_check u key idx check a = Ok a' /\ valid_artifact cs a' = true.
Proof.
  intros Hv Hin.
  destruct a as [| | | | | |d]; try discriminate.
  unfold valid_artifact in Hv.
  destruct (dict_lookup d (lit "name")) as [name|] eqn:Hname; [|discriminate].
  destruct (dict_lookup d (lit "checks")) as [[| | | | | |cks]|] eqn:Hcks;
    try discriminate.
  unfold valid_checks in Hv. apply andb_true_iff in Hv as [Hkeys Hvals].
  pose proof Hkeys as Hex. unfold exactly in Hex.
  apply andb_true_iff in Hex as [Hex _]. apply andb_true_iff in Hex as [Hall _].
  rewrite forallb_forall in Hall.
  destruct (mem_lookup cks check (Hall check Hin)) as [cur Hcur].
  pose proof (dict_lookup_values cks check cur valid_check Hvals Hcur) as Hvc.
  destruct cur as [| | | | | |r]; try discriminate.
  unfold valid_check in Hvc.
  destruct (dict_lookup r (lit "score")) as [[| |z| | | |]|] eqn:Hscore;
    try discriminate.
  destruct (dict_lookup r (lit "notes")) as [n|] eqn:Hnotes; [|discriminate].
  unfold edit_check. cbn [py_getitem]. rewrite Hcks. cbn [bind py_getitem].
  rewrite Hcur. cbn [bind py_getitem]. rewrite Hscore. cbn [bind].
  unfold selectbox_index. cbn [as_int].
  apply andb_true_iff in Hvc as [Hlo Hhi].
  replace ((0 <=? z - 1) && (z - 1 <? 5)) with true
    by (symmetry; apply andb_true_iff; split;
        [apply Z.leb_le | apply Z.ltb_lt]; apply Z.leb_le in Hlo, Hhi; lia).
  cbn [bind]. rewrite Hnotes. cbn [bind py_setitem].
  eexists. split; [reflexivity|].
  unfold valid_artifact.
  rewrite dict_lookup_set_other by distinct_literals.
  rewrite Hname, dict_lookup_set_same.
  unfold valid_checks.
  rewrite (dict_keys_set_present cks check _ _ Hcur), Hkeys. cbn [andb].
  apply dict_set_values; [assumption|].
  unfold valid_check, check_result. cbn.
  apply option_value_range.
Qed.

Lemma edit_checks_valid (u : ui) (key : pystr) (idx : Z) (cs todo : list pystr) :
  incl todo cs ->
  forall a, valid_artifact cs a = true ->
    exists a', edit_checks u key idx todo a = (Ok tt, a')
               /\ valid_artifact cs a' = true.
Proof.
  induction todo as [|check todo IH]; intros Hincl a Hv.
  - exists a. now split.
  - cbn [edit_checks].
    destruct (edit_check_valid u key idx cs check a Hv) as (a1 & -> & Hv1).
    + apply Hincl. now left.
    + apply IH; [|assumption]. intros c Hc. apply Hincl. now right.
Qed.

Lemma edit_artifact_valid (u : ui) (key : pystr) (idx : Z) (cs : list pystr)
  (a : pyval) :
  checks_of checks key = Ok cs -> valid_artifact cs a = true ->
  exists a', edit_artifact u key idx a = (Ok tt, a')
             /\ valid_artifact cs a' = true.
Proof.
  intros Hcs Hv.
  destruct a as [| | | | | |d]; try discriminate.
  pose proof Hv as Hv0. unfold valid_artifact in Hv0.
  destruct (dict_lookup d (lit "name")) as [name|] eqn:Hname; [|discriminate].
  destruct (dict_lookup d (lit "checks")) as [cks|] eqn:Hcks; [|discriminate].
  unfold edit_artifact. cbn [py_getitem py_setitem]. rewrite Hname, Hcs.
  apply edit_checks_valid; [apply incl_refl|].
  unfold valid_artifact.
  rewrite dict_lookup_set_same.
  rewrite dict_lookup_set_other by distinct_literals.
  now rewrite Hcks.
Qed.

Lemma remove_at_app {A} (before : list A) (x : A) (rest : list A) :
  remove_at (List.length before) (before ++ x :: rest) = before ++ rest.
Proof. induction before as [|y before IH]; simpl; [reflexivity | now rewrite IH]. Qed.

Lemma artifacts_loop_valid (u : ui) (key : pystr) (cs : list pystr) :
  checks_of checks key = Ok cs ->
  forall todo before,
    forallb (valid_artifact cs) before = true ->
    forallb (valid_artifact cs) todo = true ->
    (forall e, fst (artifacts_loop u key before todo) <> Raised e)
    /\ forallb (valid_artifact cs) (snd (artifacts_loop u key before todo)) = true.
Proof.
  intro Hcs. induction todo as [|a todo IH]; intros before Hb Ht.
  - simpl. split; [discriminate | assumption].
  - simpl in Ht. apply andb_true_iff in Ht as [Ha Ht].
    cbn [artifacts_loop].
    destruct (edit_artifact_valid u key (Z.of_nat (List.length before)) cs a Hcs Ha)
      as (a' & -> & Ha').
    destruct (button_remove u key (Z.of_nat (List.length before))).
    + rewrite remove_at_app. cbn [fst snd]. split; [discriminate|].
      rewrite forallb_app. now rewrite Hb, Ht.
    + apply IH; [|assumption].
      rewrite forallb_app. simpl. now rewrite Hb, Ha'.
Qed.

(** The artifact the add button appends. *)
Lemma new_artifact_valid (n : Z) (key : pystr) (cs : list pystr) :
  checks_of checks key = Ok cs ->
  valid_artifact cs (new_artifact n cs) = true
  /\ default_checks cs = PDict (map (fun c => (c, check_result 1 [])) cs)
  /\ List.length cs = 6%nat.
Proof.
  intro Hcs. apply checks_of_In in Hcs.
  destruct Hcs as [H | [H | [H | [H | []]]]]; injection H as <- <-;
    (split; [|split]); reflexivity.
Qed.

Lemma valid_record_lookup (d : list (pystr * pyval)) (key : pystr)
  (cs : list pystr) :
  valid_record d = true -> checks_of checks key = Ok cs ->
  exists l, dict_lookup d key = Some (PList l)
            /\ forallb (valid_artifact cs) l = true.
Proof.
  unfold valid_record. rewrite forallb_forall. intros H Hcs.
  specialize (H (key, cs) (checks_of_In _ _ _ Hcs)). cbn [fst snd] in H.
  destruct (dict_lookup d key) as [[| | | | |l|]|]; try discriminate.
  now exists l.
Qed.

(** Storing a valid list of artifacts under the key of a category keeps the
    record valid. *)
Lemma valid_record_set (d : list (pystr * pyval)) (key : pystr)
  (cs : list pystr) (l : list pyval) :
  valid_record d = true -> checks_of checks key = Ok cs ->
  forallb (valid_artifact cs) l = true ->
  valid_record (dict_set d key (PList l)) = true.
Proof.
  intros Hd Hcs Hl. apply checks_of_In in Hcs.
  unfold valid_record, checks in *. cbn [forallb fst snd] in *.
  repeat (apply andb_true_iff in Hd as [? Hd]).
  destruct Hcs as [Hk | [Hk | [Hk | [Hk | []]]]]; injection Hk as <- <-;
    rewrite ?dict_lookup_set_same;
    rewrite !dict_lookup_set_other by distinct_literals;
    repeat (apply andb_true_iff; split); assumption || reflexivity.
Qed.

Lemma valid_has_int_score (cs : list pystr) (a : pyval) (c : pystr) :
  valid_artifact cs a = true -> In c cs -> has_int_score c a = true.
Proof.
  intros Hv Hin.
  destruct a as [| | | | | |d]; try discriminate.
  unfold valid_artifact in Hv.
  destruct (dict_lookup d (lit "name")); [|discriminate].
  destruct (dict_lookup d (lit "checks")) as [[| | | | | |cks]|] eqn:Hcks;
    try discriminate.
  unfold valid_checks in Hv. apply andb_true_iff in Hv as [Hkeys Hvals].
  unfold exactly in Hkeys.
  apply andb_true_iff in Hkeys as [Hkeys _].
  apply andb_true_iff in Hkeys as [Hall _].
  rewrite forallb_forall in Hall.
  destruct (mem_lookup cks c (Hall c Hin)) as [cur Hcur].
  pose proof (dict_lookup_values cks c cur valid_check Hvals Hcur) as Hvc.
  destruct cur as [| | | | | |r]; try discriminate.
  unfold valid_check in Hvc.
  destruct (dict_lookup r (lit "score")) as [[| |z| | | |]|] eqn:Hscore;
    try discriminate.
  unfold has_int_score, score_of. cbn [py_getitem]. rewrite Hcks.
  cbn [bind py_getitem]. rewrite Hcur. cbn [bind py_getitem]. now rewrite Hscore.
Qed.

Lemma valid_int_scores (cs : list pystr) (l : list pyval) :
  forallb (valid_artifact cs) l = true -> int_scores cs l = true.
Proof.
  unfold int_scores. rewrite !forallb_forall. intros H a Ha.
  rewrite forallb_forall. intros c Hc.
  apply (valid_has_int_score cs); [now apply H | assumption].
Qed.

Lemma section_risk_valid (key : pystr) (cs : list pystr)
  (d : list (pystr * pyval)) :
  checks_of checks key = Ok cs -> valid_record d = true ->
  is_ok (section_risk key (PDict d)) = true.
Proof.
  intros Hcs Hd.
  destruct (valid_record_lookup d key cs Hd Hcs) as (l & Hl & Hv).
  destruct l as [|a l].
  - unfold section_risk. cbn [py_getitem]. rewrite Hl. reflexivity.
  - destruct (section_risk_ints key cs d a l Hcs Hl (valid_int_scores _ _ Hv))
      as [color ->].
    reflexivity.
Qed.


(* ------------------------------------------------------------------ *)
(** *** A draft saved under a project id with a path separator *)

Lemma path_eqb_eq (p q : path) : path_eqb p q = true <-> p = q.
Proof.
  revert q; induction p as [|a p IH]; intros [|b q]; simpl; split;
    try congruence; intro H.
  - apply andb_true_iff in H as [Ha Hp].
    apply str_eqb_eq in Ha. apply IH in Hp. congruence.
  - injection H as -> ->. rewrite str_eqb_refl. simpl. now apply IH.
Qed.

Lemma file_lookup_set_other (l : list (path * list N)) (p q : path)
  (content : list N) :
  p <> q -> file_lookup (file_set l p content) q = file_lookup l q.
Proof.
  intro Hne.
  assert (Hpq : path_eqb p q = false)
    by (destruct (path_eqb p q) eqn:E; [apply path_eqb_eq in E; contradiction | reflexivity]).
  induction l as [|[r c] l IH]; simpl.
  - now rewrite Hpq.
  - destruct (path_eqb r p) eqn:E; simpl.
    + apply path_eqb_eq in E. subst r. now rewrite Hpq.
    + now rewrite IH.
Qed.

Lemma file_lookup_set_same (l : list (path * list N)) (p : path)
  (content : list N) :
  file_lookup (file_set l p content) p = Some content.
Proof.
  assert (Hpp : path_eqb p p = true) by now apply path_eqb_eq.
  induction l as [|[r c] l IH]; simpl.
  - now rewrite Hpp.
  - destruct (path_eqb r p) eqn:E; simpl; rewrite E; [reflexivity | apply IH].
Qed.

Lemma walk_app (fs : filesystem) (a b : list pystr) :
  forall cur, walk fs cur (a ++ b) = (c <- walk fs cur a ;; walk fs c b).
Proof.
  induction a as [|p a IH]; intro cur; simpl; [reflexivity|].
  destruct (str_eqb p DOTDOT); [apply IH|].
  destruct (is_dir fs (cur ++ [p])); [apply IH|].
  now destruct (file_lookup (files fs) (cur ++ [p])).
Qed.

(** Which directories exist decides where a path that resolves leads. *)
Lemma walk_same_dirs (fs fs' : filesystem) (parts : list pystr) :
  dirs fs = dirs fs' ->
  forall cur q, walk fs cur parts = Ok q -> walk fs' cur parts = Ok q.
Proof.
  intro Hd. induction parts as [|p parts IH]; intros cur q; simpl; [trivial|].
  destruct (str_eqb p DOTDOT); [apply IH|].
  unfold is_dir. rewrite <- Hd.
  destruct (cur ++ [p]) eqn:E; [now destruct cur|]. rewrite <- E.
  destruct (existsb (path_eqb (cur ++ [p])) (dirs fs)); [apply IH|].
  now destruct (file_lookup (files fs) (cur ++ [p])).
Qed.

Lemma split_slash_plain (s : pystr) :
  existsb (N.eqb SLASH) s = false -> split_slash s = [s].
Proof.
  induction s as [|c s IH]; cbn [split_slash existsb]; [reflexivity|].
  intro H. apply orb_false_iff in H as [Hc Hs].
  rewrite N.eqb_sym in Hc. now rewrite Hc, (IH Hs).
Qed.

(** The path of the draft of project ["../x"]. *)
Lemma traversal_file (ts : pystr) :
  existsb (N.eqb SLASH) ts = false ->
  path_join DRAFTS_DIR (lit "../x" ++ lit "_" ++ ts ++ lit ".json")
  = REPO_PATH ++ [lit "drafts"; DOTDOT; lit "x_" ++ ts ++ lit ".json"].
Proof.
  intro Hts.
  assert (Htail : split_slash (lit "x_" ++ ts ++ lit ".json")
                  = [lit "x_" ++ ts ++ lit ".json"]).
  { apply split_slash_plain.
    change (lit "x_" ++ ts ++ lit ".json")
      with (120%N :: 95%N :: ts ++ lit ".json").
    cbn [existsb]. rewrite existsb_app, Hts. reflexivity. }
  unfold DRAFTS_DIR.
  change (path_join REPO_PATH (lit "drafts")) with (REPO_PATH ++ [lit "drafts"]).
  change (lit "../x" ++ lit "_" ++ ts ++ lit ".json")
    with (46%N :: 46%N :: 47%N :: (lit "x_" ++ ts ++ lit ".json")).
  unfold path_join. change (N.eqb 46 SLASH) with false. cbv iota.
  rewrite <- app_assoc. f_equal.
  unfold path_parts. cbn [split_slash].
  change (N.eqb 46 SLASH) with false. change (N.eqb 47 SLASH) with true.
  cbv iota. rewrite Htail.
  reflexivity.
Qed.

Lemma str_eqb_length (s t : pystr) :
  str_eqb s t = true -> List.length s = List.length t.
Proof. intro H. apply str_eqb_eq in H. now subst. Qed.

(** A name without separator, not empty and not ["."], is one component. *)
Lemma path_join_plain (base : path) (s : pystr) :
  existsb (N.eqb SLASH) s = false ->
  str_eqb s [] = false -> str_eqb s DOT = false ->
  path_join base s = base ++ [s].
Proof.
  intros Hslash Hne Hdot. unfold path_join, path_parts.
  rewrite (split_slash_plain s Hslash). cbn [filter]. rewrite Hne, Hdot.
  destruct s as [|c s']; [discriminate Hne|].
  cbn [existsb] in Hslash. apply orb_false_iff in Hslash as [Hc _].
  rewrite N.eqb_sym in Hc. now rewrite Hc.
Qed.

(** The draft of a project id without separator lies in the [drafts]
    directory, under the name that [save_draft] returns. *)
Lemma plain_file (pid ts : pystr) :
  existsb (N.eqb SLASH) pid = false ->
  existsb (N.eqb SLASH) ts = false ->
  let name : pystr := pid ++ lit "_" ++ ts ++ lit ".json" in
  path_join DRAFTS_DIR name = (REPO_PATH ++ [lit "drafts"]) ++ [name]
  /\ str_eqb name DOTDOT = false
  /\ str_eqb name [] = false.
Proof.
  intros Hpid Hts name.
  assert (Hslash : existsb (N.eqb SLASH) name = false).
  { unfold name. rewrite !existsb_app, Hpid, Hts. reflexivity. }
  assert (Hlen : (6 <= List.length name)%nat).
  { unfold name. rewrite !length_app.
    change (List.length (lit "_")) with 1%nat.
    change (List.length (lit ".json")) with 5%nat. lia. }
  assert (Hne : forall t, (List.length t < 6)%nat -> str_eqb name t = false).
  { intros t Ht. destruct (str_eqb name t) eqn:E; [|reflexivity].
    apply str_eqb_length in E. lia. }
  split; [|split; apply Hne; simpl; lia].
  unfold DRAFTS_DIR.
  change (path_join REPO_PATH (lit "drafts")) with (REPO_PATH ++ [lit "drafts"]).
  apply path_join_plain; [assumption | |]; apply Hne; simpl; lia.
Qed.


(** C9, at the failing input. A record whose project id is ["../x"] is
    well formed, and saving it succeeds; but the file is written next to the
    [drafts] directory, not into it, and loading the draft by the name that
    [save_draft] returned gives [None], not the record. *)
Theorem save_draft_outside_drafts (fs : filesystem) (ts : pystr)
  (d : list (pystr * pyval)) (content : list N) :
  let name : pystr := lit "x_" ++ ts ++ lit ".json" in
  dict_lookup d (lit "project_id") = Some (PStr (lit "../x")) ->
  existsb (N.eqb SLASH) ts = false ->
  walk fs [] REPO_PATH = Ok REPO_PATH ->
  is_dir fs (REPO_PATH ++ [lit "drafts"]) = true ->
  is_dir fs (REPO_PATH ++ [name]) = false ->
  file_lookup (files fs) (REPO_PATH ++ [lit "drafts"; name]) = None ->
  json_dump (PDict d) = Ok content ->
  exists fs',
    save_draft fs ts (PDict d) = Ok (name, fs')
    /\ file_lookup (files fs') (REPO_PATH ++ [name]) = Some content
    /\ load_draft fs' name = PNone
    /\ load_draft fs' name <> PDict d.
Proof.
  intros name Hpid Hts Hrepo Hdrafts Hfree Hnone Hdump.
  assert (Hname : name = 120%N :: 95%N :: ts ++ lit ".json") by reflexivity.
  assert (Hslash : existsb (N.eqb SLASH) name = false).
  { rewrite Hname. cbn [existsb]. rewrite existsb_app, Hts. reflexivity. }
  assert (Hwalk : walk fs [] (REPO_PATH ++ [lit "drafts"; DOTDOT]) = Ok REPO_PATH).
  { rewrite walk_app, Hrepo. cbn [bind walk].
    change (str_eqb (lit "drafts") DOTDOT) with false. cbv iota.
    rewrite Hdrafts. change (str_eqb DOTDOT DOTDOT) with true. cbv iota.
    now rewrite removelast_last. }
  assert (Hfile : path_join DRAFTS_DIR (lit "../x" ++ lit "_" ++ ts ++ lit ".json")
                  = (REPO_PATH ++ [lit "drafts"; DOTDOT]) ++ [name]).
  { rewrite (traversal_file ts Hts), <- app_assoc. reflexivity. }
  assert (Hn1 : str_eqb name DOTDOT = false) by (rewrite Hname; reflexivity).
  assert (Hn2 : str_eqb name [] = false) by (rewrite Hname; reflexivity).
  clearbody name.
  assert (Hload : forall fs1,
             dirs fs1 = dirs fs ->
             files fs1
             = file_set (file_set (files fs) (REPO_PATH ++ [name]) [])
                 (REPO_PATH ++ [name]) content ->
             load_draft fs1 name = PNone).
  { intros fs1 Hd1 Hf1. unfold load_draft, read_file, locate.
    assert (Hjoin : path_join DRAFTS_DIR name = (REPO_PATH ++ [lit "drafts"]) ++ [name]).
    { unfold DRAFTS_DIR.
      change (path_join REPO_PATH (lit "drafts")) with (REPO_PATH ++ [lit "drafts"]).
      rewrite Hname at 1. unfold path_join.
      change (N.eqb 120 SLASH) with false. cbv iota. f_equal.
      rewrite <- Hname. unfold path_parts.
      rewrite (split_slash_plain name Hslash). cbn [filter].
      rewrite Hn2. rewrite Hname. reflexivity. }
    rewrite Hjoin. unfold path_name. rewrite removelast_last, last_last.
    assert (Hw : walk fs1 [] (REPO_PATH ++ [lit "drafts"])
                 = Ok (REPO_PATH ++ [lit "drafts"])).
    { apply (walk_same_dirs fs fs1); [now symmetry|].
      rewrite walk_app, Hrepo. cbn [bind walk].
      change (str_eqb (lit "drafts") DOTDOT) with false. cbv iota.
      now rewrite Hdrafts. }
    rewrite Hw. cbn [bind]. rewrite Hn1, Hn2. cbn [orb].
    rewrite orb_false_r.
    destruct (is_dir fs1 ((REPO_PATH ++ [lit "drafts"]) ++ [name])); [reflexivity|].
    cbn [bind]. rewrite Hf1, <- app_assoc. cbn [app].
    rewrite !file_lookup_set_other, Hnone; [reflexivity | |];
      intro E; apply app_inv_head in E; discriminate E. }
  eexists. split; [|split; [|split]].
  - unfold save_draft. cbn [py_get]. rewrite Hpid. cbn [bind].
    change (strip_or (py_or (PStr (lit "../x")) (PStr UNKNOWN)) UNKNOWN)
      with (@Ok pystr (lit "../x")).
    cbn [bind]. rewrite Hfile.
    unfold open_write, locate, path_name.
    rewrite removelast_last, last_last, Hwalk. cbn [bind].
    rewrite Hn1, Hfree, Hn2. cbn [orb bind fst snd]. rewrite Hdump. cbn [bind].
    reflexivity.
  - unfold write_all. cbn [files]. apply file_lookup_set_same.
  - now apply Hload.
  - rewrite Hload by reflexivity. discriminate.
Qed.

(* ------------------------------------------------------------------ *)
(** *** The artifact total: when it fails, how it adds up *)

Lemma is_ok_bind {A B} (r : result A) (k : A -> result B) (b : bool) :
  (forall a, is_ok (k a) = b) -> is_ok (x <- r ;; k x) = is_ok r && b.
Proof. intro H. destruct r as [a|e]; simpl; [apply H | reflexivity]. Qed.

(** The first entry that is not a mapping, or whose score is a NaN or an
    infinite float, ends the loop with an exception. *)
Lemma total_risk_loop_ok (entries : list pyval) :
  forall total,
    is_ok (total_risk_loop entries total)
    = forallb (fun c => is_dict c && negb (non_finite_score c)) entries.
Proof.
  induction entries as [|c entries IH]; intro total; [reflexivity|].
  cbn [total_risk_loop forallb].
  destruct c as [| | | | | |d]; try reflexivity.
  cbn [py_get is_dict andb]. unfold non_finite_score. cbn [entry_score].
  destruct (dict_lookup d (lit "score")) as [[| b | z | [| neg | m e] | s | l | d']|];
    cbn [bind isinstance_int_float py_int negb andb is_ok];
    try apply IH; reflexivity.
Qed.

(** The accumulator only carries the sum: the loop from [total] is the loop
    from 0, shifted. *)
Lemma total_risk_loop_acc (entries : list pyval) :
  forall total,
    total_risk_loop entries total
    = (n <- total_risk_loop entries 0 ;; Ok (total + n)).
Proof.
  induction entries as [|c entries IH]; intro total.
  - cbn. f_equal. lia.
  - cbn [total_risk_loop].
    destruct (py_get c (lit "score") PNone) as [score|e]; [|reflexivity].
    cbn [bind]. destruct (isinstance_int_float score).
    + destruct (py_int score) as [n|e]; [|reflexivity]. cbn [bind].
      rewrite (IH (total + n)), (IH (0 + n)).
      destruct (total_risk_loop entries 0) as [m|e]; [|reflexivity].
      cbn [bind]. f_equal. lia.
    + apply IH.
Qed.

Lemma total_risk_loop_app (l1 l2 : list pyval) :
  forall total,
    total_risk_loop (l1 ++ l2) total
    = (t <- total_risk_loop l1 total ;; total_risk_loop l2 t).
Proof.
  induction l1 as [|c l1 IH]; intro total; [reflexivity|].
  cbn [app total_risk_loop].
  destruct (py_get c (lit "score") PNone) as [score|e]; [|reflexivity].
  cbn [bind]. destruct (isinstance_int_float score); [|apply IH].
  destruct (py_int score) as [n|e]; [|reflexivity]. cbn [bind]. apply IH.
Qed.

(** X1. The artifact total fails exactly on a list that holds an entry which is
    not a mapping or whose score is a NaN or an infinite float: a missing
    score, a score of another type or out of range never makes it fail. *)
Theorem calculate_total_risk_ok (entries : list pyval) :
  is_ok (calculate_total_risk (PList entries))
  = forallb (fun c => is_dict c && negb (non_finite_score c)) entries.
Proof. unfold calculate_total_risk. cbn [py_iter bind]. apply total_risk_loop_ok. Qed.

(** X2. The total of two lists of checks put one after the other is the sum of
    their totals, and it fails when one of the two fails, with the exception
    of the first that does. *)
Theorem calculate_total_risk_app (l1 l2 : list pyval) :
  calculate_total_risk (PList (l1 ++ l2))
  = (a <- calculate_total_risk (PList l1) ;;
     b <- calculate_total_risk (PList l2) ;;
     Ok (a + b)).
Proof.
  unfold calculate_total_risk. cbn [py_iter bind].
  rewrite total_risk_loop_app.
  destruct (total_risk_loop l1 0) as [a|e]; [|reflexivity].
  cbn [bind]. apply total_risk_loop_acc.
Qed.

(* ------------------------------------------------------------------ *)
(** *** The records the generator accepts *)

Lemma py_get_entry (d : list (pystr * pyval)) (k : pystr) (default : pyval) :
  py_get (PDict d) k default = Ok (entry_or d k default).
Proof. apply py_get_dict. Qed.

Lemma check_row_ok (check : pyval) : is_ok (check_row check) = notes_ok check.
Proof.
  destruct (notes_ok check) eqn:Hok.
  - destruct (check_row_notes check Hok) as (name_cell & score_cell & -> & _).
    reflexivity.
  - destruct check as [| | | | | |d]; try reflexivity.
    unfold check_row. rewrite !py_get_dict. cbn [bind].
    unfold notes_ok in Hok. unfold py_or.
    destruct (dict_lookup d (lit "notes")) as [v|]; [|discriminate Hok].
    destruct v as [| b | z | f | s | l | dd]; try discriminate Hok;
      apply negb_false_iff in Hok; rewrite Hok; reflexivity.
Qed.

Lemma check_rows_ok (entries : list pyval) :
  forall table_data expanded_notes,
    is_ok (check_rows entries table_data expanded_notes) = forallb notes_ok entries.
Proof.
  induction entries as [|c entries IH]; intros table_data expanded_notes;
    [reflexivity|].
  cbn [check_rows forallb]. rewrite <- check_row_ok.
  destruct (check_row c) as [r|e]; cbn [bind is_ok andb]; [apply IH | reflexivity].
Qed.

Lemma forallb_check_ok (entries : list pyval) :
  forallb notes_ok entries
  && forallb (fun c => is_dict c && negb (non_finite_score c)) entries
  = forallb check_ok entries.
Proof.
  induction entries as [|c entries IH]; [reflexivity|].
  cbn [forallb]. rewrite <- IH. unfold check_ok.
  destruct c as [| | | | | |d]; try reflexivity.
  cbn [is_dict andb].
  destruct (notes_ok (PDict d)), (non_finite_score (PDict d)),
    (forallb notes_ok entries); reflexivity.
Qed.

(** The checks of an item: a value that counts as false gives the line "No
    checks recorded."; any other value must be a list of proper entries. *)
Lemma item_checks_ok (d : list (pystr * pyval)) :
  is_ok (item_checks (PDict d))
  = empty_or_all check_ok (entry_or d (lit "checks") (PList [])).
Proof.
  unfold item_checks. rewrite py_get_entry. cbn [bind].
  destruct (entry_or d (lit "checks") (PList []))
    as [| b | z | f | [|c s] | [|c l] | [|kv dd]]; try reflexivity.
  - destruct b; reflexivity.
  - cbn [truthy empty_or_all]. destruct (negb (z =? 0)); reflexivity.
  - cbn [truthy empty_or_all]. destruct f as [| neg | m e]; try reflexivity.
    destruct (negb (m =? 0)); reflexivity.
  - cbn [truthy empty_or_all]. rewrite <- forallb_check_ok.
    rewrite <- (check_rows_ok (c :: l) [TABLE_HEADER] []).
    rewrite <- (total_risk_loop_ok (c :: l) 0).
    unfold create_check_elements, calculate_total_risk. cbn [py_iter bind].
    destruct (check_rows (c :: l) [TABLE_HEADER] []) as [r|e];
      cbn [bind is_ok andb]; [|reflexivity].
    destruct (total_risk_loop (c :: l) 0); reflexivity.
Qed.

Lemma strip_or_ok (d : list (pystr * pyval)) (k fallback : pystr) :
  is_ok (strip_or (entry_or d k (PStr [])) fallback) = text_ok d k.
Proof.
  unfold entry_or, text_ok.
  destruct (dict_lookup d k) as [[| | | | | |]|]; reflexivity.
Qed.

Lemma component_items_ok (items : list pyval) :
  forall story idx,
    is_ok (component_items story idx items) = forallb item_ok items.
Proof.
  induction items as [|item items IH]; intros story idx; [reflexivity|].
  cbn [component_items forallb].
  destruct item as [| | | | | |d]; try reflexivity.
  rewrite py_get_entry. cbn [bind item_ok].
  rewrite <- (strip_or_ok d (lit "name") UNNAMED), <- item_checks_ok.
  destruct (strip_or (entry_or d (lit "name") (PStr [])) UNNAMED) as [name|e];
    cbn [bind is_ok andb]; [|reflexivity].
  destruct (item_checks (PDict d)) as [body|e]; cbn [bind is_ok andb];
    [apply IH | reflexivity].
Qed.

(** A section is laid out for a value that counts as false and for a list of
    items that can each be laid out; a mapping or a text with content, like a
    number other than zero, makes it raise. *)
Lemma add_component_section_ok (story : list flowable) (title : pystr)
  (items : pyval) :
  is_ok (add_component_section story title items) = empty_or_all item_ok items.
Proof.
  unfold add_component_section.
  destruct items as [| b | z | f | [|c s] | [|c l] | [|kv dd]]; try reflexivity.
  - destruct b; reflexivity.
  - cbn [truthy empty_or_all]. destruct (negb (z =? 0)); reflexivity.
  - cbn [truthy empty_or_all]. destruct f as [| neg | m e]; try reflexivity.
    destruct (negb (m =? 0)); reflexivity.
  - cbn [truthy negb py_iter bind empty_or_all]. apply component_items_ok.
Qed.

Lemma json_to_pdf_ok (now : pystr) (d : list (pystr * pyval)) :
  is_ok (json_to_pdf now (PDict d)) = record_ok d.
Proof.
  unfold json_to_pdf, record_ok, category_keys, checks.
  cbn [map fst forallb].
  rewrite py_get_entry. cbn [bind].
  destruct (entry_or d (lit "metadata") (PDict [])) as [| | | | | |m];
    try reflexivity.
  unfold create_metadata_table. rewrite metadata_rows_dict.
  cbn [bind is_dict andb app].
  repeat
    (rewrite py_get_entry; cbn [bind];
     match goal with
     | |- context [add_component_section ?s ?t (entry_or d ?k (PList []))] =>
         rewrite <- (add_component_section_ok s t (entry_or d k (PList [])));
         destruct (add_component_section s t (entry_or d k (PList [])));
         cbn [bind is_ok andb]; [|reflexivity]
     end).
  rewrite py_get_entry. cbn [bind].
  rewrite <- (strip_or_ok d (lit "observations") (lit "None recorded.")).
  destruct (strip_or (entry_or d (lit "observations") (PStr [])) (lit "None recorded."));
    cbn [bind is_ok andb]; [|reflexivity].
  rewrite py_get_entry. cbn [bind].
  rewrite <- (strip_or_ok d (lit "recommendation") (lit "Not provided.")).
  destruct (strip_or (entry_or d (lit "recommendation") (PStr [])) (lit "Not provided."));
    reflexivity.
Qed.

(** X3. The generator builds the story of a record exactly when the record
    is a mapping whose metadata, if any, is a mapping; whose four categories
    are each absent, a value that counts as false, or a list of items; whose
    items each have a text as name, if any, and as checks nothing, a value
    that counts as false or a list of mappings with proper notes and no NaN
    or infinite score; and whose observations and recommendation, if any, are
    texts. On any other input it raises. (What the layout library makes of
    the texts it is handed is outside the model, here as elsewhere.) *)
Theorem json_to_pdf_accepts (now : pystr) (data : pyval) :
  is_ok (json_to_pdf now data)
  = match data with
    | PDict d => record_ok d
    | _ => false
    end.
Proof.
  destruct data as [| | | | | |d]; try reflexivity. apply json_to_pdf_ok.
Qed.

(* ------------------------------------------------------------------ *)
(** *** The layout of a section and of the report *)

Lemma component_items_appends (items : list pyval) :
  forall story idx,
    component_items story idx items
    = (out <- component_items [] idx items ;; Ok (story ++ out)).
Proof.
  induction items as [|item items IH]; intros story idx.
  - cbn. now rewrite app_nil_r.
  - cbn [component_items].
    destruct (py_get item (lit "name") (PStr [])) as [n|e]; [|reflexivity].
    cbn [bind]. destruct (strip_or n UNNAMED) as [name|e]; [|reflexivity].
    cbn [bind]. destruct (item_checks item) as [body|e]; [|reflexivity].
    cbn [bind]. rewrite IH. rewrite (IH ([] ++ _)).
    destruct (component_items [] (idx + 1) items) as [out|e]; [|reflexivity].
    cbn [bind]. f_equal. symmetry. apply app_assoc.
Qed.

(** X4. A section is appended to the story: what it adds does not depend on what
    the story holds, and the story it is added to is left as it is. *)
Theorem add_component_section_appends (story : list flowable) (title : pystr)
  (items : pyval) :
  add_component_section story title items
  = (out <- add_component_section [] title items ;; Ok (story ++ out)).
Proof.
  unfold add_component_section. cbv zeta.
  destruct (negb (truthy items)).
  - cbn. now rewrite <- app_assoc.
  - destruct (py_iter items) as [l|e]; [|reflexivity]. cbn [bind].
    rewrite component_items_appends.
    rewrite (component_items_appends l ([] ++ _)).
    destruct (component_items [] 1 l) as [out|e]; [|reflexivity].
    cbn [bind]. f_equal. symmetry. apply app_assoc.
Qed.

Lemma styled_app (st : style) (a b : list flowable) :
  styled st (a ++ b) = styled st a ++ styled st b.
Proof. apply flat_map_app. Qed.

Lemma page_breaks_app (a b : list flowable) :
  page_breaks (a ++ b) = (page_breaks a + page_breaks b)%nat.
Proof. unfold page_breaks. now rewrite filter_app, length_app. Qed.

Lemma body_styled (st : style) (body : list flowable) :
  forallb in_body body = true -> structural st = true -> styled st body = [].
Proof.
  intros Hb Hs. induction body as [|f body IH]; [reflexivity|].
  cbn [forallb] in Hb. apply andb_true_iff in Hb as [Hf Hb].
  change (f :: body) with ([f] ++ body). rewrite styled_app, (IH Hb), app_nil_r.
  destruct f as [[text st']| | | |]; try reflexivity.
  cbn in Hf. cbn. destruct st', st; try discriminate; reflexivity.
Qed.

Lemma body_page_breaks (body : list flowable) :
  forallb in_body body = true -> page_breaks body = 0%nat.
Proof.
  intro Hb. induction body as [|f body IH]; [reflexivity|].
  cbn [forallb] in Hb. apply andb_true_iff in Hb as [Hf Hb].
  change (f :: body) with ([f] ++ body). rewrite page_breaks_app, (IH Hb).
  destruct f; try discriminate; reflexivity.
Qed.

Lemma expanded_blocks_body (l : list (pyval * pystr)) :
  forallb in_body (flat_map expanded_block l) = true.
Proof. induction l as [|e l IH]; [reflexivity | exact IH]. Qed.

Lemma item_checks_body (item : pyval) (body : list flowable) :
  item_checks item = Ok body -> forallb in_body body = true.
Proof.
  unfold item_checks.
  destruct (py_get item (lit "checks") (PList [])) as [v|e]; [|discriminate].
  cbn [bind]. destruct (truthy v).
  - unfold create_check_elements.
    destruct (py_iter v) as [l|e]; [|discriminate]. cbn [bind].
    destruct (check_rows l [TABLE_HEADER] []) as [[table_data expanded]|e];
      [|discriminate].
    cbn [bind fst snd]. destruct (calculate_total_risk v) as [t|e]; [|discriminate].
    cbn [bind]. intro H. injection H as <-.
    cbn [forallb in_body andb]. rewrite forallb_app.
    apply andb_true_iff. split; [|reflexivity].
    destruct expanded as [|e expanded]; [reflexivity|].
    exact (expanded_blocks_body (e :: expanded)).
  - intro H. injection H as <-. reflexivity.
Qed.

Lemma strip_or_item_name (d : list (pystr * pyval)) (name : pystr) :
  strip_or (entry_or d (lit "name") (PStr [])) UNNAMED = Ok name ->
  name = item_name (PDict d).
Proof.
  unfold entry_or, item_name.
  destruct (dict_lookup d (lit "name")) as [[| | | | s | |]|]; try discriminate.
  - unfold strip_or. cbn [py_strip bind truthy]. intro H. injection H as <-.
    now destruct (strip s).
  - intro H. injection H as <-. reflexivity.
Qed.

(** The structural paragraphs the loop over the items adds are the headers
    of the items, numbered from [idx] in the order of the list. *)
Lemma component_items_layout (items : list pyval) :
  forall story idx out,
    component_items story idx items = Ok out ->
    page_breaks out = page_breaks story
    /\ forall st, structural st = true ->
         styled st out
         = styled st story ++
           (if style_eqb ItemHeader st then numbered idx (map item_name items)
            else []).
Proof.
  induction items as [|item items IH]; intros story idx out H.
  - injection H as <-. split; [reflexivity|]. intros st _.
    destruct (style_eqb ItemHeader st); now rewrite app_nil_r.
  - cbn [component_items] in H.
    destruct item as [| | | | | |d]; try discriminate H.
    rewrite py_get_entry in H. cbn [bind] in H.
    destruct (strip_or (entry_or d (lit "name") (PStr [])) UNNAMED) as [name|e]
      eqn:Hname; [|discriminate H].
    apply strip_or_item_name in Hname. subst name.
    destruct (item_checks (PDict d)) as [body|e] eqn:Hbody; [|discriminate H].
    apply item_checks_body in Hbody.
    cbn [bind] in H. apply IH in H as [Hbreaks Hstyled]. split.
    + rewrite Hbreaks, !page_breaks_app, (body_page_breaks body Hbody).
      cbn. lia.
    + intros st Hs. rewrite (Hstyled st Hs), !styled_app, (body_styled st body Hbody Hs).
      rewrite <- app_assoc. f_equal.
      destruct st; try discriminate Hs; reflexivity.
Qed.

(** The structural paragraphs of a section: its header, then the headers of
    its items; and it holds no page break. *)
Lemma add_component_section_layout (story : list flowable) (title : pystr)
  (v : pyval) (out : list flowable) :
  add_component_section story title v = Ok out ->
  page_breaks out = page_breaks story
  /\ forall st, structural st = true ->
       styled st out
       = styled st story ++
         (if style_eqb SectionHeader st then [PStr title] else []) ++
         (if style_eqb ItemHeader st
          then numbered 1 (map item_name (match v with PList l => l | _ => [] end))
          else []).
Proof.
  unfold add_component_section. cbv zeta. intro H.
  destruct (truthy v) eqn:Hv; cbn [negb] in H.
  - destruct (py_iter v) as [l|e] eqn:Hl; [|discriminate H]. cbn [bind] in H.
    assert (Hitems : l = match v with PList l => l | _ => [] end).
    { destruct v as [| | | | [|c s] | l0 | [|kv dd]]; try discriminate Hl;
        try discriminate Hv.
      - injection Hl as <-. discriminate H.
      - now injection Hl as <-.
      - injection Hl as <-. discriminate H. }
    rewrite <- Hitems.
    apply component_items_layout in H as [Hbreaks Hstyled]. split.
    + rewrite Hbreaks, page_breaks_app. cbn. lia.
    + intros st Hs. rewrite (Hstyled st Hs), styled_app, <- app_assoc.
      f_equal. f_equal. destruct st; try discriminate Hs; reflexivity.
  - injection H as <-.
    assert (Hitems : match v with PList l => l | _ => [] end = []).
    { destruct v as [| | | | | [|a l] |]; try reflexivity. discriminate Hv. }
    rewrite Hitems. split.
    + rewrite !page_breaks_app. cbn. lia.
    + intros st Hs. rewrite !styled_app, <- app_assoc. f_equal.
      destruct st; try discriminate Hs; reflexivity.
Qed.

(** X5. The items of a section are numbered from 1 in the order of the input,
    each under its trimmed name, or under "(Unnamed component)" when it has
    none: the item headers of the section read "1. name", "2. name", and so
    on, and no item is left out or shown twice. *)
Theorem section_items_numbered (story : list flowable) (title : pystr)
  (items : list pyval) (out : list flowable) :
  add_component_section story title (PList items) = Ok out ->
  styled ItemHeader out
  = styled ItemHeader story ++ numbered 1 (map item_name items).
Proof.
  intro H.
  destruct (add_component_section_layout story title (PList items) out H)
    as [_ Hstyled].
  exact (Hstyled ItemHeader eq_refl).
Qed.

Lemma add_component_section_prefix (story : list flowable) (title : pystr)
  (v : pyval) (out : list flowable) :
  add_component_section story title v = Ok out -> exists tail, out = story ++ tail.
Proof.
  unfold add_component_section. cbv zeta.
  destruct (negb (truthy v)).
  - intro H. injection H as <-. eexists. symmetry. apply app_assoc.
  - destruct (py_iter v) as [l|e]; [|discriminate]. cbn [bind].
    rewrite component_items_appends.
    destruct (component_items [] 1 l) as [tail|e]; [|discriminate].
    cbn [bind]. intro H. injection H as <-. eexists. symmetry. apply app_assoc.
Qed.

(** X6. Whatever the record holds, a report that is generated has the same
    frame: it opens with the one title, it has the seven section headers
    "Review Information", "Third-Party Software", "Source Code", "Datasets /
    User Files", "AI Models", "General Observations" and "Final
    Recommendation" in this order, three page breaks, and it closes with the
    one footer line, which carries the time of the run. *)
Theorem json_to_pdf_frame (now : pystr) (data : pyval) (story : list flowable) :
  json_to_pdf now data = Ok story ->
  hd_error story
  = Some (FPara (Paragraph (PStr (lit "KSL AI Model Control Review")) DocTitle))
  /\ styled DocTitle story = [PStr (lit "KSL AI Model Control Review")]
  /\ styled SectionHeader story = SECTION_TITLES
  /\ page_breaks story = 3%nat
  /\ styled Footer story = [PStr (lit "Report generated on " ++ now)]
  /\ last story PageBreak
     = FPara (Paragraph (PStr (lit "Report generated on " ++ now)) Footer).
Proof.
  unfold json_to_pdf. intro H.
  destruct (py_get data (lit "metadata") (PDict [])) as [metadata|e];
    [|discriminate H].
  cbn [bind] in H. unfold create_metadata_table in H.
  destruct (metadata_rows metadata fields []) as [rows|e]; [|discriminate H].
  cbn [bind] in H.
  destruct (py_get data (lit "third_party_software") (PList [])) as [v1|e];
    [|discriminate H].
  cbn [bind] in H.
  destruct (add_component_section _ (lit "Third-Party Software") v1) as [s1|e]
    eqn:E1; [|discriminate H].
  cbn [bind] in H.
  destruct (py_get data (lit "source_code") (PList [])) as [v2|e];
    [|discriminate H].
  cbn [bind] in H.
  destruct (add_component_section _ (lit "Source Code") v2) as [s2|e]
    eqn:E2; [|discriminate H].
  cbn [bind] in H.
  destruct (py_get data (lit "datasets_user_files") (PList [])) as [v3|e];
    [|discriminate H].
  cbn [bind] in H.
  destruct (add_component_section _ (lit "Datasets / User Files") v3) as [s3|e]
    eqn:E3; [|discriminate H].
  cbn [bind] in H.
  destruct (py_get data (lit "models") (PList [])) as [v4|e]; [|discriminate H].
  cbn [bind] in H.
  destruct (add_component_section _ (lit "AI Models") v4) as [s4|e]
    eqn:E4; [|discriminate H].
  cbn [bind] in H.
  destruct (py_get data (lit "observations") (PStr [])) as [o|e]; [|discriminate H].
  cbn [bind] in H.
  destruct (strip_or o (lit "None recorded.")) as [observations|e];
    [|discriminate H].
  cbn [bind] in H.
  destruct (py_get data (lit "recommendation") (PStr [])) as [r|e];
    [|discriminate H].
  cbn [bind] in H.
  destruct (strip_or r (lit "Not provided.")) as [recommendation|e];
    [|discriminate H].
  cbn [bind] in H. injection H as <-.
  destruct (add_component_section_prefix _ _ _ _ E1) as [t1 P1].
  destruct (add_component_section_prefix _ _ _ _ E2) as [t2 P2].
  destruct (add_component_section_prefix _ _ _ _ E3) as [t3 P3].
  destruct (add_component_section_prefix _ _ _ _ E4) as [t4 P4].
  destruct (add_component_section_layout _ _ _ _ E1) as [B1 S1].
  destruct (add_component_section_layout _ _ _ _ E2) as [B2 S2].
  destruct (add_component_section_layout _ _ _ _ E3) as [B3 S3].
  destruct (add_component_section_layout _ _ _ _ E4) as [B4 S4].
  clear E1 E2 E3 E4.
  assert (Hframe : forall st, structural st = true ->
            styled st s4
            = styled st
                [FPara (Paragraph (PStr (lit "KSL AI Model Control Review")) DocTitle);
                 FPara (Paragraph (PStr (lit "Review Information")) SectionHeader)]
              ++ (if style_eqb SectionHeader st
                  then firstn 4 (tl SECTION_TITLES) else [])
              ++ (if style_eqb ItemHeader st then styled ItemHeader s4 else [])).
  { intros st Hs.
    rewrite (S4 st Hs), styled_app, (S3 st Hs), styled_app, (S2 st Hs),
      styled_app, (S1 st Hs), !styled_app.
    destruct st; try discriminate Hs; cbn; rewrite ?app_nil_r; try reflexivity.
    rewrite (S4 ItemHeader eq_refl), styled_app, (S3 ItemHeader eq_refl),
      styled_app, (S2 ItemHeader eq_refl), styled_app, (S1 ItemHeader eq_refl).
    cbn. now rewrite ?app_nil_r, <- ?app_assoc. }
  repeat split.
  - rewrite P4, P3, P2, P1. reflexivity.
  - rewrite !styled_app, (Hframe DocTitle eq_refl). reflexivity.
  - rewrite !styled_app, (Hframe SectionHeader eq_refl). reflexivity.
  - rewrite !page_breaks_app, B4, page_breaks_app, B3, page_breaks_app, B2,
      page_breaks_app, B1. reflexivity.
  - rewrite !styled_app, (Hframe Footer eq_refl). reflexivity.
  - match goal with
    | |- last (?l ++ [?a; ?b; ?c; ?x]) _ = _ =>
        change (l ++ [a; b; c; x]) with (l ++ ([a; b; c] ++ [x]));
        rewrite (app_assoc l [a; b; c] [x]); apply last_last
    end.
Qed.

(* ------------------------------------------------------------------ *)
(** *** The body of an item, and the report of a record without metadata *)

Lemma check_ok_parts (entries : list pyval) :
  forallb check_ok entries = true ->
  forallb notes_ok entries = true
  /\ forallb is_dict entries = true
  /\ existsb non_finite_score entries = false.
Proof.
  induction entries as [|c entries IH]; [now repeat split|].
  cbn [forallb existsb]. intro H. apply andb_true_iff in H as [Hc H].
  destruct (IH H) as (Hn & Hd & Hf). unfold check_ok in Hc.
  apply andb_true_iff in Hc as [Hcn Hcf]. apply negb_true_iff in Hcf.
  rewrite Hcn, Hn, Hd, Hcf, Hf.
  destruct c as [| | | | | |d]; try discriminate Hcn. now repeat split.
Qed.

(** X22. What the generator puts below the header of an item: for checks
    that are absent or an empty list, the line "No checks recorded."; for a
    list of proper check entries, the check table with one row per entry, the
    expanded blocks of the long notes, and then the line "Total Risk Score:"
    with the sum of the integer values of exactly the scores of the table. *)
Theorem item_checks_total (d : list (pystr * pyval)) (entries : list pyval) :
  entry_or d (lit "checks") (PList []) = PList entries ->
  forallb check_ok entries = true ->
  item_checks (PDict d)
  = Ok (match entries with
        | [] => [FPara (Paragraph (PStr (lit "No checks recorded.")) TableText)]
        | _ =>
            (Table (TABLE_HEADER :: map table_row entries)
             :: expanded_blocks (filter long_notes entries))
            ++ [FPara
                  (Paragraph
                     (PStr (lit "Total Risk Score: " ++
                            str_of_Z
                              (sumZ (map (fun c => int_value (entry_score c))
                                       entries))))
                     TotalRisk)]
        end).
Proof.
  intros Hchecks Hok.
  destruct (check_ok_parts entries Hok) as (Hnotes & Hdict & Hfinite).
  unfold item_checks. rewrite py_get_entry, Hchecks. cbn [bind].
  destruct entries as [|c entries]; [reflexivity|].
  cbn [truthy]. unfold create_check_elements, calculate_total_risk.
  cbn [py_iter bind].
  rewrite (check_rows_notes (c :: entries) Hnotes). cbn [bind fst snd].
  rewrite (total_risk_loop_sum (c :: entries) 0 Hdict Hfinite). cbn [bind].
  rewrite Z.add_0_l. do 2 f_equal. cbn [app]. f_equal.
  unfold expanded_blocks.
  destruct (filter long_notes (c :: entries)) as [|e long]; [reflexivity|].
  cbn [map app flat_map]. do 2 f_equal.
  now rewrite flat_map_concat_map, map_map, <- flat_map_concat_map.
Qed.

(** X23. A record without a [metadata] entry, such as the record the form
    keeps, whose proposal fields lie at its top level, gets a report whose
    information table shows "N/A" for each of the seven fields, whatever the
    record holds under [project_id] and the other fields. *)
Theorem report_without_metadata (now : pystr) (d : list (pystr * pyval))
  (story : list flowable) :
  dict_lookup d (lit "metadata") = None ->
  json_to_pdf now (PDict d) = Ok story ->
  nth_error story 3
  = Some (Table
            (map (fun kl =>
                    [CellPara
                       (Paragraph (PStr (lit "<b>" ++ snd kl ++ lit ":</b>"))
                          TableText);
                     CellPara (Paragraph (PStr (lit "N/A")) TableText)])
               REPORT_FIELDS)).
Proof.
  intros Hmeta H. unfold json_to_pdf in H.
  rewrite py_get_entry in H. unfold entry_or at 1 in H. rewrite Hmeta in H.
  cbn [bind] in H.
  change (create_metadata_table (PDict []))
    with (@Ok flowable
            (Table
               (map (fun kl =>
                       [CellPara
                          (Paragraph (PStr (lit "<b>" ++ snd kl ++ lit ":</b>"))
                             TableText);
                        CellPara (Paragraph (PStr (lit "N/A")) TableText)])
                  REPORT_FIELDS))) in H.
  cbn [bind] in H.
  rewrite py_get_entry in H. cbn [bind] in H.
  destruct (add_component_section _ (lit "Third-Party Software") _) as [s1|e]
    eqn:E1; [|discriminate H].
  cbn [bind] in H. rewrite py_get_entry in H. cbn [bind] in H.
  destruct (add_component_section _ (lit "Source Code") _) as [s2|e]
    eqn:E2; [|discriminate H].
  cbn [bind] in H. rewrite py_get_entry in H. cbn [bind] in H.
  destruct (add_component_section _ (lit "Datasets / User Files") _) as [s3|e]
    eqn:E3; [|discriminate H].
  cbn [bind] in H. rewrite py_get_entry in H. cbn [bind] in H.
  destruct (add_component_section _ (lit "AI Models") _) as [s4|e]
    eqn:E4; [|discriminate H].
  cbn [bind] in H. rewrite py_get_entry in H. cbn [bind] in H.
  destruct (strip_or _ (lit "None recorded.")) as [observations|e];
    [|discriminate H].
  cbn [bind] in H. rewrite py_get_entry in H. cbn [bind] in H.
  destruct (strip_or _ (lit "Not provided.")) as [recommendation|e];
    [|discriminate H].
  cbn [bind] in H. injection H as <-.
  destruct (add_component_section_prefix _ _ _ _ E1) as [t1 P1].
  destruct (add_component_section_prefix _ _ _ _ E2) as [t2 P2].
  destruct (add_component_section_prefix _ _ _ _ E3) as [t3 P3].
  destruct (add_component_section_prefix _ _ _ _ E4) as [t4 P4].
  rewrite P4, P3, P2, P1. reflexivity.
Qed.

(* ------------------------------------------------------------------ *)
(** *** Where the document is written, and what the program reports *)

Lemma before_last_dot_none (s : pystr) :
  existsb (N.eqb FULL_STOP) s = false -> before_last_dot s = None.
Proof.
  induction s as [|c s IH]; [reflexivity|].
  cbn [existsb before_last_dot]. intro H.
  apply orb_false_iff in H as [Hc Hs].
  rewrite (IH Hs), N.eqb_sym. now rewrite Hc.
Qed.

Lemma before_last_dot_split (stem ext : pystr) :
  existsb (N.eqb FULL_STOP) ext = false ->
  before_last_dot (stem ++ FULL_STOP :: ext) = Some stem.
Proof.
  intro H. induction stem as [|c stem IH].
  - cbn [app before_last_dot]. now rewrite (before_last_dot_none ext H).
  - cbn [app before_last_dot]. now rewrite IH.
Qed.

(** X7. The default output path replaces what follows the last full stop of the
    input path by [pdf], and appends [.pdf] to an input path that has no full
    stop; the last full stop counts wherever it is, also in the name of a
    directory. An output path that is given and not empty is used as it is; an
    empty one is ignored. *)
Theorem output_path_default (stem ext output : pystr) (c : N) :
  existsb (N.eqb FULL_STOP) ext = false ->
  output_path (stem ++ lit "." ++ ext) None = stem ++ lit ".pdf"
  /\ output_path ext None = ext ++ lit ".pdf"
  /\ output_path (stem ++ lit "." ++ ext) (Some []) = stem ++ lit ".pdf"
  /\ output_path (stem ++ lit "." ++ ext) (Some (c :: output)) = c :: output.
Proof.
  intro H. unfold output_path, rsplit_dot_head.
  change (lit "." ++ ext) with (FULL_STOP :: ext).
  rewrite (before_last_dot_split stem ext H), (before_last_dot_none ext H).
  repeat split.
Qed.

(** X8. The program ends with status 0 exactly when it is given an input path
    from which a record is read that the generator accepts, and the layout
    engine builds the document, at the output path of the arguments; it then
    prints that path. With no input path, an input that cannot be read, a
    record that is not accepted or a failure of the layout engine it ends with
    status 1, and no exception leaves it. *)
Theorem main_exit_status (load_json : pystr -> result pyval)
  (doc_build : pystr -> list flowable -> result unit) (now : pystr)
  (argv : list pystr) :
  (snd (main load_json doc_build now argv) = 0
   \/ snd (main load_json doc_build now argv) = 1)
  /\ (snd (main load_json doc_build now argv) = 0 <->
      exists prog input rest d story,
        argv = prog :: input :: rest
        /\ load_json input = Ok (PDict d)
        /\ record_ok d = true
        /\ json_to_pdf now (PDict d) = Ok story
        /\ doc_build (output_path input (hd_error rest)) story = Ok tt
        /\ fst (main load_json doc_build now argv)
           = Created (output_path input (hd_error rest))).
Proof.
  assert (Hout : forall rest : list pystr,
             match rest with o :: _ => Some o | [] => None end = hd_error rest)
    by (intros [|o rest]; reflexivity).
  destruct argv as [|prog [|input rest]]; cbn [main].
  - split; [now right|]. split; [discriminate|].
    intros (prog & input & rest & d & story & H & _). discriminate H.
  - split; [now right|]. split; [discriminate|].
    intros (prog' & input & rest & d & story & H & _). discriminate H.
  - rewrite Hout. unfold json_to_pdf_file.
    destruct (load_json input) as [data|e] eqn:Hload; cbn [bind].
    + assert (Hacc : forall d, data = PDict d ->
                is_ok (json_to_pdf now data) = record_ok d)
        by (intros d ->; apply json_to_pdf_ok).
      destruct (json_to_pdf now data) as [story|e] eqn:Hstory; cbn [bind].
      * destruct (doc_build (output_path input (hd_error rest)) story) as [[]|e]
          eqn:Hbuild; cbn [bind fst snd].
        -- split; [now left|]. split; [|reflexivity]. intros _.
           destruct data as [| | | | | |d]; try discriminate Hstory.
           exists prog, input, rest, d, story.
           specialize (Hacc d eq_refl). cbn [is_ok] in Hacc.
           now repeat split.
        -- split; [now right|]. split; [discriminate|].
           intros (prog' & input' & rest' & d & story' & H & Hl & _ & Hs & Hb & _).
           injection H as <- <- <-. rewrite Hload in Hl. injection Hl as ->.
           rewrite Hstory in Hs. injection Hs as <-.
           rewrite Hbuild in Hb. discriminate Hb.
      * split; [now right|]. split; [discriminate|].
        intros (prog' & input' & rest' & d & story' & H & Hl & _ & Hs & _).
        injection H as <- <- <-. rewrite Hload in Hl. injection Hl as ->.
        rewrite Hstory in Hs. discriminate Hs.
    + split; [now right|]. split; [discriminate|].
      intros (prog' & input' & rest' & d & story' & H & Hl & _).
      injection H as <- <- <-. rewrite Hload in Hl. discriminate Hl.
Qed.

(* ------------------------------------------------------------------ *)
(** *** What a run of a section leaves in the record *)

(** The record a section leaves has the keys of the record it was given, and
    under every key but its own the value it had. *)
Lemma render_section_same (u : ui) (key : pystr) (d : list (pystr * pyval)) :
  exists d',
    snd (fst (render_section u key (PDict d))) = PDict d'
    /\ dict_keys d' = dict_keys d
    /\ forall k, k <> key -> dict_lookup d' k = dict_lookup d k.
Proof.
  pose (same := fun d1 d2 : list (pystr * pyval) =>
          dict_keys d2 = dict_keys d1
          /\ forall k, k <> key -> dict_lookup d2 k = dict_lookup d1 k).
  assert (Hset : forall d1 v w,
             dict_lookup d1 key = Some w -> same d1 (dict_set d1 key v)).
  { intros d1 v w Hw. split; [exact (dict_keys_set_present d1 key v w Hw)|].
    intros k Hk. now apply dict_lookup_set_other. }
  assert (Hrefl : forall d1, same d1 d1) by (intro d1; split; reflexivity).
  assert (Htrans : forall d1 d2 d3, same d1 d2 -> same d2 d3 -> same d1 d3).
  { intros d1 d2 d3 [K1 L1] [K2 L2]. split; [congruence|].
    intros k Hk. rewrite (L2 k Hk). now apply L1. }
  change (exists d', snd (fst (render_section u key (PDict d))) = PDict d'
                     /\ same d d').
  unfold render_section.
  destruct (if button_add u key then add_artifact key (PDict d) else Ok (PDict d))
    as [data1|e] eqn:Hadd; [|exists d; split; [reflexivity | apply Hrefl]].
  assert (H1 : exists d1, data1 = PDict d1 /\ same d d1).
  { destruct (button_add u key).
    - unfold add_artifact in Hadd. cbn [py_getitem] in Hadd.
      destruct (dict_lookup d key) as [arts|] eqn:Hk; [|discriminate Hadd].
      cbn [bind] in Hadd.
      destruct arts as [| | | | | l |]; try discriminate Hadd.
      destruct (checks_of checks key) as [cs|e]; [|discriminate Hadd].
      cbn [bind py_setitem] in Hadd. injection Hadd as <-.
      eexists. split; [reflexivity|]. now apply (Hset d _ (PList l)).
    - injection Hadd as <-. exists d. split; [reflexivity | apply Hrefl]. }
  destruct H1 as (d1 & -> & Hs1). clear Hadd.
  cbn [py_getitem].
  destruct (dict_lookup d1 key) as [arts|] eqn:Hk;
    [|exists d1; split; [reflexivity | assumption]].
  destruct arts as [| b | z | f | s | l | dd];
    try (match goal with
         | |- context [py_iter ?v] => destruct (py_iter v) as [[|x xs]|e]
         end;
         [destruct (section_risk key (PDict d1)) | |];
         exists d1; (split; [reflexivity | assumption])).
  destruct (artifacts_loop u key [] l) as [st l']. cbn [py_setitem].
  exists (dict_set d1 key (PList l')). split.
  - destruct st; [destruct (section_risk key _)| |]; reflexivity.
  - apply (Htrans d d1); [assumption|]. now apply (Hset d1 _ (PList l)).
Qed.

(** X9. A section works on the entry of its own key only. *)
Theorem render_section_frame (u : ui) (key : pystr) (d : list (pystr * pyval)) :
  exists d',
    snd (fst (render_section u key (PDict d))) = PDict d'
    /\ dict_keys d' = dict_keys d
    /\ forall k, k <> key -> dict_lookup d' k = dict_lookup d k.
Proof. exact (render_section_same u key d). Qed.

Lemma edit_check_result (u : ui) (key : pystr) (idx : Z) (check : pystr)
  (a a' : pyval) :
  edit_check u key idx check a = Ok a' ->
  exists d cks,
    a = PDict d
    /\ dict_lookup d (lit "checks") = Some (PDict cks)
    /\ a' = PDict (dict_set d (lit "checks")
                     (PDict (dict_set cks check (widget_result u key idx check)))).
Proof.
  unfold edit_check. intro H.
  destruct a as [| | | | | |d]; try discriminate H. cbn [py_getitem] in H.
  destruct (dict_lookup d (lit "checks")) as [cksv|] eqn:Hc; [|discriminate H].
  cbn [bind] in H.
  destruct cksv as [| | | | | |cks]; try discriminate H.
  cbn [py_getitem] in H.
  destruct (dict_lookup cks check) as [current|]; [|discriminate H].
  cbn [bind] in H.
  destruct (py_getitem current (lit "score")) as [s|e]; [|discriminate H].
  cbn [bind] in H.
  destruct (selectbox_index s) as [[]|e]; [|discriminate H].
  cbn [bind] in H.
  destruct (py_getitem current (lit "notes")) as [n|e]; [|discriminate H].
  cbn [bind py_setitem] in H. injection H as <-.
  exists d, cks. now repeat split.
Qed.

(** Editing a check stores the values of its two widgets, and touches neither
    the name of the artifact nor its other checks. *)
Lemma edit_check_stores (u : ui) (key : pystr) (idx : Z) (check : pystr)
  (a a' : pyval) :
  edit_check u key idx check a = Ok a' ->
  py_getitem a' (lit "name") = py_getitem a (lit "name")
  /\ forall c,
       check_of c a'
       = if str_eqb c check then Ok (widget_result u key idx c) else check_of c a.
Proof.
  intro H. destruct (edit_check_result u key idx check a a' H)
    as (d & cks & -> & Hcks & ->).
  split.
  - cbn [py_getitem]. now rewrite dict_lookup_set_other by distinct_literals.
  - intro c. unfold check_of. cbn [py_getitem].
    rewrite dict_lookup_set_same, Hcks. cbn [bind py_getitem].
    destruct (str_eqb c check) eqn:E.
    + apply str_eqb_eq in E. subst c. now rewrite dict_lookup_set_same.
    + apply str_eqb_neq in E.
      rewrite dict_lookup_set_other by (intro Hc; now apply E). reflexivity.
Qed.

Lemma edit_checks_stores (u : ui) (key : pystr) (idx : Z) (todo : list pystr) :
  forall a a',
    edit_checks u key idx todo a = (Ok tt, a') ->
    py_getitem a' (lit "name") = py_getitem a (lit "name")
    /\ forall c,
         check_of c a'
         = if mem c todo then Ok (widget_result u key idx c) else check_of c a.
Proof.
  induction todo as [|check todo IH]; intros a a' H.
  - injection H as <-. now split.
  - cbn [edit_checks] in H.
    destruct (edit_check u key idx check a) as [a1|e] eqn:E; [|discriminate H].
    destruct (edit_check_stores u key idx check a a1 E) as [N1 C1].
    destruct (IH a1 a' H) as [N2 C2].
    split; [congruence|]. intro c. rewrite C2, C1.
    unfold mem. cbn [existsb]. fold (mem c todo).
    destruct (str_eqb c check), (mem c todo); reflexivity.
Qed.

Lemma edit_artifact_stores (u : ui) (key : pystr) (idx : Z) (cs : list pystr)
  (a a' : pyval) :
  checks_of checks key = Ok cs ->
  edit_artifact u key idx a = (Ok tt, a') ->
  shows u key cs idx a'.
Proof.
  intros Hcs H. unfold edit_artifact in H.
  destruct (py_getitem a (lit "name")) as [n|e]; [|discriminate H].
  destruct a as [| | | | | |d]; try discriminate H.
  cbn [py_setitem] in H. rewrite Hcs in H.
  destruct (edit_checks_stores u key idx cs _ a' H) as [Hname Hchecks].
  split.
  - rewrite Hname. cbn [py_getitem]. now rewrite dict_lookup_set_same.
  - intros c Hc. rewrite Hchecks. now rewrite (mem_In c cs Hc).
Qed.

Lemma first_remove_bounds (u : ui) (key : pystr) (n : nat) :
  forall idx j,
    first_remove u key idx n = Some j -> (idx <= j < idx + n)%nat.
Proof.
  induction n as [|n IH]; intros idx j H; [discriminate H|].
  cbn [first_remove] in H.
  destruct (button_remove u key (Z.of_nat idx)).
  - injection H as <-. lia.
  - apply IH in H. lia.
Qed.

(** The loop over the artifacts of a valid category, from index [idx] on:
    the artifacts in front of the first remove button that is clicked are
    edited; that one is removed, and the loop stops there. *)
Lemma artifacts_loop_run (u : ui) (key : pystr) (cs : list pystr) :
  checks_of checks key = Ok cs ->
  forall todo before idx,
    idx = List.length before ->
    forallb (valid_artifact cs) todo = true ->
    exists edited,
      (forall i a, nth_error edited i = Some a ->
         shows u key cs (Z.of_nat (idx + i)) a)
      /\ match first_remove u key idx (List.length todo) with
         | None =>
             artifacts_loop u key before todo = (Finished, before ++ edited)
             /\ List.length edited = List.length todo
         | Some j =>
             artifacts_loop u key before todo
             = (Rerun, before ++ edited ++ skipn (S (j - idx)) todo)
             /\ List.length edited = (j - idx)%nat
         end.
Proof.
  intro Hcs. induction todo as [|a todo IH]; intros before idx Hidx Hv.
  - exists []. split; [intros [|i] b H; discriminate H|].
    cbn. now rewrite app_nil_r.
  - cbn [forallb] in Hv. apply andb_true_iff in Hv as [Ha Hv].
    cbn [artifacts_loop List.length first_remove]. rewrite <- Hidx.
    destruct (edit_artifact_valid u key (Z.of_nat idx) cs a Hcs Ha)
      as (a' & Ea & _).
    rewrite Ea.
    pose proof (edit_artifact_stores u key (Z.of_nat idx) cs a a' Hcs Ea) as Hshows.
    destruct (button_remove u key (Z.of_nat idx)).
    + exists []. split; [intros [|i] b H; discriminate H|].
      rewrite Hidx, remove_at_app, Nat.sub_diag. now split.
    + destruct (IH (before ++ [a']) (S idx)) as (edited & Hed & Hloop);
        [rewrite length_app; cbn; lia | assumption |].
      exists (a' :: edited). split.
      * intros [|i] b Hb.
        -- injection Hb as <-. now rewrite Nat.add_0_r.
        -- cbn [nth_error] in Hb. replace (idx + S i)%nat with (S idx + i)%nat by lia.
           now apply Hed.
      * destruct (first_remove u key (S idx) (List.length todo)) as [j|] eqn:Hj.
        -- apply first_remove_bounds in Hj. destruct Hloop as [-> Hlen].
           split; [|cbn [List.length]; lia].
           replace (j - idx)%nat with (S (j - S idx)) by lia.
           rewrite <- app_assoc. reflexivity.
        -- destruct Hloop as [-> Hlen]. split; [|cbn [List.length]; lia].
           now rewrite <- app_assoc.
Qed.

(** The artifacts a run of the section of a valid record starts from. *)
Lemma add_artifact_valid (u : ui) (key : pystr) (cs : list pystr)
  (d : list (pystr * pyval)) :
  checks_of checks key = Ok cs ->
  valid_record d = true ->
  exists d1,
    (if button_add u key then add_artifact key (PDict d) else Ok (PDict d))
    = Ok (PDict d1)
    /\ valid_record d1 = true
    /\ dict_lookup d1 key = Some (PList (with_added u key cs (category_arts d key)))
    /\ forallb (valid_artifact cs) (with_added u key cs (category_arts d key)) = true.
Proof.
  intros Hcs Hd.
  destruct (valid_record_lookup d key cs Hd Hcs) as (l & Hl & Hv).
  unfold with_added, category_arts. rewrite Hl.
  destruct (button_add u key).
  - assert (Hv' : forallb (valid_artifact cs)
                    (l ++ [new_artifact (Z.of_nat (List.length l)) cs]) = true).
    { rewrite forallb_app, Hv. cbn [forallb].
      destruct (new_artifact_valid (Z.of_nat (List.length l)) key cs Hcs) as [-> _].
      reflexivity. }
    unfold add_artifact. cbn [py_getitem]. rewrite Hl. cbn [bind].
    rewrite Hcs. cbn [bind py_setitem].
    eexists. split; [reflexivity|]. split; [|split].
    + now apply (valid_record_set d key cs).
    + apply dict_lookup_set_same.
    + exact Hv'.
  - exists d. now repeat split.
Qed.

(** A run of the section of a valid record, by the first remove button that
    is clicked among those of its artifacts. *)
Lemma render_section_run (u : ui) (key : pystr) (cs : list pystr)
  (d : list (pystr * pyval)) :
  checks_of checks key = Ok cs ->
  valid_record d = true ->
  let l := with_added u key cs (category_arts d key) in
  exists d' edited,
    (forall i a, nth_error edited i = Some a -> shows u key cs (Z.of_nat i) a)
    /\ match first_remove u key 0 (List.length l) with
       | None =>
           (exists shown, render_section u key (PDict d) = (Finished, PDict d', shown))
           /\ category_arts d' key = edited
           /\ List.length edited = List.length l
       | Some j =>
           render_section u key (PDict d) = (Rerun, PDict d', None)
           /\ category_arts d' key = edited ++ skipn (S j) l
           /\ List.length edited = j
       end.
Proof.
  intros Hcs Hd l.
  destruct (add_artifact_valid u key cs d Hcs Hd) as (d1 & Hadd & Hd1 & Hl & Hv).
  fold l in Hl, Hv.
  destruct (artifacts_loop_run u key cs Hcs l [] 0%nat eq_refl Hv)
    as (edited & Hshows & Hloop).
  destruct (artifacts_loop_valid u key cs Hcs l [] eq_refl Hv) as [_ Hvalid].
  unfold render_section. rewrite Hadd. cbn [py_getitem]. rewrite Hl.
  destruct (first_remove u key 0 (List.length l)) as [j|].
  - destruct Hloop as [Hloop Hlen]. rewrite Hloop in Hvalid |- *.
    cbn [app py_setitem snd] in Hvalid |- *.
    exists (dict_set d1 key (PList (edited ++ skipn (S (j - 0)) l))), edited.
    split; [exact Hshows|]. rewrite Nat.sub_0_r in *.
    split; [reflexivity|]. split; [|assumption].
    unfold category_arts. now rewrite dict_lookup_set_same.
  - destruct Hloop as [Hloop Hlen]. rewrite Hloop in Hvalid |- *.
    cbn [app py_setitem snd] in Hvalid |- *.
    exists (dict_set d1 key (PList edited)), edited.
    split; [exact Hshows|].
    pose proof (valid_record_set d1 key cs edited Hd1 Hcs Hvalid) as Hd2.
    pose proof (section_risk_valid key cs _ Hcs Hd2) as Hrisk.
    split; [|split; [|assumption]].
    + destruct (section_risk key (PDict (dict_set d1 key (PList edited))))
        as [shown|e]; [|discriminate Hrisk].
      now exists shown.
    + unfold category_arts. now rewrite dict_lookup_set_same.
Qed.

(** X10. When no remove button is clicked, a run of the section of a valid record
    falls through, and the record then holds, for each artifact (the new one
    included when the add button is clicked), what its widgets returned: the
    name of the name field and, for each check of the category, the score of
    the selector and the notes of the text area. *)
Theorem render_section_stores (u : ui) (key : pystr) (cs : list pystr)
  (d : list (pystr * pyval)) :
  checks_of checks key = Ok cs ->
  valid_record d = true ->
  first_remove u key 0
    (List.length (with_added u key cs (category_arts d key))) = None ->
  exists d' shown,
    render_section u key (PDict d) = (Finished, PDict d', shown)
    /\ List.length (category_arts d' key)
       = List.length (with_added u key cs (category_arts d key))
    /\ forall i a, nth_error (category_arts d' key) i = Some a ->
         shows u key cs (Z.of_nat i) a.
Proof.
  intros Hcs Hd Hnone.
  destruct (render_section_run u key cs d Hcs Hd) as (d' & edited & Hshows & Hrun).
  cbv zeta in Hrun. rewrite Hnone in Hrun.
  destruct Hrun as ((shown & Hrun) & Harts & Hlen).
  exists d', shown. rewrite Harts. split; [|split]; assumption.
Qed.

(** X11. When a remove button is clicked, the run of the section ends with a
    rerun at the first such button, say of the artifact of index [j]: that
    artifact is gone from the record, the artifacts in front of it hold what
    their widgets returned, and the artifacts after it are those of before the
    run, which their widgets have not been read for. *)
Theorem render_section_removes (u : ui) (key : pystr) (cs : list pystr)
  (d : list (pystr * pyval)) (j : nat) :
  checks_of checks key = Ok cs ->
  valid_record d = true ->
  first_remove u key 0
    (List.length (with_added u key cs (category_arts d key))) = Some j ->
  exists d' edited,
    render_section u key (PDict d) = (Rerun, PDict d', None)
    /\ category_arts d' key
       = edited ++ skipn (S j) (with_added u key cs (category_arts d key))
    /\ List.length edited = j
    /\ forall i a, nth_error edited i = Some a -> shows u key cs (Z.of_nat i) a.
Proof.
  intros Hcs Hd Hsome.
  destruct (render_section_run u key cs d Hcs Hd) as (d' & edited & Hshows & Hrun).
  cbv zeta in Hrun. rewrite Hsome in Hrun.
  destruct Hrun as (Hrun & Harts & Hlen).
  exists d', edited. split; [|split; [|split]]; assumption.
Qed.

(* ------------------------------------------------------------------ *)
(** *** Stored entries that the form cannot read *)

(** The reads of lines 212 to 217 come first in the pass over a check: when
    they raise, so does the pass, and nothing is stored. *)
Lemma edit_check_reads (u : ui) (key : pystr) (idx : Z) (check : pystr)
  (a : pyval) (e : exc) :
  read_current check a = Raise e -> edit_check u key idx check a = Raise e.
Proof.
  unfold read_current, check_of, edit_check.
  destruct (py_getitem a (lit "checks")) as [cks|e0]; cbn [bind];
    [|now intros [= ->]].
  destruct (py_getitem cks check) as [current|e0]; cbn [bind];
    [|now intros [= ->]].
  destruct (py_getitem current (lit "score")) as [s|e0]; cbn [bind];
    [|now intros [= ->]].
  destruct (selectbox_index s) as [[]|e0]; cbn [bind];
    [discriminate | now intros [= ->]].
Qed.

Lemma lacks_check_of (c : pystr) (a : pyval) :
  lacks_check c a = true -> check_of c a = Raise KeyError.
Proof.
  unfold lacks_check, check_of.
  destruct a as [| | | | | |d]; try discriminate. cbn [py_getitem].
  destruct (dict_lookup d (lit "checks")) as [[| | | | | |cks]|]; try discriminate.
  cbn [bind py_getitem]. destruct (dict_lookup cks c); [discriminate|reflexivity].
Qed.

Lemma lacks_check_read (c : pystr) (a : pyval) :
  lacks_check c a = true -> read_current c a = Raise KeyError.
Proof. intro H. unfold read_current. now rewrite (lacks_check_of c a H). Qed.

(** The selector refuses exactly the scores that are no int from 1 to 5. *)
Lemma score_error_index (s : pyval) :
  selectbox_index s
  = match score_error s with Some e => Raise e | None => Ok tt end.
Proof.
  destruct s as [|[|]|z|f|s|l|d]; try reflexivity.
  unfold selectbox_index, score_error. cbn [as_int].
  destruct ((1 <=? z) && (z <=? 5)) eqn:E.
  - apply andb_true_iff in E as [E1 E2].
    apply Z.leb_le in E1. apply Z.leb_le in E2.
    replace ((0 <=? z - 1) && (z - 1 <? 5)) with true; [reflexivity|].
    symmetry. apply andb_true_iff. split; [apply Z.leb_le | apply Z.ltb_lt]; lia.
  - replace ((0 <=? z - 1) && (z - 1 <? 5)) with false; [reflexivity|].
    symmetry. apply andb_false_iff. apply andb_false_iff in E as [E|E].
    + left. apply Z.leb_gt in E. apply Z.leb_gt. lia.
    + right. apply Z.leb_gt in E. apply Z.ltb_ge. lia.
Qed.

Lemma score_of_read (c : pystr) (a s : pyval) (e : exc) :
  score_of c a = Ok s -> score_error s = Some e -> read_current c a = Raise e.
Proof.
  unfold score_of, read_current, check_of.
  destruct (py_getitem a (lit "checks")) as [cks|e0]; cbn [bind]; [|discriminate].
  destruct (py_getitem cks c) as [current|e0]; cbn [bind]; [|discriminate].
  intros -> He. cbn [bind]. now rewrite score_error_index, He.
Qed.

Lemma read_current_same (c : pystr) (a a' : pyval) :
  check_of c a' = check_of c a -> read_current c a' = read_current c a.
Proof. unfold read_current. now intros ->. Qed.

(** The passes over the other checks leave the entry as it is, so the loop
    over the checks does not get past it. *)
Lemma edit_checks_unreadable (u : ui) (key : pystr) (idx : Z) (c : pystr)
  (e : exc) (cs : list pystr) :
  In c cs ->
  forall a,
    read_current c a = Raise e ->
    exists e', fst (edit_checks u key idx cs a) = Raise e'.
Proof.
  induction cs as [|check cs IH]; intros Hin a Hr; [contradiction|].
  cbn [edit_checks].
  destruct (edit_check u key idx check a) as [a1|e1] eqn:E; [|now exists e1].
  destruct (str_eqb c check) eqn:Ec.
  - apply str_eqb_eq in Ec. subst check.
    rewrite (edit_check_reads u key idx c a e Hr) in E. discriminate E.
  - destruct Hin as [->|Hin]; [now rewrite str_eqb_refl in Ec|].
    apply IH; [assumption|].
    rewrite <- Hr. apply read_current_same.
    destruct (edit_check_stores u key idx check a a1 E) as [_ Hc].
    now rewrite Hc, Ec.
Qed.

Lemma edit_artifact_unreadable (u : ui) (key : pystr) (idx : Z)
  (cs : list pystr) (c : pystr) (a : pyval) (e : exc) :
  checks_of checks key = Ok cs -> In c cs ->
  read_current c a = Raise e ->
  exists e', fst (edit_artifact u key idx a) = Raise e'.
Proof.
  intros Hcs Hin Hr. unfold edit_artifact.
  destruct (py_getitem a (lit "name")) as [n|e1] eqn:En; [|now exists e1].
  destruct a as [| | | | | |d]; try discriminate En.
  cbn [py_setitem]. rewrite Hcs.
  apply (edit_checks_unreadable u key idx c e cs Hin).
  rewrite <- Hr. apply read_current_same.
  unfold check_of. cbn [py_getitem].
  now rewrite dict_lookup_set_other by distinct_literals.
Qed.

(** The loop over the artifacts does not fall through: it raises, at that
    artifact or before, unless a remove button in front of it is clicked. *)
Lemma artifacts_loop_unreadable (u : ui) (key : pystr) (cs : list pystr)
  (c : pystr) (a : pyval) (e : exc) :
  checks_of checks key = Ok cs -> In c cs ->
  read_current c a = Raise e ->
  forall todo before,
    In a todo ->
    fst (artifacts_loop u key before todo) <> Finished
    /\ ((forall idx, button_remove u key idx = false) ->
        exists e', fst (artifacts_loop u key before todo) = Raised e').
Proof.
  intros Hcs Hin Hr. induction todo as [|a0 todo IH]; intros before Ha;
    [contradiction|].
  cbn [artifacts_loop]. cbv zeta.
  destruct (edit_artifact u key (Z.of_nat (List.length before)) a0)
    as [[[]|e1] a1] eqn:E.
  - destruct Ha as [->|Ha].
    + destruct (edit_artifact_unreadable u key (Z.of_nat (List.length before))
                  cs c a e Hcs Hin Hr) as [e' He'].
      rewrite E in He'. discriminate He'.
    + destruct (button_remove u key (Z.of_nat (List.length before))) eqn:Hb.
      * split; [discriminate|]. intro Hno. rewrite Hno in Hb. discriminate Hb.
      * now apply IH.
  - split; [discriminate|]. intros _. now exists e1.
Qed.

(** A section one of whose artifacts holds such an entry shows no risk
    score. *)
Lemma render_section_unreadable (u : ui) (key : pystr) (cs : list pystr)
  (d : list (pystr * pyval)) (arts : list pyval) (c : pystr) (a : pyval)
  (e : exc) :
  checks_of checks key = Ok cs ->
  dict_lookup d key = Some (PList arts) ->
  In c cs -> In a arts ->
  read_current c a = Raise e ->
  fst (fst (render_section u key (PDict d))) <> Finished
  /\ snd (render_section u key (PDict d)) = None
  /\ ((forall idx, button_remove u key idx = false) ->
      exists e', fst (fst (render_section u key (PDict d))) = Raised e').
Proof.
  intros Hcs Hd Hc Ha Hr. unfold render_section.
  assert (H1 : exists d1 l,
             (if button_add u key then add_artifact key (PDict d) else Ok (PDict d))
             = Ok (PDict d1)
             /\ dict_lookup d1 key = Some (PList l) /\ In a l).
  { destruct (button_add u key).
    - unfold add_artifact. cbn [py_getitem]. rewrite Hd. cbn [bind].
      rewrite Hcs. cbn [bind py_setitem].
      eexists _, _. split; [reflexivity|]. split; [apply dict_lookup_set_same|].
      apply in_or_app. now left.
    - exists d, arts. now repeat split. }
  destruct H1 as (d1 & l & -> & Hl & Hin). cbn [py_getitem]. rewrite Hl.
  destruct (artifacts_loop_unreadable u key cs c a e Hcs Hc Hr l [] Hin)
    as [Hnf Hraise].
  destruct (artifacts_loop u key [] l) as [st l']. cbn [fst] in Hnf, Hraise.
  cbn [py_setitem].
  destruct st as [| |e0]; [contradiction (Hnf eq_refl)| |]; cbn [fst snd].
  - split; [discriminate|]. split; [reflexivity|].
    intro Hno. destruct (Hraise Hno) as [e' He']. discriminate He'.
  - split; [discriminate|]. split; [reflexivity|]. intros _. now exists e0.
Qed.

(** The sections in front of that one leave its artifacts as they are, so the
    four sections do not all fall through, and the final summary is not
    reached. *)
Lemma render_sections_unreadable (u : ui) (key : pystr) (cs : list pystr)
  (c : pystr) (a : pyval) (e : exc) :
  checks_of checks key = Ok cs -> In c cs ->
  read_current c a = Raise e ->
  forall keys d arts,
    In key keys ->
    dict_lookup d key = Some (PList arts) -> In a arts ->
    fst (render_sections u keys (PDict d)) <> Finished.
Proof.
  intros Hcs Hc Hr. induction keys as [|k keys IH]; intros d arts Hk Hd Ha;
    [contradiction|].
  cbn [render_sections].
  destruct (str_eqb k key) eqn:E.
  - apply str_eqb_eq in E. subst k.
    destruct (render_section_unreadable u key cs d arts c a e Hcs Hd Hc Ha Hr)
      as (Hnf & _ & _).
    destruct (render_section u key (PDict d)) as [[st d'] shown].
    cbn [fst] in Hnf. destruct st; [contradiction (Hnf eq_refl)| |];
      cbn [fst]; discriminate.
  - assert (Hne : k <> key) by now apply str_eqb_neq.
    destruct Hk as [Hk|Hk]; [contradiction|].
    destruct (render_section_same u k d) as (d' & Hd' & _ & Hother).
    destruct (render_section u k (PDict d)) as [[st dd] shown].
    cbn [fst snd] in Hd'. subst dd.
    destruct st; cbn [fst]; try discriminate.
    apply (IH d' arts); try assumption.
    rewrite Hother; [assumption|]. intro Heq. now apply Hne.
Qed.

Lemma sections_and_summary_unreadable (u : ui) (key : pystr) (cs : list pystr)
  (d : list (pystr * pyval)) (arts : list pyval) (c : pystr) (a : pyval)
  (e : exc) :
  checks_of checks key = Ok cs ->
  dict_lookup d key = Some (PList arts) ->
  In c cs -> In a arts ->
  read_current c a = Raise e ->
  fst (fst (sections_and_summary u (PDict d))) <> Finished
  /\ snd (sections_and_summary u (PDict d)) = None.
Proof.
  intros Hcs Hd Hc Ha Hr.
  assert (Hk : In key SECTION_KEYS).
  { change SECTION_KEYS with (map fst checks).
    apply (in_map fst checks (key, cs)). now apply checks_of_In. }
  pose proof (render_sections_unreadable u key cs c a e Hcs Hc Hr
                SECTION_KEYS d arts Hk Hd Ha) as Hnf.
  unfold sections_and_summary.
  destruct (render_sections u SECTION_KEYS (PDict d)) as [st d'].
  cbn [fst] in Hnf.
  destruct st; [contradiction (Hnf eq_refl)| |]; cbn [fst snd];
    (split; [discriminate | reflexivity]).
Qed.

(** C5, as amended. An artifact whose checks lack one of the check names of
    its category is neither skipped for that name nor counted as zero: the
    read of the stored entry, which comes before the widgets of the check,
    raises [KeyError]; the section of the category does not fall through,
    whatever the user does (it raises, unless a remove button in front is
    clicked first and the script is rerun), and shows no risk score; and the
    script does not reach the final summary. *)
Theorem missing_check_raises (d : list (pystr * pyval)) (key : pystr)
  (cs : list pystr) (arts : list pyval) (c : pystr) (a : pyval) :
  checks_of checks key = Ok cs ->
  dict_lookup d key = Some (PList arts) ->
  In c cs -> In a arts -> lacks_check c a = true ->
  (forall u idx, edit_check u key idx c a = Raise KeyError)
  /\ (forall u,
        fst (fst (render_section u key (PDict d))) <> Finished
        /\ snd (render_section u key (PDict d)) = None
        /\ ((forall idx, button_remove u key idx = false) ->
            exists e, fst (fst (render_section u key (PDict d))) = Raised e))
  /\ (forall u,
        fst (fst (sections_and_summary u (PDict d))) <> Finished
        /\ snd (sections_and_summary u (PDict d)) = None).
Proof.
  intros Hcs Hd Hc Ha Hl. pose proof (lacks_check_read c a Hl) as Hr.
  split; [|split].
  - intros u idx. now apply edit_check_reads.
  - intro u. now apply (render_section_unreadable u key cs d arts c a KeyError).
  - intro u.
    now apply (sections_and_summary_unreadable u key cs d arts c a KeyError).
Qed.

(** C6, as amended. In the artifact total of the report, a score that is not
    a number, or a missing score, adds nothing and does not raise, and an int
    score is added as it is, whether or not it lies in 1..5. In the form, a
    stored score that is no int from 1 to 5 is not left out of the maxima
    either: the score selector of its check raises, so the section of the
    category does not fall through and shows no risk score, and the script
    does not reach the final summary. *)
Theorem scores_not_range_checked :
  (forall d rest total z,
      dict_lookup d (lit "score") = Some (PInt z) ->
      total_risk_loop (PDict d :: rest) total = total_risk_loop rest (total + z))
  /\ (forall d rest total,
         match dict_lookup d (lit "score") with
         | Some v => non_numeric v = true
         | None => True
         end ->
         total_risk_loop (PDict d :: rest) total = total_risk_loop rest total)
  /\ (forall d key cs arts c a s e,
         checks_of checks key = Ok cs ->
         dict_lookup d key = Some (PList arts) ->
         In c cs -> In a arts ->
         score_of c a = Ok s -> score_error s = Some e ->
         (forall u idx, edit_check u key idx c a = Raise e)
         /\ (forall u,
               fst (fst (render_section u key (PDict d))) <> Finished
               /\ snd (render_section u key (PDict d)) = None
               /\ ((forall idx, button_remove u key idx = false) ->
                   exists e', fst (fst (render_section u key (PDict d))) = Raised e'))
         /\ (forall u,
               fst (fst (sections_and_summary u (PDict d))) <> Finished
               /\ snd (sections_and_summary u (PDict d)) = None)).
Proof.
  split; [|split].
  - intros d rest total z H. cbn [total_risk_loop py_get]. now rewrite H.
  - intros d rest total H. cbn [total_risk_loop py_get].
    destruct (dict_lookup d (lit "score")) as [v|]; cbn [bind].
    + unfold non_numeric in H. apply negb_true_iff in H. now rewrite H.
    + reflexivity.
  - intros d key cs arts c a s e Hcs Hd Hc Ha Hs He.
    pose proof (score_of_read c a s e Hs He) as Hr.
    split; [|split].
    + intros u idx. now apply edit_check_reads.
    + intro u. now apply (render_section_unreadable u key cs d arts c a e).
    + intro u. now apply (sections_and_summary_unreadable u key cs d arts c a e).
Qed.

(* ------------------------------------------------------------------ *)
(** *** The range of the totals of a valid record *)

Lemma valid_score_range (cs : list pystr) (a : pyval) (c : pystr) :
  valid_artifact cs a = true -> In c cs -> 1 <= int_score c a <= 5.
Proof.
  intros Hv Hin.
  destruct a as [| | | | | |d]; try discriminate.
  unfold valid_artifact in Hv.
  destruct (dict_lookup d (lit "name")); [|discriminate].
  destruct (dict_lookup d (lit "checks")) as [[| | | | | |cks]|] eqn:Hcks;
    try discriminate.
  unfold valid_checks in Hv. apply andb_true_iff in Hv as [Hkeys Hvals].
  unfold exactly in Hkeys.
  apply andb_true_iff in Hkeys as [Hkeys _].
  apply andb_true_iff in Hkeys as [Hall _].
  rewrite forallb_forall in Hall.
  destruct (mem_lookup cks c (Hall c Hin)) as [cur Hcur].
  pose proof (dict_lookup_values cks c cur valid_check Hvals Hcur) as Hvc.
  destruct cur as [| | | | | |r]; try discriminate.
  unfold valid_check in Hvc.
  destruct (dict_lookup r (lit "score")) as [[| |z| | | |]|] eqn:Hscore;
    try discriminate.
  destruct (dict_lookup r (lit "notes")); [|discriminate].
  unfold int_score, score_of. cbn [py_getitem]. rewrite Hcks.
  cbn [bind py_getitem]. rewrite Hcur. cbn [bind py_getitem]. rewrite Hscore.
  apply andb_true_iff in Hvc as [Hlo Hhi].
  apply Z.leb_le in Hlo, Hhi. lia.
Qed.

Lemma fold_max_range (zs : list Z) (lo hi : Z) :
  Forall (fun z => lo <= z <= hi) zs ->
  forall m, lo <= m <= hi -> lo <= fold_left Z.max zs m <= hi.
Proof.
  induction 1 as [|z zs Hz _ IH]; intros m Hm; [exact Hm|].
  cbn [fold_left]. apply IH. lia.
Qed.

Lemma check_maximum_range (cs : list pystr) (c : pystr) (a : pyval)
  (arts : list pyval) :
  forallb (valid_artifact cs) (a :: arts) = true -> In c cs ->
  1 <= check_maximum c (a :: arts) <= 5.
Proof.
  intros Hv Hc. cbn [forallb] in Hv. apply andb_true_iff in Hv as [Ha Harts].
  unfold check_maximum. apply fold_max_range.
  - apply Forall_map, Forall_forall. intros b Hb.
    rewrite forallb_forall in Harts. apply (valid_score_range cs); auto.
  - now apply (valid_score_range cs).
Qed.

Lemma sumZ_range (l : list Z) (lo hi : Z) :
  Forall (fun z => lo <= z <= hi) l ->
  lo * Z.of_nat (List.length l) <= sumZ l <= hi * Z.of_nat (List.length l).
Proof.
  induction 1 as [|z l Hz _ IH]; [cbn; lia|].
  cbn [sumZ fold_right List.length]. fold (sumZ l). lia.
Qed.

(** The total of a category of valid artifacts that is not empty lies between
    6 and 30, a per-check maximum between 1 and 5. *)
Lemma category_total_range (key : pystr) (cs : list pystr) (a : pyval)
  (arts : list pyval) :
  checks_of checks key = Ok cs ->
  forallb (valid_artifact cs) (a :: arts) = true ->
  6 <= category_total cs (a :: arts) <= 30.
Proof.
  intros Hcs Hv.
  destruct (new_artifact_valid 0 key cs Hcs) as (_ & _ & Hlen).
  unfold category_total, category_maxima.
  pose proof (sumZ_range (map (fun c => check_maximum c (a :: arts)) cs) 1 5) as H.
  rewrite length_map, Hlen in H. apply H.
  apply Forall_map, Forall_forall. intros c Hc.
  now apply (check_maximum_range cs).
Qed.

Lemma valid_scored (d : list (pystr * pyval)) :
  valid_record d = true -> scored_record d = true.
Proof.
  unfold valid_record, scored_record. rewrite !forallb_forall.
  intros H kc Hkc. specialize (H kc Hkc).
  destruct (dict_lookup d (fst kc)) as [[| | | | |l|]|]; try discriminate.
  now apply valid_int_scores.
Qed.

Lemma final_summary_scored (d : list (pystr * pyval)) :
  scored_record d = true ->
  final_summary (PDict d) = Ok (PInt (review_total d), review_critical d).
Proof.
  intro Hwf. unfold final_summary.
  rewrite (summary_loop_scored d checks)
    by (intros kc Hin; now apply scored_record_category).
  cbn [bind fst snd app].
  rewrite <- (map_map
                (fun kc => category_total (snd kc) (category_arts d (fst kc)))
                PInt).
  rewrite py_sum_ints. cbn [bind]. rewrite py_ge_int_int. cbn [bind].
  unfold review_critical, review_total.
  rewrite orb_false_r.
  destruct (21 <=? _); [now rewrite orb_true_r | now rewrite orb_false_r].
Qed.

(** The total of each category that contributes to the review of a valid
    record lies between 6 and 30. *)
Lemma contributing_range (d : list (pystr * pyval)) :
  valid_record d = true ->
  Forall (fun z => 6 <= z <= 30)
    (map (fun kc => category_total (snd kc) (category_arts d (fst kc)))
       (contributing d checks)).
Proof.
  intro Hd. apply Forall_map, Forall_forall. intros [key cs] Hkc.
  unfold contributing in Hkc. apply filter_In in Hkc as [Hin Hne].
  cbn [fst snd] in *.
  assert (Hcs : checks_of checks key = Ok cs).
  { destruct Hin as [H | [H | [H | [H | []]]]]; injection H as <- <-; reflexivity. }
  destruct (valid_record_lookup d key cs Hd Hcs) as (l & Hl & Hv).
  unfold category_arts in *. rewrite Hl in *.
  destruct l as [|a l]; [discriminate Hne|].
  now apply (category_total_range key).
Qed.

(** X12. The section of a category of a valid record shows nothing when the
    category is empty; otherwise it shows a total between 6 and 30, with the
    severity of the per-check maxima. A category with artifacts scores at
    least 6, as the lowest score of each of its six checks is 1. *)
Theorem section_total_bounds (key : pystr) (cs : list pystr)
  (d : list (pystr * pyval)) :
  checks_of checks key = Ok cs ->
  valid_record d = true ->
  match category_arts d key with
  | [] => section_risk key (PDict d) = Ok None
  | arts =>
      exists shown t,
        section_risk key (PDict d) = Ok (Some shown)
        /\ rd_total shown = PInt t
        /\ 6 <= t <= 30
        /\ rd_level shown = severity (category_maxima cs arts)
  end.
Proof.
  intros Hcs Hd.
  destruct (valid_record_lookup d key cs Hd Hcs) as (l & Hl & Hv).
  unfold category_arts. rewrite Hl. destruct l as [|a l].
  - unfold section_risk. cbn [py_getitem]. now rewrite Hl.
  - destruct (section_risk_ints key cs d a l Hcs Hl (valid_int_scores _ _ Hv))
      as [color ->].
    eexists. eexists. split; [reflexivity|]. split; [reflexivity|].
    split; [|reflexivity]. now apply (category_total_range key).
Qed.

(** X13. A review whose four categories all hold an artifact is reported as
    critical whatever its scores: each category adds at least 6 to the final
    risk score, which is then at least 24 and so past the threshold of 21,
    even when every check is scored 1. *)
Theorem populated_review_critical (d : list (pystr * pyval)) :
  valid_record d = true ->
  forallb (fun key => match category_arts d key with [] => false | _ => true end)
    category_keys = true ->
  final_summary (PDict d) = Ok (PInt (review_total d), true)
  /\ 24 <= review_total d <= 120.
Proof.
  intros Hd Hall.
  pose proof (contributing_range d Hd) as Hrange.
  apply sumZ_range in Hrange. rewrite length_map in Hrange.
  fold (review_total d) in Hrange.
  assert (Hlen : List.length (contributing d checks) = 4%nat).
  { unfold category_keys, checks in Hall. cbn [map fst forallb] in Hall.
    unfold contributing, checks. cbn [filter fst].
    repeat (apply andb_true_iff in Hall as [? Hall]).
    repeat match goal with
           | H : match ?x with [] => false | _ :: _ => true end = true |- _ =>
               destruct x; [discriminate H|]; clear H
           end.
    reflexivity. }
  rewrite Hlen in Hrange.
  rewrite (final_summary_scored d (valid_scored d Hd)).
  split; [|lia]. f_equal. f_equal. unfold review_critical.
  replace (21 <=? review_total d) with true by (symmetry; apply Z.leb_le; lia).
  apply orb_true_r.
Qed.

Lemma sumZ_member_le (l : list Z) (x : Z) :
  Forall (fun z => 0 <= z) l -> In x l -> x <= sumZ l.
Proof.
  induction 1 as [|z l Hz Hl IH]; intros Hin; [contradiction|].
  cbn [sumZ fold_right]. fold (sumZ l).
  assert (0 <= sumZ l).
  { clear IH Hin. induction Hl as [|y l Hy _ IH]; cbn; [lia|]. fold (sumZ l). lia. }
  destruct Hin as [-> | Hin]; [lia|]. specialize (IH Hin). lia.
Qed.

Lemma severity_critical (maxima : list Z) :
  severity maxima = lit "CRITICAL" ->
  existsb (Z.eqb 5) maxima || (21 <=? sumZ maxima) = true.
Proof.
  unfold severity.
  destruct (existsb (Z.eqb 5) maxima || (21 <=? sumZ maxima)); [reflexivity|].
  destruct (15 <=? sumZ maxima); [distinct_literals|].
  destruct (10 <=? sumZ maxima); distinct_literals.
Qed.

(** X14. A section that shows CRITICAL makes the review critical: on a valid
    record, whenever the section of a category reports the level CRITICAL, the
    final summary reports the review as critical. *)
Theorem section_critical_review_critical (key : pystr) (cs : list pystr)
  (d : list (pystr * pyval)) (shown : risk_display) :
  checks_of checks key = Ok cs ->
  valid_record d = true ->
  section_risk key (PDict d) = Ok (Some shown) ->
  rd_level shown = lit "CRITICAL" ->
  final_summary (PDict d) = Ok (PInt (review_total d), true).
Proof.
  intros Hcs Hd Hshown Hlevel.
  rewrite (final_summary_scored d (valid_scored d Hd)). do 2 f_equal.
  destruct (valid_record_lookup d key cs Hd Hcs) as (l & Hl & Hv).
  destruct l as [|a l].
  { unfold section_risk in Hshown. cbn [py_getitem] in Hshown.
    rewrite Hl in Hshown. discriminate Hshown. }
  destruct (section_risk_ints key cs d a l Hcs Hl (valid_int_scores _ _ Hv))
    as [color Hrisk].
  rewrite Hrisk in Hshown. injection Hshown as <-. cbn [rd_level] in Hlevel.
  apply severity_critical in Hlevel.
  assert (Hin : In (key, cs) (contributing d checks)).
  { unfold contributing. apply filter_In. split; [now apply checks_of_In|].
    unfold category_arts. cbn [fst]. now rewrite Hl. }
  assert (Harts : category_arts d key = a :: l)
    by (unfold category_arts; now rewrite Hl).
  unfold review_critical. apply orb_true_iff in Hlevel as [H5 | H21].
  - apply orb_true_iff. left. apply existsb_exists.
    exists (key, cs). cbn [fst snd]. now rewrite Harts.
  - apply orb_true_iff. right. apply Z.leb_le. apply Z.leb_le in H21.
    fold (category_total cs (a :: l)) in H21.
    assert (Hle : category_total cs (a :: l) <= review_total d).
    { apply sumZ_member_le.
      - eapply Forall_impl; [|exact (contributing_range d Hd)].
        cbn beta. intros z Hz. lia.
      - rewrite <- Harts.
        exact (in_map
                 (fun kc => category_total (snd kc) (category_arts d (fst kc)))
                 _ _ Hin). }
    lia.
Qed.

(* ------------------------------------------------------------------ *)
(** *** The four sections and the final summary, one after the other *)

Lemma render_section_valid (u : ui) (key : pystr) (cs : list pystr)
  (d : list (pystr * pyval)) :
  checks_of checks key = Ok cs ->
  valid_record d = true ->
  exists d',
    snd (fst (render_section u key (PDict d))) = PDict d'
    /\ valid_record d' = true
    /\ forall e, fst (fst (render_section u key (PDict d))) <> Raised e.
Proof.
  intros Hcs Hd.
  destruct (add_artifact_valid u key cs d Hcs Hd) as (d1 & Hadd & Hd1 & Hl & Hv).
  unfold render_section. rewrite Hadd. cbn [py_getitem]. rewrite Hl.
  destruct (artifacts_loop_valid u key cs Hcs _ [] eq_refl Hv) as [Hst Hl'].
  destruct (artifacts_loop u key [] _) as [st l']. cbn [fst snd] in Hst, Hl'.
  cbn [py_setitem].
  pose proof (valid_record_set d1 key cs l' Hd1 Hcs Hl') as Hd2.
  pose proof (section_risk_valid key cs _ Hcs Hd2) as Hrisk.
  exists (dict_set d1 key (PList l')).
  destruct st as [| |e].
  - destruct (section_risk key (PDict (dict_set d1 key (PList l')))) as [r|e];
      [|discriminate].
    cbn [fst snd]. repeat split; [assumption | discriminate].
  - cbn [fst snd]. repeat split; [assumption | discriminate].
  - now destruct (Hst e).
Qed.

Lemma render_sections_valid (u : ui) (keys : list pystr) :
  (forall key, In key keys -> exists cs, checks_of checks key = Ok cs) ->
  forall d,
    valid_record d = true ->
    exists d',
      snd (render_sections u keys (PDict d)) = PDict d'
      /\ valid_record d' = true
      /\ forall e, fst (render_sections u keys (PDict d)) <> Raised e.
Proof.
  induction keys as [|key keys IH]; intros Hkeys d Hd.
  - exists d. repeat split; [assumption | discriminate].
  - destruct (Hkeys key (or_introl eq_refl)) as [cs Hcs].
    destruct (render_section_valid u key cs d Hcs Hd) as (d1 & Hd1 & Hv1 & Hst).
    cbn [render_sections].
    destruct (render_section u key (PDict d)) as [[st data1] shown].
    cbn [fst snd] in Hd1, Hst. subst data1.
    destruct st as [| |e].
    + apply IH; [|assumption]. intros k Hk. apply Hkeys. now right.
    + exists d1. repeat split; [assumption | discriminate].
    + now destruct (Hst e).
Qed.

(** X15. From a valid record, among them the record of a new session, the four
    sections and the final summary raise nothing whatever the widgets return,
    and they leave a valid record; when no artifact is removed, and the run
    so gets to the summary, the final risk score is the sum of the totals of
    the categories that hold artifacts in the record as the sections left it,
    and the review is critical by the rule of the summary. *)
Theorem sections_and_summary_valid (u : ui) (d : list (pystr * pyval))
  (today : pystr) :
  valid_record d = true ->
  (exists d',
      snd (fst (sections_and_summary u (PDict d))) = PDict d'
      /\ valid_record d' = true
      /\ snd (sections_and_summary u (PDict d))
         = match fst (fst (sections_and_summary u (PDict d))) with
           | Finished => Some (PInt (review_total d'), review_critical d')
           | _ => None
           end)
  /\ (forall e, fst (fst (sections_and_summary u (PDict d))) <> Raised e)
  /\ exists d0, init_data today = PDict d0 /\ valid_record d0 = true.
Proof.
  intro Hd.
  assert (Hkeys : forall key, In key SECTION_KEYS ->
             exists cs, checks_of checks key = Ok cs).
  { intros key [H | [H | [H | [H | []]]]]; subst key; eexists; reflexivity. }
  destruct (render_sections_valid u SECTION_KEYS Hkeys d Hd) as (d' & Hd' & Hv' & Hst).
  unfold sections_and_summary.
  destruct (render_sections u SECTION_KEYS (PDict d)) as [st data'].
  cbn [fst snd] in Hd', Hst. subst data'.
  split; [|split].
  - exists d'. destruct st as [| |e].
    + rewrite (final_summary_scored d' (valid_scored d' Hv')). now repeat split.
    + now repeat split.
    + now destruct (Hst e).
  - intros e. destruct st as [| |e'].
    + rewrite (final_summary_scored d' (valid_scored d' Hv')). discriminate.
    + discriminate.
    + now destruct (Hst e').
  - eexists. split; reflexivity.
Qed.

(* ------------------------------------------------------------------ *)
(** *** What a save changes, and how a draft without project id is named *)

Lemma locate_name (fs : filesystem) (p target : path) :
  locate fs p = Ok target -> path_name target = path_name p.
Proof.
  unfold locate. destruct (walk fs [] (removelast p)) as [parent|e]; [|discriminate].
  cbn [bind].
  destruct (str_eqb (path_name p) DOTDOT || is_dir fs (parent ++ [path_name p])
            || str_eqb (path_name p) []); [discriminate|].
  intro H. injection H as <-. unfold path_name at 1. apply last_last.
Qed.

(** A save that returns has written the serialized record to one file. *)
Lemma save_draft_written (fs : filesystem) (ts : pystr) (data : pyval)
  (name : pystr) (fs' : filesystem) :
  save_draft fs ts data = Ok (name, fs') ->
  exists target content,
    json_dump data = Ok content
    /\ path_name target = name
    /\ fs' = written fs target content.
Proof.
  unfold save_draft. intro H.
  destruct (py_get data (lit "project_id") PNone) as [p|e]; [|discriminate H].
  cbn [bind] in H.
  destruct (strip_or (py_or p (PStr UNKNOWN)) UNKNOWN) as [pid|e]; [|discriminate H].
  cbn [bind] in H. unfold open_write in H.
  destruct (locate fs _) as [target|e] eqn:Hloc; [|discriminate H].
  cbn [bind fst snd] in H.
  destruct (json_dump data) as [content|e]; [|discriminate H].
  cbn [bind] in H. injection H as <- <-.
  exists target, content. split; [reflexivity|]. split; [|reflexivity].
  now apply (locate_name fs).
Qed.

(** X17. Outside the bookkeeping of git (the paths with a component [.git],
    where the commit of line 49 works), a save writes one file and nothing
    else: the directories are those of before, the file written has the name
    that [save_draft] returns and holds the serialized record, and every other
    file is as it was. *)
Theorem save_draft_frame (fs : filesystem) (ts : pystr) (data : pyval)
  (name : pystr) (fs' : filesystem) :
  save_draft fs ts data = Ok (name, fs') ->
  (forall p, in_git p = false -> (In p (dirs fs') <-> In p (dirs fs)))
  /\ exists target content,
       json_dump data = Ok content
       /\ path_name target = name
       /\ (in_git target = false ->
           file_lookup (files fs') target = Some content)
       /\ forall q, in_git q = false -> q <> target ->
            file_lookup (files fs') q = file_lookup (files fs) q.
Proof.
  intro H.
  destruct (save_draft_written fs ts data name fs' H)
    as (target & content & Hdump & Hname & ->).
  split; [intros p _; reflexivity|].
  exists target, content. split; [assumption|]. split; [assumption|].
  unfold written, write_all. cbn [files dirs]. split.
  - intros _. apply file_lookup_set_same.
  - intros q _ Hq. now rewrite !file_lookup_set_other by (intro E; now apply Hq).
Qed.

Lemma blank_project_id_unknown (d : list (pystr * pyval)) :
  blank_project_id d = true ->
  (p <- py_get (PDict d) (lit "project_id") PNone ;;
   strip_or (py_or p (PStr UNKNOWN)) UNKNOWN) = Ok UNKNOWN.
Proof.
  unfold blank_project_id. rewrite py_get_dict. cbn [bind].
  destruct (dict_lookup d (lit "project_id")) as [v|]; [|reflexivity].
  destruct v as [| b | z | f | s | l | dd]; intro H;
    try (apply negb_true_iff in H; unfold py_or; rewrite H; reflexivity).
  destruct s as [|c s]; [reflexivity|].
  unfold py_or, strip_or. cbn [truthy py_strip bind].
  now destruct (strip (c :: s)).
Qed.

(** The draft of a project id without separator: the file it is written to
    and the file system it leaves. *)
Lemma save_draft_plain (fs : filesystem) (ts pid : pystr)
  (d : list (pystr * pyval)) (content : list N) :
  let name : pystr := pid ++ lit "_" ++ ts ++ lit ".json" in
  (p <- py_get (PDict d) (lit "project_id") PNone ;;
   strip_or (py_or p (PStr UNKNOWN)) UNKNOWN) = Ok pid ->
  existsb (N.eqb SLASH) pid = false ->
  existsb (N.eqb SLASH) ts = false ->
  walk fs [] (REPO_PATH ++ [lit "drafts"]) = Ok (REPO_PATH ++ [lit "drafts"]) ->
  is_dir fs ((REPO_PATH ++ [lit "drafts"]) ++ [name]) = false ->
  json_dump (PDict d) = Ok content ->
  save_draft fs ts (PDict d)
  = Ok (name, written fs ((REPO_PATH ++ [lit "drafts"]) ++ [name]) content).
Proof.
  intros name Hpid Hp Hts Hwalk Hfree Hdump.
  destruct (plain_file pid ts Hp Hts) as (Hfile & Hn1 & Hn2).
  fold name in Hfile, Hn1, Hn2.
  assert (Hname : pid ++ lit "_" ++ ts ++ lit ".json" = name) by reflexivity.
  clearbody name.
  unfold save_draft.
  destruct (py_get (PDict d) (lit "project_id") PNone) as [p|e];
    cbn [bind] in Hpid |- *; [|discriminate].
  rewrite Hpid. cbn [bind]. rewrite Hname.
  unfold open_write, locate, path_name.
  rewrite Hfile, removelast_last, last_last, Hwalk. cbn [bind].
  rewrite Hn1, Hn2, Hfree. cbn [orb bind fst snd].
  rewrite Hdump. reflexivity.
Qed.

(** X18. A record without project id (none, a value that counts as false, or a
    blank text) is saved as [UNKNOWN_<time>.json] in the drafts directory:
    the name of the draft does not depend on the record, so two such records
    saved within the same second share one file. *)
Theorem save_draft_unknown (fs : filesystem) (ts : pystr)
  (d : list (pystr * pyval)) (content : list N) :
  let name : pystr := lit "UNKNOWN_" ++ ts ++ lit ".json" in
  blank_project_id d = true ->
  existsb (N.eqb SLASH) ts = false ->
  walk fs [] (REPO_PATH ++ [lit "drafts"]) = Ok (REPO_PATH ++ [lit "drafts"]) ->
  is_dir fs ((REPO_PATH ++ [lit "drafts"]) ++ [name]) = false ->
  json_dump (PDict d) = Ok content ->
  exists fs',
    save_draft fs ts (PDict d) = Ok (name, fs')
    /\ file_lookup (files fs') ((REPO_PATH ++ [lit "drafts"]) ++ [name])
       = Some content.
Proof.
  intros name Hblank Hts Hwalk Hfree Hdump.
  eexists. split.
  - exact (save_draft_plain fs ts UNKNOWN d content
             (blank_project_id_unknown d Hblank) eq_refl Hts Hwalk Hfree Hdump).
  - unfold written, write_all. cbn [files]. apply file_lookup_set_same.
Qed.

(* ------------------------------------------------------------------ *)
(** *** The listing of the drafts *)

Lemma insert_newest_In (mtime : path -> Z) (p x : path) (l : list path) :
  In x (insert_newest mtime p l) <-> x = p \/ In x l.
Proof.
  induction l as [|q l IH]; cbn [insert_newest].
  - cbn. split; intros [H | H]; auto.
  - destruct (mtime q <=? mtime p); cbn [In].
    + split; intros [H | H]; auto.
    + rewrite IH. split; intros [H | [H | H]]; auto.
Qed.

Lemma sorted_newest_first_In (mtime : path -> Z) (x : path) (l : list path) :
  In x (sorted_newest_first mtime l) <-> In x l.
Proof.
  induction l as [|p l IH]; [reflexivity|].
  cbn [sorted_newest_first fold_right]. fold (sorted_newest_first mtime l).
  rewrite insert_newest_In, IH. cbn [In]. split; intros [H | H]; auto.
Qed.

Lemma insert_newest_length (mtime : path -> Z) (p : path) (l : list path) :
  List.length (insert_newest mtime p l) = S (List.length l).
Proof.
  induction l as [|q l IH]; [reflexivity|]. cbn [insert_newest].
  destruct (mtime q <=? mtime p); cbn [List.length]; [reflexivity | now rewrite IH].
Qed.

Lemma newest_first_tail (mtime : path -> Z) (q : path) (l : list path) :
  newest_first mtime (q :: l) = true -> newest_first mtime l = true.
Proof.
  destruct l as [|r l]; [reflexivity|]. cbn [newest_first].
  intro H. now apply andb_true_iff in H as [_ H].
Qed.

Lemma insert_newest_sorted (mtime : path -> Z) (p : path) (l : list path) :
  newest_first mtime l = true ->
  newest_first mtime (insert_newest mtime p l) = true.
Proof.
  induction l as [|q l IH]; intro H; [reflexivity|].
  cbn [insert_newest]. destruct (mtime q <=? mtime p) eqn:E.
  - cbn [newest_first]. cbn [newest_first] in H. now rewrite E.
  - specialize (IH (newest_first_tail mtime q l H)).
    apply Z.leb_gt in E.
    destruct l as [|r l].
    + cbn. rewrite andb_true_r. apply Z.leb_le. lia.
    + cbn [newest_first] in H. apply andb_true_iff in H as [Hrq _].
      cbn [insert_newest] in IH |- *.
      destruct (mtime r <=? mtime p); cbn [newest_first] in IH |- *.
      * rewrite IH, andb_true_r. apply Z.leb_le. lia.
      * now rewrite Hrq, IH.
Qed.

Lemma sorted_newest_first_sorted (mtime : path -> Z) (l : list path) :
  newest_first mtime (sorted_newest_first mtime l) = true.
Proof.
  induction l as [|p l IH]; [reflexivity|].
  cbn [sorted_newest_first fold_right]. now apply insert_newest_sorted.
Qed.

Lemma sorted_newest_first_length (mtime : path -> Z) (l : list path) :
  List.length (sorted_newest_first mtime l) = List.length l.
Proof.
  induction l as [|p l IH]; [reflexivity|].
  cbn [sorted_newest_first fold_right]. fold (sorted_newest_first mtime l).
  now rewrite insert_newest_length, IH.
Qed.

(** What is listed: the entries right below the drafts directory, files and
    directories alike, whose name ends with [.json]. *)
Lemma list_drafts_In (mtime : path -> Z) (fs : filesystem) (p : path) :
  In p (list_drafts mtime fs) <->
  is_dir fs DRAFTS_DIR = true
  /\ (In p (dirs fs) \/ exists content, In (p, content) (files fs))
  /\ p <> []
  /\ removelast p = DRAFTS_DIR
  /\ ends_with (lit ".json") (path_name p) = true.
Proof.
  unfold list_drafts. rewrite sorted_newest_first_In. unfold glob_json.
  destruct (is_dir fs DRAFTS_DIR).
  - unfold dir_entries. rewrite !filter_In, in_app_iff, in_map_iff.
    split.
    + intros [[Hin Hp] Hjson]. split; [reflexivity|].
      split; [|split; [|split]].
      * destruct Hin as [([q content] & Hq & Hin) | Hin]; [right | now left].
        cbn [fst] in Hq. subst q. now exists content.
      * intro E. subst p. discriminate Hp.
      * destruct p; [discriminate Hp|]. now apply path_eqb_eq.
      * exact Hjson.
    + intros (_ & Hin & Hne & Hparent & Hjson). split; [split|exact Hjson].
      * destruct Hin as [Hin | [content Hin]]; [now right | left].
        now exists (p, content).
      * destruct p; [now destruct Hne|]. now apply path_eqb_eq.
  - cbn [In]. split; [contradiction|]. intros (H & _). discriminate H.
Qed.

(** X19. The drafts are listed latest first, and the listing holds exactly the
    entries right below the drafts directory whose name ends with [.json]:
    files, but also directories and hidden entries of such a name, and no file
    that lies elsewhere. When the drafts directory does not exist, the listing
    is empty. *)
Theorem list_drafts_listing (mtime : path -> Z) (fs : filesystem) :
  newest_first mtime (list_drafts mtime fs) = true
  /\ List.length (list_drafts mtime fs) = List.length (glob_json fs DRAFTS_DIR)
  /\ forall p,
       In p (list_drafts mtime fs) <->
       is_dir fs DRAFTS_DIR = true
       /\ (In p (dirs fs) \/ exists content, In (p, content) (files fs))
       /\ p <> []
       /\ removelast p = DRAFTS_DIR
       /\ ends_with (lit ".json") (path_name p) = true.
Proof.
  split; [apply sorted_newest_first_sorted|].
  split; [apply sorted_newest_first_length|].
  intro p. apply list_drafts_In.
Qed.






(** Writing a file that does not lie right below a directory leaves the
    entries of that directory as they were. *)
Lemma glob_json_written (fs : filesystem) (target dir : path)
  (content : list N) :
  removelast target <> dir ->
  glob_json (written fs target content) dir = glob_json fs dir.
Proof.
  intro Hne. unfold glob_json.
  change (is_dir (written fs target content) dir) with (is_dir fs dir).
  destruct (is_dir fs dir); [|reflexivity]. f_equal.
  unfold dir_entries, written, write_all. cbn [files dirs].
  assert (Hskip : match target with
                  | [] => false
                  | _ => path_eqb (removelast target) dir
                  end = false).
  { destruct target as [|a t]; [reflexivity|].
    destruct (path_eqb (removelast (a :: t)) dir) eqn:E; [|reflexivity].
    apply path_eqb_eq in E. contradiction. }
  assert (Hset : forall l c,
             filter (fun p => match p with
                              | [] => false
                              | _ => path_eqb (removelast p) dir
                              end)
               (map fst (file_set l target c) ++ dirs fs)
             = filter (fun p => match p with
                                | [] => false
                                | _ => path_eqb (removelast p) dir
                                end)
                 (map fst l ++ dirs fs)).
  { intros l c. induction l as [|[q c0] l IH]; cbn [file_set map fst app filter].
    - now rewrite Hskip.
    - destruct (path_eqb q target); cbn [map fst app filter]; [reflexivity|].
      now rewrite IH. }
  now rewrite !Hset.
Qed.

(** X21. A draft saved under the project id ["../x"] is not offered for
    resumption: the save succeeds, but the listing of the drafts, and so the
    choices of the selector, are what they were before it. *)
Theorem traversal_draft_unlisted (mtime : path -> Z) (fs : filesystem)
  (ts : pystr) (d : list (pystr * pyval)) (content : list N) :
  let name : pystr := lit "x_" ++ ts ++ lit ".json" in
  dict_lookup d (lit "project_id") = Some (PStr (lit "../x")) ->
  existsb (N.eqb SLASH) ts = false ->
  walk fs [] REPO_PATH = Ok REPO_PATH ->
  is_dir fs (REPO_PATH ++ [lit "drafts"]) = true ->
  is_dir fs (REPO_PATH ++ [name]) = false ->
  json_dump (PDict d) = Ok content ->
  exists fs',
    save_draft fs ts (PDict d) = Ok (name, fs')
    /\ file_lookup (files fs') (REPO_PATH ++ [name]) = Some content
    /\ list_drafts mtime fs' = list_drafts mtime fs
    /\ draft_choices mtime fs' = draft_choices mtime fs.
Proof.
  intros name Hpid Hts Hrepo Hdrafts Hfree Hdump.
  assert (Hname : name = 120%N :: 95%N :: ts ++ lit ".json") by reflexivity.
  assert (Hwalk : walk fs [] (REPO_PATH ++ [lit "drafts"; DOTDOT]) = Ok REPO_PATH).
  { rewrite walk_app, Hrepo. cbn [bind walk].
    change (str_eqb (lit "drafts") DOTDOT) with false. cbv iota.
    rewrite Hdrafts. change (str_eqb DOTDOT DOTDOT) with true. cbv iota.
    now rewrite removelast_last. }
  assert (Hfile : path_join DRAFTS_DIR (lit "../x" ++ lit "_" ++ ts ++ lit ".json")
                  = (REPO_PATH ++ [lit "drafts"; DOTDOT]) ++ [name]).
  { rewrite (traversal_file ts Hts), <- app_assoc. reflexivity. }
  assert (Hn1 : str_eqb name DOTDOT = false) by (rewrite Hname; reflexivity).
  assert (Hn2 : str_eqb name [] = false) by (rewrite Hname; reflexivity).
  clearbody name.
  assert (Hsave : save_draft fs ts (PDict d)
                  = Ok (name, written fs (REPO_PATH ++ [name]) content)).
  { unfold save_draft. cbn [py_get]. rewrite Hpid. cbn [bind].
    change (strip_or (py_or (PStr (lit "../x")) (PStr UNKNOWN)) UNKNOWN)
      with (@Ok pystr (lit "../x")).
    cbn [bind]. rewrite Hfile.
    unfold open_write, locate, path_name.
    rewrite removelast_last, last_last, Hwalk. cbn [bind].
    rewrite Hn1, Hfree, Hn2. cbn [orb bind fst snd]. rewrite Hdump. reflexivity. }
  assert (Hlist : list_drafts mtime (written fs (REPO_PATH ++ [name]) content)
                  = list_drafts mtime fs).
  { unfold list_drafts. rewrite glob_json_written; [reflexivity|].
    rewrite removelast_last. unfold DRAFTS_DIR.
    change (path_join REPO_PATH (lit "drafts")) with (REPO_PATH ++ [lit "drafts"]).
    intro E. apply (f_equal (@List.length pystr)) in E.
    rewrite length_app in E. cbn in E. lia. }
  exists (written fs (REPO_PATH ++ [name]) content).
  split; [exact Hsave|]. split; [|split].
  - unfold written, write_all. cbn [files]. apply file_lookup_set_same.
  - exact Hlist.
  - unfold draft_choices. now rewrite Hlist.
Qed.

End Embedding.

(* ================================================================== *)
(** ** Sample records and runs *)
(* ================================================================== *)

Example one_critical_model_section :
  section_risk sample_float_add sample_float_of_int sample_list_gt
    (lit "models") (PDict one_critical_model)
  = Ok (Some {| rd_total := PInt 10; rd_color := lit "red";
                rd_level := lit "CRITICAL" |}).
Proof. reflexivity. Qed.

Example severity_thresholds :
  severity [1; 1; 1; 2; 2; 2] = lit "LOW"
  /\ severity [1; 1; 2; 2; 2; 2] = lit "MEDIUM"
  /\ severity [2; 2; 2; 3; 3; 3] = lit "HIGH"
  /\ severity [3; 3; 3; 4; 4; 4] = lit "CRITICAL"
  /\ severity [5; 1] = lit "CRITICAL".
Proof. repeat split. Qed.

(** The section of the record with one model scored 5, 1, 1, 1, 1, 1. *)
Lemma section_risk_severity_witness :
  let maxima := category_maxima models_checks
                  [scored_artifact (lit "Artifact 1") models_checks [5; 1; 1; 1; 1; 1]] in
  sumZ maxima = 10
  /\ severity maxima = lit "CRITICAL"
  /\ exists color,
       section_risk sample_float_add sample_float_of_int sample_list_gt
         (lit "models") (PDict one_critical_model)
       = Ok (Some {| rd_total := PInt (sumZ maxima); rd_color := color;
                     rd_level := severity maxima |}).
Proof.
  split; [reflexivity|]. split; [reflexivity|].
  apply (section_risk_severity sample_float_add sample_float_of_int sample_list_gt
           (lit "models") models_checks one_critical_model
           (scored_artifact (lit "Artifact 1") models_checks [5; 1; 1; 1; 1; 1]) []);
    reflexivity.
Defined.

(* ------------------------------------------------------------------ *)
(** *** The artifact total on floats *)

(** Two checks scored 2.5 each: the values add up to 5, the total is 4. A
    score that is the float NaN makes the computation fail. *)
Lemma total_risk_float_scores :
  let entries := [scored_entry (PFloat two_and_a_half);
                  scored_entry (PFloat two_and_a_half)] in
  QArith_base.Qeq (value_sum entries) (QArith_base.inject_Z 5)
  /\ calculate_total_risk (PList entries) = Ok 4
  /\ ~ QArith_base.Qeq (QArith_base.inject_Z 4) (value_sum entries)
  /\ calculate_total_risk (PList [scored_entry (PFloat FNan)]) = Raise ValueError.
Proof.
  repeat split; try reflexivity.
  intro H. vm_compute in H. discriminate H.
Qed.

(** Six entries: an int, a text, no score, null, a bool and a float. *)
Lemma calculate_total_risk_sum_witness :
  let entries := [scored_entry (PInt 3);
                  scored_entry (PStr (lit "high"));
                  PDict [(lit "name", PStr (lit "Obfuscated code"))];
                  scored_entry PNone;
                  scored_entry (PBool true);
                  scored_entry (PFloat two_and_a_half)] in
  calculate_total_risk (PList entries) = Ok 6
  /\ calculate_total_risk (PList []) = Ok 0.
Proof.
  exact (calculate_total_risk_sum
           [scored_entry (PInt 3);
            scored_entry (PStr (lit "high"));
            PDict [(lit "name", PStr (lit "Obfuscated code"))];
            scored_entry PNone;
            scored_entry (PBool true);
            scored_entry (PFloat two_and_a_half)]
           eq_refl eq_refl).
Defined.

(* ------------------------------------------------------------------ *)
(** *** Notes at the threshold *)

(** Notes of 801 characters, the last one a space: the notes text exceeds 800
    characters, yet the cell shows the notes and no block follows the table. *)
Lemma notes_801_with_trailing_space :
  let notes := repeat LETTER_A 800 ++ [SPACE] in
  len notes = 801
  /\ third_cell (table_row sample_repr (noted_entry notes))
     = Some (CellPara (Paragraph (PStr (repeat LETTER_A 800)) TableText))
  /\ third_cell (table_row sample_repr (noted_entry notes))
     <> Some (CellPara
                (Paragraph
                   (PStr (lit "<i>See details below " ++ [8595%N] ++ lit "</i>"))
                   TableText))
  /\ create_check_elements sample_repr (PList [noted_entry notes])
     = Ok [Table
             [[CellStr (lit "Check"); CellStr (lit "Risk Score");
               CellStr (lit "Notes")];
              [CellPara (Paragraph (PStr (lit "Dataset provenance")) TableText);
               CellPara (Paragraph (PStr (lit "<b>2</b>")) TableText);
               CellPara (Paragraph (PStr (repeat LETTER_A 800)) TableText)]]].
Proof.
  repeat split; try (vm_compute; reflexivity).
  intro H. vm_compute in H. discriminate H.
Qed.

(** Three checks: notes of 801 characters with a line break in the middle,
    notes of 800 characters with a line break, and blank notes. The first is
    replaced by the placeholder in its cell and follows the table in full,
    under its label; the second is shown in its cell; the third is shown as a
    dash. *)
Lemma create_check_elements_overflow_witness :
  let long := noted_entry (repeat LETTER_A 400 ++ [NEWLINE] ++ repeat LETTER_A 400) in
  let short := noted_entry (repeat LETTER_A 400 ++ [NEWLINE] ++ repeat LETTER_A 399) in
  let blank := noted_entry [SPACE] in
  create_check_elements sample_repr (PList [long; short; blank])
  = Ok (Table (TABLE_HEADER :: map (table_row sample_repr) [long; short; blank])
        :: expanded_blocks sample_repr [long])
  /\ expanded_blocks sample_repr [long]
     = [Spacer 1 10;
        FPara (Paragraph (PStr ([9658%N] ++ lit " Dataset provenance:")) NotesLabel);
        FPara (Paragraph
                 (PStr (repeat LETTER_A 400 ++ lit "<br/>" ++ repeat LETTER_A 400))
                 NotesExpanded)]
  /\ map (fun c => third_cell (table_row sample_repr c)) [long; short; blank]
     = map (fun text => Some (CellPara (Paragraph (PStr text) TableText)))
         [lit "<i>See details below " ++ [8595%N] ++ lit "</i>";
          repeat LETTER_A 400 ++ lit "<br/>" ++ repeat LETTER_A 399;
          [8212%N]].
Proof.
  split; [| split; vm_compute; reflexivity].
  exact (proj1 (create_check_elements_overflow sample_repr
                  [noted_entry (repeat LETTER_A 400 ++ [NEWLINE] ++ repeat LETTER_A 400);
                   noted_entry (repeat LETTER_A 400 ++ [NEWLINE] ++ repeat LETTER_A 399);
                   noted_entry [SPACE]]
                  eq_refl)).
Defined.

(* ------------------------------------------------------------------ *)
(** *** An artifact without one of its checks *)

(** A draft whose model has five of its six checks, loaded and left as it
    is: the missing check is not skipped. The models section raises
    [KeyError] and shows no risk score, the run ends there, without a final
    risk score, and the record is as it was. *)
Lemma missing_check_key_error :
  lacks_check (lit "Export-controlled model")
    (scored_artifact (lit "Artifact 1") models_checks [2; 1; 1; 1; 1]) = true
  /\ render_section sample_float_add sample_float_of_int sample_list_gt
       idle_ui (lit "models") (PDict five_checks_model)
     = (Raised KeyError, PDict five_checks_model, None)
  /\ sections_and_summary sample_float_add sample_float_of_int sample_list_gt
       idle_ui (PDict five_checks_model)
     = (Raised KeyError, PDict five_checks_model, None).
Proof. repeat split; vm_compute; reflexivity. Qed.

(** The record whose model has five of its six checks. *)
Lemma missing_check_raises_witness :
  edit_check idle_ui (lit "models") 0 (lit "Export-controlled model")
    (scored_artifact (lit "Artifact 1") models_checks [2; 1; 1; 1; 1])
  = Raise KeyError
  /\ (exists e,
        fst (fst (render_section sample_float_add sample_float_of_int
                    sample_list_gt idle_ui (lit "models")
                    (PDict five_checks_model)))
        = Raised e)
  /\ snd (render_section sample_float_add sample_float_of_int sample_list_gt
            sample_ui (lit "models") (PDict five_checks_model)) = None
  /\ snd (sections_and_summary sample_float_add sample_float_of_int
            sample_list_gt sample_ui (PDict five_checks_model)) = None.
Proof.
  assert (Hc : In (lit "Export-controlled model") models_checks)
    by (unfold models_checks, checks; simpl; tauto).
  destruct (missing_check_raises sample_float_add sample_float_of_int
              sample_list_gt five_checks_model (lit "models") models_checks
              [scored_artifact (lit "Artifact 1") models_checks [2; 1; 1; 1; 1]]
              (lit "Export-controlled model")
              (scored_artifact (lit "Artifact 1") models_checks [2; 1; 1; 1; 1])
              eq_refl eq_refl Hc (or_introl eq_refl) eq_refl)
    as (Hread & Hsection & Hscript).
  split; [apply Hread|]. split; [|split].
  - apply (Hsection idle_ui). reflexivity.
  - apply (Hsection sample_ui).
  - apply (Hscript sample_ui).
Defined.

(* ------------------------------------------------------------------ *)
(** *** Scores out of range *)

(** A score of 7 is counted in the artifact total of the report, where the
    scores within 1..5 add up to 0. In the form the score is not left out
    either: the draft with that score, loaded and left as it is, ends the
    models section at the score selector, and so does the draft whose score
    is a text. *)
Lemma score_seven_is_counted :
  calculate_total_risk (PList [scored_entry (PInt 7)]) = Ok 7
  /\ sumZ (map (fun c => in_range_value (entry_score c)) [scored_entry (PInt 7)]) = 0
  /\ calculate_total_risk (PList [scored_entry (PInt 7)])
     <> Ok (sumZ (map (fun c => in_range_value (entry_score c))
                    [scored_entry (PInt 7)]))
  /\ render_section sample_float_add sample_float_of_int sample_list_gt
       idle_ui (lit "models") (PDict out_of_range_model)
     = (Raised StreamlitAPIException, PDict out_of_range_model, None)
  /\ render_section sample_float_add sample_float_of_int sample_list_gt
       idle_ui (lit "models") (PDict text_score_model)
     = (Raised TypeError, PDict text_score_model, None)
  /\ sections_and_summary sample_float_add sample_float_of_int sample_list_gt
       idle_ui (PDict out_of_range_model)
     = (Raised StreamlitAPIException, PDict out_of_range_model, None).
Proof.
  split; [reflexivity|]. split; [reflexivity|]. split; [discriminate|].
  repeat split; vm_compute; reflexivity.
Qed.

(** A score of 7 and a score that is a text, in the report and in the form. *)
Lemma scores_not_range_checked_witness :
  total_risk_loop [scored_entry (PInt 7)] 0 = total_risk_loop [] (0 + 7)
  /\ total_risk_loop [scored_entry (PStr (lit "high"))] 0 = total_risk_loop [] 0
  /\ edit_check idle_ui (lit "models") 0
       (lit "Model weights integrity (hash verification)")
       (scored_artifact (lit "Artifact 1") models_checks [7; 1; 1; 1; 1; 1])
     = Raise StreamlitAPIException
  /\ snd (render_section sample_float_add sample_float_of_int sample_list_gt
            sample_ui (lit "models") (PDict out_of_range_model)) = None
  /\ snd (sections_and_summary sample_float_add sample_float_of_int
            sample_list_gt sample_ui (PDict text_score_model)) = None.
Proof.
  assert (Hc : In (lit "Model weights integrity (hash verification)") models_checks)
    by now left.
  destruct (scores_not_range_checked sample_float_add sample_float_of_int
              sample_list_gt) as (Hint & Hnon & Hform).
  split; [apply Hint; reflexivity|]. split; [apply Hnon; reflexivity|].
  destruct (Hform out_of_range_model (lit "models") models_checks
              (category_arts out_of_range_model (lit "models"))
              (lit "Model weights integrity (hash verification)")
              (scored_artifact (lit "Artifact 1") models_checks [7; 1; 1; 1; 1; 1])
              (PInt 7) StreamlitAPIException
              eq_refl eq_refl Hc (or_introl eq_refl) eq_refl eq_refl)
    as (Hread & Hsection & _).
  destruct (Hform text_score_model (lit "models") models_checks
              (category_arts text_score_model (lit "models"))
              (lit "Model weights integrity (hash verification)")
              (nth 0 (category_arts text_score_model (lit "models")) PNone)
              (PStr (lit "high")) TypeError
              eq_refl eq_refl Hc (or_introl eq_refl) eq_refl eq_refl)
    as (_ & _ & Hscript).
  split; [apply Hread|]. split.
  - apply (Hsection sample_ui).
  - apply (Hscript sample_ui).
Defined.

(* ------------------------------------------------------------------ *)
(** *** A draft of the form handed to the generator *)

Example draft_with_one_model_raises :
  json_to_pdf sample_repr RUN_TIME (PDict draft_with_one_model)
  = Raise AttributeError.
Proof. reflexivity. Qed.

(** The draft of the form with one model, handed to the generator. *)
Lemma json_to_pdf_mapping_checks_witness :
  create_check_elements sample_repr
    (default_checks models_checks)
  = Raise AttributeError
  /\ raises (json_to_pdf sample_repr RUN_TIME (PDict draft_with_one_model)).
Proof.
  apply (json_to_pdf_mapping_checks sample_repr RUN_TIME draft_with_one_model
           (lit "models") (category_arts draft_with_one_model (lit "models"))
           (lit "Model weights integrity (hash verification)")
           (check_result 1 [])
           (map (fun c => (c, check_result 1 [])) (tl models_checks)));
    try reflexivity.
  unfold category_keys, checks; simpl; tauto.
Defined.

(* ------------------------------------------------------------------ *)
(** *** A record with fields missing *)

(** Metadata with the project id only, an item with a blank name, a check
    without notes. *)
Lemma missing_fields_placeholders_witness :
  let metadata := [(lit "project_id", PStr (lit "P-17"))] in
  let item := [(lit "name", PStr (lit "   "))] in
  let check := [(lit "name", PStr (lit "Secrets scanning")); (lit "score", PInt 2)] in
  (exists data,
      create_metadata_table sample_repr (PDict metadata) = Ok (Table data)
      /\ nth_error data 3
         = Some [CellPara (Paragraph (PStr (lit "<b>Reviewer Name:</b>")) TableText);
                 CellPara (Paragraph (PStr (lit "N/A")) TableText)])
  /\ (exists data,
         create_metadata_table sample_repr (PDict metadata) = Ok (Table data)
         /\ nth_error data 6
            = Some [CellPara (Paragraph (PStr (lit "<b>Project ID:</b>")) TableText);
                    CellPara (Paragraph (PStr (lit "P-17")) TableText)])
  /\ component_items sample_repr [] 1 [PDict item]
     = Ok [FPara (Paragraph (PStr (lit "1. (Unnamed component)")) ItemHeader);
           FPara (Paragraph (PStr (lit "No checks recorded.")) TableText);
           Spacer 1 25]
  /\ third_cell (table_row sample_repr (PDict check))
     = Some (CellPara (Paragraph (PStr [8212%N]) TableText)).
Proof.
  destruct (missing_fields_placeholders sample_repr
              [(lit "project_id", PStr (lit "P-17"))]
              [(lit "name", PStr (lit "   "))]
              [(lit "name", PStr (lit "Secrets scanning")); (lit "score", PInt 2)]
              [] 1 [])
    as ((Htable & Hna) & Hitem & Hcell & _).
  - right. exists (lit "   "). now split.
  - reflexivity.
  - split; [|split; [|split]].
    + exact (Hna 3%nat (lit "reviewer_name") (lit "Reviewer Name") eq_refl eq_refl).
    + eexists. split; [exact Htable | reflexivity].
    + rewrite Hitem. reflexivity.
    + exact Hcell.
Defined.

(* ------------------------------------------------------------------ *)
(** *** The review summary of a record with one model *)

(** The summary of the record with one model scored 5, 1, 1, 1, 1, 1. *)
Lemma final_summary_review_witness :
  final_summary sample_float_add sample_float_of_int sample_list_gt
    (PDict one_critical_model)
  = Ok (PInt 10, true)
  /\ review_total one_critical_model
     = category_total models_checks (category_arts one_critical_model (lit "models")).
Proof.
  destruct (final_summary_review sample_float_add sample_float_of_int sample_list_gt
              one_critical_model eq_refl) as [Hsum Hmodels].
  split; [exact Hsum|].
  apply Hmodels; try reflexivity. discriminate.
Defined.

(* ------------------------------------------------------------------ *)
(** *** A run of the form *)

Example sample_run :
  render_section sample_float_add sample_float_of_int sample_list_gt sample_ui
    (lit "models") (PDict one_critical_model)
  = (Rerun,
     PDict (with_models
              [PDict [(lit "name", PStr (lit "Llama"));
                      (lit "checks",
                       PDict (map (fun c => (c, check_result 4 (lit "see report")))
                                models_checks))]]),
     None).
Proof. reflexivity. Qed.


(* ------------------------------------------------------------------ *)
(** *** Saving the draft of project "../x" *)

(** The record of project "../x" saved into the fresh repository. *)
Lemma save_draft_outside_drafts_witness :
  exists fs',
    save_draft sample_json_dump SAMPLE_REPO fresh_repo SAVE_TIME
      (PDict traversal_record)
    = Ok (lit "x_20251201_093000.json", fs')
    /\ file_lookup (files fs')
         [lit "srv"; lit "aimcr-reviews"; lit "x_20251201_093000.json"]
       = Some (lit "../x")
    /\ load_draft sample_json_load SAMPLE_REPO fs' (lit "x_20251201_093000.json")
       = PNone
    /\ load_draft sample_json_load SAMPLE_REPO fs' (lit "x_20251201_093000.json")
       <> PDict traversal_record.
Proof.
  exact (save_draft_outside_drafts sample_json_dump sample_json_load SAMPLE_REPO
           fresh_repo SAVE_TIME traversal_record (lit "../x")
           eq_refl eq_refl eq_refl eq_refl eq_refl eq_refl eq_refl).
Defined.

(** With a project id that names a directory which does not exist, nothing is
    saved. *)
Example save_draft_missing_directory :
  save_draft sample_json_dump SAMPLE_REPO fresh_repo SAVE_TIME
    (PDict (dict_set empty_record (lit "project_id") (PStr (lit "A/B"))))
  = Raise FileNotFoundError.
Proof. reflexivity. Qed.

(** With a plain project id the draft is in the [drafts] directory. *)
Example save_draft_plain_id :
  exists fs',
    save_draft sample_json_dump SAMPLE_REPO fresh_repo SAVE_TIME (PDict empty_record)
    = Ok (lit "PROJ001_20251201_093000.json", fs')
    /\ file_lookup (files fs')
         [lit "srv"; lit "aimcr-reviews"; lit "drafts";
          lit "PROJ001_20251201_093000.json"]
       = Some (lit "PROJ001").
Proof. eexists. split; reflexivity. Qed.

(* ------------------------------------------------------------------ *)
(** *** A report of the generator *)

Example sample_report_accepted :
  record_ok sample_report = true
  /\ is_ok (json_to_pdf sample_repr RUN_TIME (PDict sample_report)) = true
  /\ record_ok draft_with_one_model = false
  /\ calculate_total_risk
       (PList [scored_entry (PInt 3); PStr (lit "Secrets scanning")])
     = Raise AttributeError.
Proof. repeat split. Qed.

(** The two models of the sample report, the second without a name. *)
Lemma section_items_numbered_witness :
  exists out,
    add_component_section sample_repr [] (lit "AI Models")
      (PList (category_arts sample_report (lit "models")))
    = Ok out
    /\ styled ItemHeader out
       = [PStr (lit "1. Llama 3"); PStr (lit "2. (Unnamed component)")].
Proof.
  eexists. split; [reflexivity|].
  exact (section_items_numbered sample_repr [] (lit "AI Models")
           (category_arts sample_report (lit "models")) _ eq_refl).
Defined.

(** The frame of the sample report. *)
Lemma json_to_pdf_frame_witness :
  exists story,
    json_to_pdf sample_repr RUN_TIME (PDict sample_report) = Ok story
    /\ hd_error story
       = Some (FPara (Paragraph (PStr (lit "KSL AI Model Control Review")) DocTitle))
    /\ styled DocTitle story = [PStr (lit "KSL AI Model Control Review")]
    /\ styled SectionHeader story = SECTION_TITLES
    /\ page_breaks story = 3%nat
    /\ styled Footer story = [PStr (lit "Report generated on 2025-12-01 09:30:00")]
    /\ last story PageBreak
       = FPara (Paragraph (PStr (lit "Report generated on 2025-12-01 09:30:00"))
                  Footer).
Proof.
  eexists. split; [reflexivity|].
  exact (json_to_pdf_frame sample_repr RUN_TIME (PDict sample_report) _ eq_refl).
Defined.

(* ------------------------------------------------------------------ *)
(** *** The path of the document and the status of the program *)

(** The input [reviews/PROJ001.json], without and with an output path. *)
Lemma output_path_default_witness :
  output_path (lit "reviews/PROJ001.json") None = lit "reviews/PROJ001.pdf"
  /\ output_path (lit "json") None = lit "json.pdf"
  /\ output_path (lit "reviews/PROJ001.json") (Some []) = lit "reviews/PROJ001.pdf"
  /\ output_path (lit "reviews/PROJ001.json") (Some (lit "out.pdf")) = lit "out.pdf".
Proof.
  exact (output_path_default (lit "reviews/PROJ001") (lit "json") (lit "ut.pdf")
           111%N eq_refl).
Defined.

(** An input without extension in a directory whose name has a full stop:
    the document is written next to the directory. *)
Example output_path_dotted_directory :
  output_path (lit "v1.2/report") None = lit "v1.pdf".
Proof. reflexivity. Qed.

Example main_runs :
  main sample_repr sample_load_json sample_doc_build RUN_TIME
    [lit "json_to_pdf.py"; lit "report.json"]
  = (Created (lit "report.pdf"), 0)
  /\ main sample_repr sample_load_json sample_doc_build RUN_TIME
       [lit "json_to_pdf.py"; lit "report.json"; lit "out/r.pdf"]
     = (Created (lit "out/r.pdf"), 0)
  /\ main sample_repr sample_load_json sample_doc_build RUN_TIME
       [lit "json_to_pdf.py"; lit "draft.json"]
     = (Failed AttributeError, 1)
  /\ main sample_repr sample_load_json sample_doc_build RUN_TIME
       [lit "json_to_pdf.py"]
     = (Usage, 1).
Proof. repeat split. Qed.

(* ------------------------------------------------------------------ *)
(** *** Runs of the models section *)

(** A model is added, nothing is removed: both models hold what the widgets
    returned. *)
Lemma render_section_stores_witness :
  exists d' shown,
    render_section sample_float_add sample_float_of_int sample_list_gt quiet_ui
      (lit "models") (PDict one_critical_model)
    = (Finished, PDict d', shown)
    /\ List.length (category_arts d' (lit "models")) = 2%nat
    /\ forall i a, nth_error (category_arts d' (lit "models")) i = Some a ->
         shows quiet_ui (lit "models") models_checks (Z.of_nat i) a.
Proof.
  exact (render_section_stores sample_float_add sample_float_of_int sample_list_gt
           quiet_ui (lit "models") models_checks one_critical_model
           eq_refl eq_refl eq_refl).
Defined.

(** A model is added and the second model, the new one, is removed. *)
Lemma render_section_removes_witness :
  exists d' edited,
    render_section sample_float_add sample_float_of_int sample_list_gt sample_ui
      (lit "models") (PDict one_critical_model)
    = (Rerun, PDict d', None)
    /\ category_arts d' (lit "models")
       = edited ++
         skipn 2 (with_added sample_ui (lit "models") models_checks
                    (category_arts one_critical_model (lit "models")))
    /\ List.length edited = 1%nat
    /\ forall i a, nth_error edited i = Some a ->
         shows sample_ui (lit "models") models_checks (Z.of_nat i) a.
Proof.
  exact (render_section_removes sample_float_add sample_float_of_int sample_list_gt
           sample_ui (lit "models") models_checks one_critical_model 1%nat
           eq_refl eq_refl eq_refl).
Defined.

Example render_section_frame_sample :
  exists d',
    snd (fst (render_section sample_float_add sample_float_of_int sample_list_gt sample_ui
                (lit "models") (PDict one_critical_model)))
    = PDict d'
    /\ dict_lookup d' (lit "project_id") = Some (PStr (lit "PROJ001"))
    /\ dict_lookup d' (lit "source_code") = Some (PList []).
Proof. eexists. repeat split. Qed.

(* ------------------------------------------------------------------ *)
(** *** Totals and severity of valid records *)

(** The models section of the record with one model scored 5, 1, 1, 1, 1, 1. *)
Lemma section_total_bounds_witness :
  exists shown t,
    section_risk sample_float_add sample_float_of_int sample_list_gt
      (lit "models") (PDict one_critical_model)
    = Ok (Some shown)
    /\ rd_total shown = PInt t
    /\ 6 <= t <= 30
    /\ rd_level shown = lit "CRITICAL".
Proof.
  exact (section_total_bounds sample_float_add sample_float_of_int sample_list_gt
           (lit "models") models_checks one_critical_model eq_refl eq_refl).
Defined.

(** One artifact in each category, every check scored 1 (no risk): the final
    risk score is 24, and the review is reported as critical. *)
Lemma populated_review_critical_witness :
  final_summary sample_float_add sample_float_of_int sample_list_gt (PDict all_ones_record)
  = Ok (PInt 24, true)
  /\ 24 <= review_total all_ones_record <= 120.
Proof.
  exact (populated_review_critical sample_float_add sample_float_of_int sample_list_gt
           all_ones_record eq_refl eq_refl).
Defined.

(** The record whose models section shows CRITICAL. *)
Lemma section_critical_review_critical_witness :
  final_summary sample_float_add sample_float_of_int sample_list_gt (PDict one_critical_model)
  = Ok (PInt 10, true).
Proof.
  exact (section_critical_review_critical sample_float_add sample_float_of_int sample_list_gt
           (lit "models") models_checks one_critical_model
           {| rd_total := PInt 10; rd_color := lit "red"; rd_level := lit "CRITICAL" |}
           eq_refl eq_refl eq_refl eq_refl).
Defined.

(** A run in which every section gets an artifact and nothing is removed. *)
Lemma sections_and_summary_valid_witness :
  (exists d',
      snd (fst (sections_and_summary sample_float_add sample_float_of_int sample_list_gt quiet_ui
                  (PDict one_critical_model)))
      = PDict d'
      /\ valid_record d' = true
      /\ snd (sections_and_summary sample_float_add sample_float_of_int sample_list_gt quiet_ui
                (PDict one_critical_model))
         = Some (PInt (review_total d'), review_critical d'))
  /\ fst (fst (sections_and_summary sample_float_add sample_float_of_int sample_list_gt quiet_ui
                 (PDict one_critical_model)))
     = Finished
  /\ valid_record empty_record = true.
Proof.
  destruct (sections_and_summary_valid sample_float_add sample_float_of_int sample_list_gt
              quiet_ui one_critical_model (lit "01-12-2025") eq_refl)
    as ((d' & Hd & Hv & Hs) & _ & (d0 & Hinit & Hv0)).
  split; [|split].
  - exists d'. split; [exact Hd|]. split; [exact Hv | exact Hs].
  - reflexivity.
  - injection Hinit as <-. exact Hv0.
Defined.

(* ------------------------------------------------------------------ *)
(** *** Drafts saved and listed *)


(** The record of a new session saved into the repository with drafts. *)
Lemma save_draft_frame_witness :
  exists fs',
    save_draft sample_json_dump SAMPLE_REPO repo_with_drafts SAVE_TIME
      (PDict empty_record)
    = Ok (lit "PROJ001_20251201_093000.json", fs')
    /\ (forall p, in_git p = false ->
          (In p (dirs fs') <-> In p (dirs repo_with_drafts)))
    /\ exists target content,
         sample_json_dump (PDict empty_record) = Ok content
         /\ path_name target = lit "PROJ001_20251201_093000.json"
         /\ (in_git target = false ->
             file_lookup (files fs') target = Some content)
         /\ forall q, in_git q = false -> q <> target ->
              file_lookup (files fs') q = file_lookup (files repo_with_drafts) q.
Proof.
  eexists. split; [reflexivity|].
  exact (save_draft_frame sample_json_dump SAMPLE_REPO repo_with_drafts SAVE_TIME
           (PDict empty_record) _ _ eq_refl).
Defined.

(** The record whose project id is three spaces. *)
Lemma save_draft_unknown_witness :
  exists fs',
    save_draft sample_json_dump SAMPLE_REPO fresh_repo SAVE_TIME
      (PDict blank_id_record)
    = Ok (lit "UNKNOWN_20251201_093000.json", fs')
    /\ file_lookup (files fs')
         [lit "srv"; lit "aimcr-reviews"; lit "drafts";
          lit "UNKNOWN_20251201_093000.json"]
       = Some (lit "   ").
Proof.
  exact (save_draft_unknown sample_json_dump SAMPLE_REPO fresh_repo SAVE_TIME
           blank_id_record (lit "   ") eq_refl eq_refl eq_refl eq_refl eq_refl).
Defined.

(** The listing of the repository with drafts: the two drafts and the
    directory [old.json], not the note and not the file next to the drafts
    directory; loading the directory gives [None]. *)
Example list_drafts_sample :
  draft_choices SAMPLE_REPO sample_mtime repo_with_drafts
  = [[]; lit "BB_2.json"; lit "A_1.json"; lit "old.json"]
  /\ load_draft sample_json_load SAMPLE_REPO repo_with_drafts (lit "old.json")
     = PNone.
Proof. split; reflexivity. Qed.


(** The record of project "../x" saved into the repository with drafts. *)
Lemma traversal_draft_unlisted_witness :
  exists fs',
    save_draft sample_json_dump SAMPLE_REPO repo_with_drafts SAVE_TIME
      (PDict traversal_record)
    = Ok (lit "x_20251201_093000.json", fs')
    /\ file_lookup (files fs')
         [lit "srv"; lit "aimcr-reviews"; lit "x_20251201_093000.json"]
       = Some (lit "../x")
    /\ list_drafts SAMPLE_REPO sample_mtime fs'
       = list_drafts SAMPLE_REPO sample_mtime repo_with_drafts
    /\ draft_choices SAMPLE_REPO sample_mtime fs'
       = draft_choices SAMPLE_REPO sample_mtime repo_with_drafts.
Proof.
  exact (traversal_draft_unlisted sample_json_dump SAMPLE_REPO sample_mtime
           repo_with_drafts SAVE_TIME traversal_record (lit "../x")
           eq_refl eq_refl eq_refl eq_refl eq_refl eq_refl).
Defined.

(* ------------------------------------------------------------------ *)
(** *** The body of an item and the report of a new session *)

(** The first model of the sample report: scores 3 and 2, short notes. *)
Lemma item_checks_total_witness :
  let entries := [scored_entry (PInt 3); noted_entry (lit "see report")] in
  item_checks sample_repr
    (PDict [(lit "name", PStr (lit "  Llama 3 ")); (lit "checks", PList entries)])
  = Ok [Table (TABLE_HEADER :: map (table_row sample_repr) entries);
        FPara (Paragraph (PStr (lit "Total Risk Score: 5")) TotalRisk)].
Proof.
  exact (item_checks_total sample_repr
           [(lit "name", PStr (lit "  Llama 3 "));
            (lit "checks",
             PList [scored_entry (PInt 3); noted_entry (lit "see report")])]
           [scored_entry (PInt 3); noted_entry (lit "see report")]
           eq_refl eq_refl).
Defined.

(** The record of a new session of the form holds the project id PROJ001 at
    its top level; its report shows "N/A" as project id. *)
Lemma report_without_metadata_witness :
  dict_lookup empty_record (lit "project_id") = Some (PStr (lit "PROJ001"))
  /\ exists story data,
       json_to_pdf sample_repr RUN_TIME (PDict empty_record) = Ok story
       /\ nth_error story 3 = Some (Table data)
       /\ List.length data = 7%nat
       /\ nth_error data 0
          = Some [CellPara (Paragraph (PStr (lit "<b>Proposal Title:</b>")) TableText);
                  CellPara (Paragraph (PStr (lit "N/A")) TableText)]
       /\ nth_error data 6
          = Some [CellPara (Paragraph (PStr (lit "<b>Project ID:</b>")) TableText);
                  CellPara (Paragraph (PStr (lit "N/A")) TableText)].
Proof.
  split; [reflexivity|]. eexists. eexists. split; [reflexivity|].
  split;
    [exact (report_without_metadata sample_repr RUN_TIME empty_record _
              eq_refl eq_refl)
    | repeat split; reflexivity].
Defined.
